(** * Ingestion and aggregation core of the benchmark plotting scripts

    A shallow embedding of the data-cleaning functions of
    [scripts/plot_phase1.py], [scripts/plot_multicore.py] and
    [scripts/plot_bdev.py] and of the configuration rewriter of
    [scripts/apply_ssd_profile.py], and the properties stated about them.

    Conventions of the embedding.
    - A Python [str] is a [string]; its characters are code points below 256.
    - A Python [float] is a [pyfloat]: an exact rational, the two infinities
      or NaN.  Finite arithmetic is exact: rounding to binary64, overflow to
      infinity and the sign of zero are not represented.
    - A Python [dict] whose iteration order is observed is a [pydict], an
      association list in insertion order; a [dict] that is only read by key
      is a [gmap].  Keys are compared by value: the identity of objects, by
      which Python tells two NaN keys apart, is not represented.
    - A Python [set] of floats is the list of its elements, each once; the
      order in which a set is iterated is left open by the language, and
      every set of the scripts is sorted before it is used.
    - [sorted] on floats is a merge sort: without NaN the sorted list does
      not depend on the algorithm.  [sorted] with a key is an insertion sort
      that keeps items of equal keys in their order, as Python's sort does.
    - A text file is the [string] of its decoded text; reading translates
      line ends to line feeds and writing leaves them as they are.
    - An exception is a [Raise] result; [try]/[except] is a [match]. *)

From Stdlib Require Import QArith Qcanon ZArith Ascii String.
From stdpp Require Import base list strings gmap numbers sorting pretty.

Local Open Scope string_scope.
Local Open Scope list_scope.

(** ** Exceptions *)

Inductive exn : Type :=
  | ValueError
  | TypeError
  | KeyError
  | ZeroDivisionError
  | CsvError.

Inductive result (A : Type) : Type :=
  | Ok (a : A)
  | Raise (e : exn).
Arguments Ok {A} a.
Arguments Raise {A} e.

Definition rbind {A B : Type} (m : result A) (f : A -> result B) : result B :=
  match m with
  | Ok a => f a
  | Raise e => Raise e
  end.

Notation "x ←r m ; k" := (rbind m (fun x => k))
  (at level 20, m at level 100, k at level 200, only parsing).

#[global] Instance exn_eq_dec : EqDecision exn.
Proof. solve_decision. Defined.

#[global] Instance result_eq_dec {A : Type} `{EqDecision A} : EqDecision (result A).
Proof. solve_decision. Defined.

(** ** Floats *)

Module PyFloat.

Inductive pyfloat : Type :=
  | Fin (q : Qc)
  | PInf
  | NInf
  | NaN.

#[global] Instance pyfloat_eq_dec : EqDecision pyfloat.
Proof. solve_decision. Defined.

Definition of_Z (z : Z) : pyfloat := Fin (Qc_of_Z z).
Definition of_nat (n : nat) : pyfloat := of_Z (Z.of_nat n).

Definition zero : pyfloat := of_Z 0.

(** [math.isnan] / [np.isnan]. *)
Definition isnan (x : pyfloat) : bool :=
  match x with NaN => true | _ => false end.

(** Truth value of a float: false exactly for zero. *)
Definition truthy (x : pyfloat) : bool :=
  match x with
  | Fin q => negb (bool_decide (q = 0%Qc))
  | _ => true
  end.

(** [x + y]. *)
Definition fadd (x y : pyfloat) : pyfloat :=
  match x, y with
  | NaN, _ | _, NaN => NaN
  | PInf, NInf | NInf, PInf => NaN
  | PInf, _ | _, PInf => PInf
  | NInf, _ | _, NInf => NInf
  | Fin a, Fin b => Fin (a + b)
  end.

Definition fneg (x : pyfloat) : pyfloat :=
  match x with
  | Fin a => Fin (- a)
  | PInf => NInf
  | NInf => PInf
  | NaN => NaN
  end.

(** Sign of a finite value: [Lt], [Eq] or [Gt] against zero. *)
Definition qsign (a : Qc) : comparison := (a ?= 0)%Qc.

Definition inf_of_sign (positive : bool) : pyfloat :=
  if positive then PInf else NInf.


(** IEEE quotient for a divisor that is not zero (the value for a zero
    divisor is the one numpy returns; Python's [/] raises instead, see
    [truediv]). *)
Definition fdiv (x y : pyfloat) : pyfloat :=
  match x, y with
  | NaN, _ | _, NaN => NaN
  | Fin a, Fin b =>
      if bool_decide (b = 0%Qc)
      then match qsign a with Eq => NaN | Gt => PInf | Lt => NInf end
      else Fin (a / b)
  | Fin _, (PInf | NInf) => zero
  | PInf, Fin b => match qsign b with Lt => NInf | _ => PInf end
  | NInf, Fin b => match qsign b with Lt => PInf | _ => NInf end
  | (PInf | NInf), (PInf | NInf) => NaN
  end.

(** Python's [x / y] on floats: [ZeroDivisionError] for a zero divisor. *)
Definition truediv (x y : pyfloat) : result pyfloat :=
  if truthy y then Ok (fdiv x y) else Raise ZeroDivisionError.

(** [x < y]; every comparison with NaN is false. *)
Definition flt (x y : pyfloat) : bool :=
  match x, y with
  | NaN, _ | _, NaN => false
  | _, NInf => false
  | NInf, _ => true
  | PInf, _ => false
  | Fin _, PInf => true
  | Fin a, Fin b => bool_decide (a < b)%Qc
  end.

(** The builtin [sum] over floats: start at 0 and add from the left. *)
Definition fsum (l : list pyfloat) : pyfloat := foldl fadd zero l.

(** [numpy.mean] of a non-empty list of floats. *)
Definition np_mean (l : list pyfloat) : pyfloat :=
  fdiv (fsum l) (of_nat (length l)).

End PyFloat.
Export PyFloat.

(** ** Strings *)

Module PyStr.

Local Open Scope char_scope.

(** [str.isspace] on one character; also the class [\s] of [re]. *)
Definition is_space (c : ascii) : bool :=
  match c with
  | "009" | "010" | "011" | "012" | "013"
  | "028" | "029" | "030" | "031" | " " | "133" | "160" => true
  | _ => false
  end.

(** The characters [float] and [int] skip around a numeral. *)
Definition is_num_space (c : ascii) : bool :=
  match c with
  | "009" | "010" | "011" | "012" | "013" | " " | "133" | "160" => true
  | _ => false
  end.

(** The line boundaries of [str.splitlines]. *)
Definition is_linebreak (c : ascii) : bool :=
  match c with
  | "010" | "011" | "012" | "013" | "028" | "029" | "030" | "133" => true
  | _ => false
  end.

(** The line boundaries of a text file opened with universal newlines. *)
Definition is_newline (c : ascii) : bool :=
  match c with
  | "010" | "013" => true
  | _ => false
  end.

(** A decimal digit, the class [\d] of [re]. *)
Definition is_digit (c : ascii) : bool :=
  match c with
  | "0" | "1" | "2" | "3" | "4" | "5" | "6" | "7" | "8" | "9" => true
  | _ => false
  end.

Definition digit_val (c : ascii) : Z := Z.of_nat (nat_of_ascii c) - 48.

Definition lower (c : ascii) : ascii :=
  let n := nat_of_ascii c in
  if (65 <=? n)%nat && (n <=? 90)%nat then ascii_of_nat (n + 32) else c.

Local Open Scope string_scope.

Fixpoint lower_str (s : string) : string :=
  match s with
  | "" => ""
  | String a s' => String (lower a) (lower_str s')
  end.

Fixpoint str_forall (p : ascii -> bool) (s : string) : bool :=
  match s with
  | "" => true
  | String a s' => p a && str_forall p s'
  end.

(** Removal of leading and trailing characters of a class. *)
Fixpoint lstrip_by (sp : ascii -> bool) (s : string) : string :=
  match s with
  | "" => ""
  | String a s' => if sp a then lstrip_by sp s' else s
  end.

Fixpoint rstrip_by (sp : ascii -> bool) (s : string) : string :=
  match s with
  | "" => ""
  | String a s' =>
      match rstrip_by sp s' with
      | "" => if sp a then "" else String a ""
      | r => String a r
      end
  end.

(** [s.strip()]. *)
Definition strip (s : string) : string := rstrip_by is_space (lstrip_by is_space s).

(** [s.split(sep)] for a one-character separator. *)
Fixpoint split (sep : ascii) (s : string) : list string :=
  match s with
  | "" => [""]
  | String a s' =>
      if bool_decide (a = sep) then "" :: split sep s'
      else match split sep s' with
           | h :: t => String a h :: t
           | [] => [String a ""]
           end
  end.

(** Lines of a text for a class of boundary characters, a carriage return
    followed by a line feed counting as one boundary; a final boundary
    opens no further line.  [skip_lf] holds just after a carriage return. *)
Fixpoint lines_from (brk : ascii -> bool) (skip_lf : bool) (s : string) : list string :=
  match s with
  | "" => []
  | String a s' =>
      if skip_lf && bool_decide (a = "010"%char) then lines_from brk false s'
      else if brk a then "" :: lines_from brk (bool_decide (a = "013"%char)) s'
      else match lines_from brk false s' with
           | h :: t => String a h :: t
           | [] => [String a ""]
           end
  end.

(** [s.splitlines()]. *)
Definition splitlines (s : string) : list string := lines_from is_linebreak false s.

(** [s.endswith(c)] for a one-character suffix. *)
Fixpoint endswith (c : ascii) (s : string) : bool :=
  match s with
  | "" => false
  | String a "" => bool_decide (a = c)
  | String _ s' => endswith c s'
  end.

(** [old in s] for a two-character [old]. *)
Fixpoint contains2 (c1 c2 : ascii) (s : string) : bool :=
  match s with
  | String a (String b _ as s') =>
      (bool_decide (a = c1) && bool_decide (b = c2)) || contains2 c1 c2 s'
  | _ => false
  end.

(** [s.replace(old, new)] for a two-character [old]: occurrences are
    replaced from the left and do not overlap. *)
Fixpoint replace2 (c1 c2 : ascii) (new : string) (s : string) : string :=
  match s with
  | String a (String b s'' as s') =>
      if bool_decide (a = c1) && bool_decide (b = c2)
      then new +:+ replace2 c1 c2 new s''
      else String a (replace2 c1 c2 new s')
  | _ => s
  end.

(** *** Numerals *)

(** Continuation of a [digitpart]: digits, each optionally preceded by one
    underscore.  Returns the value, the number of digits and what is left. *)
Fixpoint digits_go (acc : Z) (n : nat) (s : string) : Z * nat * string :=
  match s with
  | "" => (acc, n, s)
  | String c r =>
      if is_digit c then digits_go (10 * acc + digit_val c) (S n) r
      else if bool_decide (c = "_"%char) then
        match r with
        | String d r' =>
            if is_digit d then digits_go (10 * acc + digit_val d) (S n) r'
            else (acc, n, s)
        | "" => (acc, n, s)
        end
      else (acc, n, s)
  end.

(** The longest prefix [digit (["_"] digit)*], if there is one. *)
Definition digitpart (s : string) : option (Z * nat * string) :=
  match s with
  | String c r => if is_digit c then Some (digits_go (digit_val c) 1 r) else None
  | "" => None
  end.

Definition opt_digitpart (s : string) : Z * nat * string :=
  match digitpart s with
  | Some r => r
  | None => (0%Z, 0%nat, s)
  end.

(** What follows a given first character, if the string starts with it. *)
Definition eat (c : ascii) (s : string) : option string :=
  match s with
  | String a r => if bool_decide (a = c) then Some r else None
  | "" => None
  end.

(** An optional sign: whether it is a minus, and what follows. *)
Definition sign_split (s : string) : bool * string :=
  match eat "+" s with
  | Some r => (false, r)
  | None =>
      match eat "-" s with
      | Some r => (true, r)
      | None => (false, s)
      end
  end.

Definition num_strip (s : string) : string :=
  rstrip_by is_num_space (lstrip_by is_num_space s).

(** [int(s)] for a string, base ten.  The limit the interpreter can put on
    the number of digits is not represented. *)
Definition py_int (s : string) : result Z :=
  let '(neg, body) := sign_split (num_strip s) in
  match digitpart body with
  | Some (n, _, "") => Ok (if neg : bool then - n else n)%Z
  | _ => Raise ValueError
  end.

(** The exponent part of a float numeral, or nothing. *)
Definition exponent (s : string) : option Z :=
  match s with
  | "" => Some 0%Z
  | String c r =>
      if bool_decide (lower c = "e"%char) then
        let '(neg, r') := sign_split r in
        match digitpart r' with
        | Some (e, _, "") => Some (if neg : bool then - e else e)%Z
        | _ => None
        end
      else None
  end.

(** [number [exponent]] of the float grammar, as an exact rational. *)
Definition floatnumber (s : string) : option Qc :=
  let '(i, ni, r1) := opt_digitpart s in
  let '(f, nf, r2) :=
    match eat "." r1 with
    | Some r => opt_digitpart r
    | None => (0%Z, 0%nat, r1)
    end in
  if (ni + nf =? 0)%nat then None
  else match exponent r2 with
       | Some e =>
           Some (Q2Qc (inject_Z (i * 10 ^ Z.of_nat nf + f)
                       * Qpower (inject_Z 10) (e - Z.of_nat nf)))
       | None => None
       end.

(** [float(s)] for a string. *)
Definition py_float (s : string) : result pyfloat :=
  let '(neg, body) := sign_split (num_strip s) in
  let low := lower_str body in
  if bool_decide (low = "inf") || bool_decide (low = "infinity")
  then Ok (if neg : bool then NInf else PInf)
  else if bool_decide (low = "nan") then Ok NaN
  else match floatnumber body with
       | Some q => Ok (Fin (if neg : bool then - q else q)%Qc)
       | None => Raise ValueError
       end.

End PyStr.
Export PyStr.

(** ** Insertion-ordered dictionaries *)

Module PyDict.

Section pydict.
Context {K V : Type} `{EqDecision K}.

(** The items of a [dict], oldest key first.  Keys are compared by
    value. *)
Definition pydict : Type := list (K * V).

(** [d.get(k)]: [None] when the key is absent. *)
Fixpoint dict_get (k : K) (d : pydict) : option V :=
  match d with
  | [] => None
  | (k', v') :: d' => if decide (k = k') then Some v' else dict_get k d'
  end.

(** [d[k] = v]: an existing key keeps its place, a new one goes last. *)
Fixpoint dict_set (k : K) (v : V) (d : pydict) : pydict :=
  match d with
  | [] => [(k, v)]
  | (k', v') :: d' =>
      if decide (k = k') then (k', v) :: d' else (k', v') :: dict_set k v d'
  end.

Definition dict_keys (d : pydict) : list K := d.*1.
End pydict.

Arguments pydict : clear implicits.

End PyDict.
Export PyDict.

(** ** Values handed to the decoders *)

(** A cell as the callers pass it: [None], an integer, a float or a string
    (any other object stands for its [str()]). *)
Inductive pyval : Type :=
  | VNone
  | VInt (z : Z)
  | VFloat (x : pyfloat)
  | VStr (s : string).

(** A list comprehension whose body can raise: the first exception ends
    it. *)
Fixpoint rmapM {A B : Type} (f : A -> result B) (l : list A) : result (list B) :=
  match l with
  | [] => Ok []
  | a :: l' => b ←r f a; bs ←r rmapM f l'; Ok (b :: bs)
  end.

(** A loop over a list whose body can raise. *)
Fixpoint rfoldM {A B : Type} (f : B -> A -> result B) (b : B) (l : list A) : result B :=
  match l with
  | [] => Ok b
  | a :: l' => b' ←r f b a; rfoldM f b' l'
  end.

(** ** [scripts/plot_phase1.py] *)

Module plot_phase1.

(** The characters of the class [[0-9eE+.-]]. *)
Definition is_value_char (c : ascii) : bool :=
  is_digit c
  || match c with
     | "e" | "E" | "+" | "." | "-" => true
     | _ => false
     end%char.

Fixpoint span_by (p : ascii -> bool) (s : string) : string * string :=
  match s with
  | "" => ("", "")
  | String a s' =>
      if p a then let '(h, t) := span_by p s' in (String a h, t)
      else ("", s)
  end.

(** [re.match(r"^(\d+\+?):\s*([0-9eE+.-]+)$", p)]: the two groups of a
    match.  [$] also matches before one final line feed. *)
Definition hist_token (p : string) : option (string * string) :=
  let '(ds, r1) := span_by is_digit p in
  if bool_decide (ds = "") then None
  else
    let '(key, r2) :=
      match eat "+" r1 with
      | Some r => (ds +:+ "+", r)
      | None => (ds, r1)
      end in
    match eat ":" r2 with
    | Some r3 =>
        let '(val, r4) := span_by is_value_char (lstrip_by is_space r3) in
        if bool_decide (val = "") then None
        else if bool_decide (r4 = "") || bool_decide (r4 = String "010" "")
             then Some (key, val)
             else None
    | None => None
    end.

Definition parse_hist_step (out : pydict string pyfloat) (p : string)
  : pydict string pyfloat :=
  match hist_token p with
  | None => out
  | Some (key, val) =>
      match py_float val with
      | Ok x => dict_set key x out
      | Raise _ => out
      end
  end.

(** [parse_hist(hist_str)]. *)
Definition parse_hist (hist_str : pyval) : pydict string pyfloat :=
  match hist_str with
  | VStr s =>
      if bool_decide (strip s = "") then []
      else
        let parts := filter (fun p => p ≠ "") (strip <$> split "," s) in
        foldl parse_hist_step [] parts
  | _ => []
  end.

Definition empty_buckets : pydict string pyfloat :=
  [("Empty (0)", zero); ("Single (1)", zero); ("2-4", zero);
   ("5-8", zero); ("9-16", zero); ("17+", zero)].

(** [buckets[label] += v]; the label is one of the six keys, which are
    present from the start. *)
Definition bucket_add (label : string) (v : pyfloat) (buckets : pydict string pyfloat)
  : pydict string pyfloat :=
  match dict_get label buckets with
  | Some old => dict_set label (fadd old v) buckets
  | None => buckets
  end.

Definition bucket_step (buckets : pydict string pyfloat) (kv : string * pyfloat)
  : pydict string pyfloat :=
  let '(k, v) := kv in
  if endswith "+" k then bucket_add "17+" v buckets
  else
    match py_int k with
    | Raise _ => buckets
    | Ok i =>
        if (i =? 0)%Z then bucket_add "Empty (0)" v buckets
        else if (i =? 1)%Z then bucket_add "Single (1)" v buckets
        else if (2 <=? i)%Z && (i <=? 4)%Z then bucket_add "2-4" v buckets
        else if (5 <=? i)%Z && (i <=? 8)%Z then bucket_add "5-8" v buckets
        else if (9 <=? i)%Z && (i <=? 16)%Z then bucket_add "9-16" v buckets
        else bucket_add "17+" v buckets
    end.

(** [bucket_hist_simplified(hist)]. *)
Definition bucket_hist_simplified (hist : pydict string pyfloat)
  : pydict string pyfloat :=
  foldl bucket_step empty_buckets hist.

(** The labels of the bars, in the order [plot_completions_log_scale] and
    [plot_completions_stacked_by_qd] list them. *)
Definition order : list string :=
  ["Empty (0)"; "Single (1)"; "2-4"; "5-8"; "9-16"; "17+"].



(** [agg_hist_total[k] = agg_hist_total.get(k, 0.0) + val]. *)
Definition agg_step (agg_hist_total : pydict string pyfloat) (kv : string * pyfloat)
  : pydict string pyfloat :=
  dict_set kv.1 (fadd (default zero (dict_get kv.1 agg_hist_total)) kv.2) agg_hist_total.

(** The aggregate histogram [main] builds from the texts of the histogram
    cells of all rows ([str(v)] for each cell [v]). *)
Definition agg_hist_total (cells : list string) : pydict string pyfloat :=
  foldl (fun agg v => foldl agg_step agg (bucket_hist_simplified (parse_hist (VStr v))))
        [] cells.


End plot_phase1.

(** ** [scripts/plot_multicore.py] *)

Module plot_multicore.

(** The values of one line: its comma separated parts, stripped, the empty
    ones dropped, those [float] rejects skipped. *)
Definition line_values (line : string) : list pyfloat :=
  let parts := filter (fun p => p ≠ "") (strip <$> split "," line) in
  omap (fun part => match py_float part with Ok x => Some x | Raise _ => None end) parts.

Definition unescape (text : string) : string :=
  if contains2 "\" "n" text || contains2 "\" "r" text
  then replace2 "\" "n" (String "010" "") (replace2 "\" "r" (String "013" "") text)
  else text.

(** [parse_per_core_values(cell)]. *)
Definition parse_per_core_values (cell : pyval) : list pyfloat :=
  match cell with
  | VNone => []
  | VInt z => [of_Z z]
  | VFloat x => if isnan x then [] else [x]
  | VStr s =>
      let text := unescape (strip s) in
      if bool_decide (text = "") then []
      else mjoin (line_values <$> splitlines text)
  end.

(** [per_core_mean(cell)]. *)
Definition per_core_mean (cell : pyval) : pyfloat :=
  match parse_per_core_values cell with
  | [] => NaN
  | values => np_mean values
  end.

(** *** The reader of the [csv] module

    Dialect: comma as delimiter, the double quote (code 34) as quote
    character, doubled quotes, not strict.  The limit on the length of a
    field is not represented. *)
Module csv.

Inductive state : Type :=
  | START_RECORD
  | START_FIELD
  | IN_FIELD
  | IN_QUOTED_FIELD
  | QUOTE_IN_QUOTED_FIELD
  | EAT_CRNL.

#[global] Instance state_eq_dec : EqDecision state.
Proof. solve_decision. Defined.

Record reader : Type := Reader {
  st : state;
  field : string;
  fields : list string;
}.

Definition save_field (s : state) (r : reader) : reader :=
  Reader s "" (fields r ++ [field r]).

Definition add_char (s : state) (c : ascii) (r : reader) : reader :=
  Reader s (field r +:+ String c "") (fields r).

Definition set_state (s : state) (r : reader) : reader :=
  Reader s (field r) (fields r).

(** One input of the automaton: a character or the end of the line. *)
Inductive input : Type :=
  | Char (c : ascii)
  | EOL.

Definition quotechar : ascii := "034"%char.

Definition is_crlf (c : ascii) : bool :=
  bool_decide (c = "010"%char) || bool_decide (c = "013"%char).

Definition start_field (c : input) (r : reader) : reader :=
  match c with
  | EOL => save_field START_RECORD r
  | Char a =>
      if is_crlf a then save_field EAT_CRNL r
      else if bool_decide (a = quotechar) then set_state IN_QUOTED_FIELD r
      else if bool_decide (a = ","%char) then save_field START_FIELD r
      else add_char IN_FIELD a r
  end.

Definition process_char (r : reader) (c : input) : result reader :=
  match st r with
  | START_RECORD =>
      match c with
      | EOL => Ok r
      | Char a => if is_crlf a then Ok (set_state EAT_CRNL r) else Ok (start_field c r)
      end
  | START_FIELD => Ok (start_field c r)
  | IN_FIELD =>
      match c with
      | EOL => Ok (save_field START_RECORD r)
      | Char a =>
          if is_crlf a then Ok (save_field EAT_CRNL r)
          else if bool_decide (a = ","%char) then Ok (save_field START_FIELD r)
          else Ok (add_char IN_FIELD a r)
      end
  | IN_QUOTED_FIELD =>
      match c with
      | EOL => Ok r
      | Char a =>
          if bool_decide (a = quotechar) then Ok (set_state QUOTE_IN_QUOTED_FIELD r)
          else Ok (add_char IN_QUOTED_FIELD a r)
      end
  | QUOTE_IN_QUOTED_FIELD =>
      match c with
      | EOL => Ok (save_field START_RECORD r)
      | Char a =>
          if bool_decide (a = quotechar) then Ok (add_char IN_QUOTED_FIELD a r)
          else if bool_decide (a = ","%char) then Ok (save_field START_FIELD r)
          else if is_crlf a then Ok (save_field EAT_CRNL r)
          else Ok (add_char IN_FIELD a r)
      end
  | EAT_CRNL =>
      match c with
      | EOL => Ok (set_state START_RECORD r)
      | Char a => if is_crlf a then Ok r else Raise CsvError
      end
  end.

Fixpoint process_line (r : reader) (line : string) : result reader :=
  match line with
  | "" => process_char r EOL
  | String a line' => r' ←r process_char r (Char a); process_line r' line'
  end.

(** [next(csv.reader([line]))] for this dialect: the input ends after
    the one line, which closes a field left open in quotes. *)
Definition row (line : string) : result (list string) :=
  r ←r process_line (Reader START_RECORD "" []) line;
  Ok (if bool_decide (st r = IN_QUOTED_FIELD) then fields r ++ [field r] else fields r).

End csv.

(** The lines of the decoded text of the file, each without its line end
    (the list [lines]). *)
Definition file_lines (content : string) : list string :=
  lines_from is_newline false content.

(** [row_start_re.match(line)] for the pattern [^\d+,]. *)
Definition row_start (line : string) : bool :=
  match line with
  | String a _ => is_digit a && bool_decide (is_Some (eat "," (lstrip_by is_digit line)))
  | "" => false
  end.

(** The update of [row_lines[-1]]: a backslash, the letter n and the line
    are appended to the last buffer. *)
Fixpoint append_to_last (row_lines : list string) (line : string) : list string :=
  match row_lines with
  | [] => []
  | [x] => [x +:+ "\n" +:+ line]
  | x :: l => x :: append_to_last l line
  end.

Definition reconstruct_step (row_lines : list string) (line : string) : list string :=
  if bool_decide (line = "") then row_lines
  else if row_start line then row_lines ++ [line]
  else append_to_last row_lines line.

(** The padding of a short row with empty strings, under its guard. *)
Definition pad_row (header_len : nat) (row : list string) : list string :=
  if (length row <? header_len)%nat
  then row ++ replicate (header_len - length row) ""
  else row.

(** [read_multicore_csv] up to [data_rows]: the header and the rows from
    which the data frame is built, for the text of the file. *)
Definition read_multicore_csv (content : string)
  : result (list string * list (list string)) :=
  match file_lines content with
  | [] => Raise ValueError
  | first :: rest =>
      header ←r csv.row first;
      let header_len := length header in
      let row_lines := foldl reconstruct_step [] rest in
      data_rows ←r rmapM (fun row_text =>
                            row ←r csv.row row_text;
                            Ok (pad_row header_len row)) row_lines;
      Ok (header, data_rows)
  end.

End plot_multicore.


(** ** [scripts/plot_bdev.py] *)

Module plot_bdev.

(** A row of results: a [dict] from column names to floats, read by key. *)
Abbreviation row := (gmap string pyfloat).

(** The [try] block of [_group_mean]: the key tuple and the value of a row.
    [None] stands for the [KeyError] of a missing column, the one exception
    the block can raise on a row of floats, which the [except] clause turns
    into [continue]. *)
Definition key_and_value (r : row) (keys : list string) (value_key : string)
  : option (list pyfloat * pyfloat) :=
  key ← mapM (fun k => r !! k) keys;
  val ← r !! value_key;
  Some (key, val).

(** [buckets.setdefault(key, []).append(val)]. *)
Definition setdefault_append (key : list pyfloat) (val : pyfloat)
  (buckets : pydict (list pyfloat) (list pyfloat)) : pydict (list pyfloat) (list pyfloat) :=
  match dict_get key buckets with
  | Some vals => dict_set key (vals ++ [val]) buckets
  | None => dict_set key [val] buckets
  end.

Definition group_step (keys : list string) (value_key : string)
  (buckets : pydict (list pyfloat) (list pyfloat)) (r : row)
  : pydict (list pyfloat) (list pyfloat) :=
  match key_and_value r keys value_key with
  | Some (key, val) => setdefault_append key val buckets
  | None => buckets
  end.

(** [sum(vals) / len(vals) if vals else 0.0]. *)
Definition mean_or_zero (vals : list pyfloat) : result pyfloat :=
  match vals with
  | [] => Ok zero
  | _ => truediv (fsum vals) (of_nat (length vals))
  end.

(** The [dict] built for one group: the key columns, then the mean under
    [value_key]. *)
Definition group_entry (keys : list string) (value_key : string)
  (key : list pyfloat) (mean : pyfloat) : row :=
  <[value_key := mean]> (foldl (fun out kv => <[kv.1 := kv.2]> out) ∅ (zip keys key)).

(** [_group_mean(rows, keys, value_key)]. *)
Definition _group_mean (rows : list row) (keys : list string) (value_key : string)
  : result (list row) :=
  let buckets := foldl (group_step keys value_key) [] rows in
  rmapM (fun kv => mean ←r mean_or_zero kv.2;
                   Ok (group_entry keys value_key kv.1 mean)) buckets.

(** *** Scalar coercion in [load_results] *)

(** A value of a row of [csv.DictReader]: a string, [None] for a column the
    line is too short for, or the list of the cells beyond the header. *)
Inductive rawcell : Type :=
  | RNone
  | RStr (s : string)
  | RList (l : list string).

(** [float(v)]. *)
Definition float_of_cell (v : rawcell) : result pyfloat :=
  match v with
  | RStr s => py_float s
  | RNone | RList _ => Raise TypeError
  end.

(** [v in (None, "")]. *)
Definition is_missing (v : rawcell) : bool :=
  match v with
  | RNone => true
  | RStr s => bool_decide (s = "")
  | RList _ => false
  end.

(** The guarded conversion of one cell: the conditional expression inside
    [try], and the [except (ValueError, TypeError)] clause. *)
Definition coerce_cell (v : rawcell) : result pyfloat :=
  match (if is_missing v then Ok zero else float_of_cell v) with
  | Ok x => Ok x
  | Raise ValueError | Raise TypeError => Ok zero
  | Raise e => Raise e
  end.

Definition rename_map : pydict string string :=
  [("QD", "Queue Depth");
   ("IO_Size", "IO Size (Bytes)");
   ("IOPS", "IOPS");
   ("p50_Latency", "p50 Latency (us)");
   ("p99_Latency", "p99 Latency (us)");
   ("p99.9_Latency", "p99.9 Latency (us)");
   ("Cycles_Per_IO", "Cycles per IO");
   ("Instr_Per_IO", "Instructions per IO");
   ("LLC_Misses_Per_IO", "LLC Misses per IO");
   ("Dram_Read_Bytes_Per_IO", "DRAM Read Bytes per IO");
   ("Dram_Write_Bytes_Per_IO", "DRAM Write Bytes per IO");
   ("Energy_Per_IO", "Energy per IO (J)")].

(** [rename_map.get(k, k)]; the key is [None] for the cells beyond the
    header. *)
Definition rename (k : option string) : option string :=
  match k with
  | Some s => Some (default s (dict_get s rename_map))
  | None => None
  end.

Definition convert_step (out : pydict (option string) pyfloat) (kv : option string * rawcell)
  : result (pydict (option string) pyfloat) :=
  if bool_decide (kv.1 = Some "Completions_Per_Poll_Hist") then Ok out
  else x ←r coerce_cell kv.2; Ok (dict_set (rename kv.1) x out).

(** The record built from one row of the reader. *)
Definition convert_row (raw : pydict (option string) rawcell)
  : result (pydict (option string) pyfloat) :=
  rfoldM convert_step [] raw.

(** [load_results] on the rows the [csv.DictReader] yields. *)
Definition load_results (reader : list (pydict (option string) rawcell))
  : result (list (pydict (option string) pyfloat)) :=
  rmapM convert_row reader.

(** *** The overall distribution of [plot_histograms] *)

(** A row of [load_histograms]: a [dict] with exactly these six keys. *)
Record hist_row : Type := HistRow {
  io_size : pyfloat;
  queue_depth : pyfloat;
  run : pyfloat;
  start_us : pyfloat;
  end_us : pyfloat;
  count : pyfloat;
}.



(** The order [sorted] uses: [x] stays before [y] unless [y < x]. *)
Definition not_after (x y : pyfloat) : Prop := flt y x = false.

#[global] Instance not_after_dec : RelDecision not_after.
Proof. intros x y. unfold not_after. apply _. Defined.

(** [sorted(l)] for a list of floats. *)
Definition sorted (l : list pyfloat) : list pyfloat := merge_sort not_after l.



(** *** [load_histograms] *)

#[global] Instance hist_row_eq_dec : EqDecision hist_row.
Proof. solve_decision. Defined.

(** What is left of a string after a prefix, if it starts with it. *)
Fixpoint after_prefix (prefix s : string) : option string :=
  match prefix, s with
  | "", _ => Some s
  | String a p, String b s' => if bool_decide (a = b) then after_prefix p s' else None
  | String _ _, "" => None
  end.

(** A match of the pattern [hist_s(\d+)_q(\d+)_r(\d+)\.csv$] at the start
    of a string: its three groups.  [$] also matches before one final line
    feed. *)
Definition tags_here (s : string) : option (string * string * string) :=
  r0 ← after_prefix "hist_s" s;
  let '(d1, r1) := plot_phase1.span_by is_digit r0 in
  if bool_decide (d1 = "") then None
  else
    r2 ← after_prefix "_q" r1;
    let '(d2, r3) := plot_phase1.span_by is_digit r2 in
    if bool_decide (d2 = "") then None
    else
      r4 ← after_prefix "_r" r3;
      let '(d3, r5) := plot_phase1.span_by is_digit r4 in
      if bool_decide (d3 = "") then None
      else
        r6 ← after_prefix ".csv" r5;
        if bool_decide (r6 = "") || bool_decide (r6 = String "010" "")
        then Some (d1, d2, d3)
        else None.

(** [pattern.search(name)]: the match that starts first. *)
Fixpoint search_tags (name : string) : option (string * string * string) :=
  match tags_here name with
  | Some groups => Some groups
  | None =>
      match name with
      | "" => None
      | String _ name' => search_tags name'
      end
  end.

(** [float(row.get(k, 0) or 0)] on a row of [csv.DictReader]. *)
Definition hist_cell (raw : pydict (option string) rawcell) (k : string) : result pyfloat :=
  match dict_get (Some k) raw with
  | None | Some RNone | Some (RList []) => Ok zero
  | Some (RStr s) => if bool_decide (s = "") then Ok zero else py_float s
  | Some (RList (_ :: _)) => Raise TypeError
  end.

(** The body of the loop over the rows of one file: the row appended, or
    nothing when a conversion raises [TypeError] or [ValueError]. *)
Definition hist_row_of (size qd rn : Z) (raw : pydict (option string) rawcell)
  : result (option hist_row) :=
  match (s ←r hist_cell raw "start_us";
         e ←r hist_cell raw "end_us";
         c ←r hist_cell raw "count";
         Ok (HistRow (of_Z size) (of_Z qd) (of_Z rn) s e c)) with
  | Ok r => Ok (Some r)
  | Raise ValueError | Raise TypeError => Ok None
  | Raise e => Raise e
  end.

(** The rows of one file, given its base name and the rows of its reader;
    none at all when the name does not match the pattern. *)
Definition load_histogram_file (name : string) (reader : list (pydict (option string) rawcell))
  : result (list hist_row) :=
  match search_tags name with
  | None => Ok []
  | Some (g1, g2, g3) =>
      io_size ←r py_int g1;
      qd ←r py_int g2;
      rn ←r py_int g3;
      rows ←r rmapM (hist_row_of io_size qd rn) reader;
      Ok (omap id rows)
  end.

(** [load_histograms(hist_dir)], given the files the directory listing
    yields, in its sorted order: the base name and the rows of each. *)
Definition load_histograms
  (files : list (string * list (pydict (option string) rawcell))) : result (list hist_row) :=
  per_file ←r rmapM (fun f => load_histogram_file f.1 f.2) files;
  Ok (mjoin per_file).

(** *** Line plots *)

(** [x == y] on floats: NaN equals nothing, itself included. *)
Definition feq (x y : pyfloat) : bool := negb (isnan x) && bool_decide (x = y).

(** [_unique_values(rows, key)]: the set of the values of a column, sorted.
    The set is represented by the list of its elements, each once; the
    order in which a set is iterated is left open by the language, and the
    sorted list of numbers does not depend on it. *)
Definition _unique_values (rows : list row) (key : string) : list pyfloat :=
  sorted (remove_dups (omap (fun r : row => r !! key) rows)).

(** [r[k]]. *)
Definition item (k : string) (r : row) : result pyfloat :=
  match r !! k with
  | Some v => Ok v
  | None => Raise KeyError
  end.

(** Insertion of an item with its key into a list sorted by key: after the
    items with a smaller key, before all others. *)
Fixpoint insert_by_key (p : pyfloat * row) (l : list (pyfloat * row))
  : list (pyfloat * row) :=
  match l with
  | [] => [p]
  | q :: l' => if flt q.1 p.1 then q :: insert_by_key p l' else p :: l
  end.

(** [sorted(agg, key=lambda r: r[x])]: the keys are computed first, then the
    items are sorted by key, items of equal keys keeping their order (the
    sort is stable; for keys that are numbers this fixes the result). *)
Definition sorted_by (x : string) (agg : list row) : result (list row) :=
  keyed ←r rmapM (fun r => k ←r item x r; Ok (k, r)) agg;
  Ok ((foldr insert_by_key [] keyed).*2).

(** The two lists handed to [ax.plot] for the rows of one line: the
    abscissas and the ordinates. *)
Definition series (rows : list row) (x y : string)
  : result (list pyfloat * list pyfloat) :=
  agg ←r _group_mean rows [x] y;
  agg_sorted ←r sorted_by x agg;
  xs ←r rmapM (item x) agg_sorted;
  ys ←r rmapM (item y) agg_sorted;
  Ok (xs, ys).

(** [r.get(hue) == hv]. *)
Definition hue_is (hue : string) (hv : pyfloat) (r : row) : bool :=
  match r !! hue with
  | Some v => feq v hv
  | None => false
  end.

(** [lineplot(rows, x, y, hue, ...)]: the lines drawn, each with the hue
    value of its label ([None] for the one line drawn without a hue) and
    its two lists; [None] when the function returns before drawing. *)
Definition lineplot (rows : list row) (x y hue : string)
  : result (option (list (option pyfloat * (list pyfloat * list pyfloat)))) :=
  match rows with
  | [] => Ok None
  | first :: _ =>
      if bool_decide (is_Some (first !! y)) then
        if bool_decide (is_Some (first !! hue)) then
          lines ←r rmapM (fun hv =>
                            let sub_rows := filter (fun r => hue_is hue hv r = true) rows in
                            s ←r series sub_rows x y;
                            Ok (Some hv, s))
                         (_unique_values rows hue);
          Ok (Some lines)
        else
          s ←r series rows x y;
          Ok (Some [(None, s)])
      else Ok None
  end.

(** *** The distributions per IO size of [plot_histograms] *)





End plot_bdev.


(** ** [scripts/apply_ssd_profile.py] *)

Module apply_ssd_profile.

(** [f.readlines()] of a text file opened for reading: the lines of the
    decoded text, each with its line end, which is a line feed whatever it
    was in the file; the last line has none if the text does not end with
    one.  [skip_lf] holds just after a carriage return. *)
Fixpoint readlines_from (skip_lf : bool) (s : string) : list string :=
  match s with
  | "" => []
  | String a s' =>
      if skip_lf && bool_decide (a = "010"%char) then readlines_from false s'
      else if is_newline a
           then String "010" "" :: readlines_from (bool_decide (a = "013"%char)) s'
           else match readlines_from false s' with
                | h :: t => String a h :: t
                | [] => [String a ""]
                end
  end.

Definition readlines (content : string) : list string := readlines_from false content.

(** [f.writelines(lines)] into a fresh text file, on a system whose line
    end is the line feed: the text written. *)
Definition writelines (lines : list string) : string :=
  foldr String.append "" lines.

(** [s.startswith(prefix)]. *)
Fixpoint startswith (prefix s : string) : bool :=
  match prefix, s with
  | "", _ => true
  | String a p, String b s' => bool_decide (a = b) && startswith p s'
  | String _ _, "" => false
  end.

(** The line written for a key and its value: the key, an equals sign
    between two spaces, the value in decimal and a line feed. *)
Definition setting (key : string) (value : Z) : string :=
  key +:+ " = " +:+ pretty value +:+ String "010" "".

(** The inner loop over [updates.items()]: the line of the first key that
    the stripped line starts with, followed by a space and an equals sign. *)
Fixpoint replacement (stripped : string) (updates : pydict string Z) : option string :=
  match updates with
  | [] => None
  | (key, value) :: rest =>
      if startswith (key +:+ " =") stripped then Some (setting key value)
      else replacement stripped rest
  end.

(** The line appended to [out_lines] for a line of the file. *)
Definition out_line (updates : pydict string Z) (line : string) : string :=
  match replacement (strip line) updates with
  | Some new => new
  | None => line
  end.

(** The two files [apply_config] touches: the text of the configuration
    file, which has to exist, and the text of its backup, if there is one. *)
Record files : Type := Files {
  config : string;
  backup : option string;
}.

(** [apply_config(config_path, updates)]: the two files afterwards. *)
Definition apply_config (fs : files) (updates : pydict string Z) : files :=
  let lines := readlines (config fs) in
  let out_lines := out_line updates <$> lines in
  {| config := writelines out_lines;
     backup := match backup fs with
               | Some old => Some old
               | None => Some (writelines lines)
               end |}.

End apply_ssd_profile.


(** ** Definitions that follow the words of the specification *)

Module Spec.

(** The mapping rule of the bucketizer, in the order it is written: the
    label a key goes to, or nothing for a key that is skipped. *)
Definition bucket_of (k : string) : option string :=
  if endswith "+" k then Some "17+"
  else match py_int k with
       | Raise _ => None
       | Ok i =>
           Some (if bool_decide (i = 0)%Z then "Empty (0)"
                 else if bool_decide (i = 1)%Z then "Single (1)"
                 else if bool_decide (2 ≤ i ≤ 4)%Z then "2-4"
                 else if bool_decide (5 ≤ i ≤ 8)%Z then "5-8"
                 else if bool_decide (9 ≤ i ≤ 16)%Z then "9-16"
                 else "17+")
       end.



(** The counts of the entries of a histogram that go to one label, in the
    order of the histogram. *)
Definition counts_for (label : string) (hist : pydict string pyfloat) : list pyfloat :=
  (filter (fun kv => bucket_of kv.1 = Some label) hist).*2.

(** The characters a numeral that [float] accepts is made of: digits,
    underscores, the point, the signs, the exponent letter and the letters of
    inf, infinity and nan, in either case. *)
Definition numeral_char (c : ascii) : bool :=
  is_digit c
  || match c with
     | "_" | "." | "+" | "-" => true
     | _ => false
     end%char
  || match lower c with
     | "e" | "i" | "n" | "f" | "t" | "y" | "a" => true
     | _ => false
     end%char.

(** A string [s] that is [r] after a part made of characters of numerals. *)
Definition starts_numeral (s r : string) : Prop :=
  ∃ pre, s = pre +:+ r ∧ str_forall numeral_char pre = true.

(** The name of the histogram file of an IO size, a queue depth and a run. *)
Definition hist_name (size qd rn : N) : string :=
  "hist_s" +:+ pretty size +:+ "_q" +:+ pretty qd +:+ "_r" +:+ pretty rn +:+ ".csv".

(** A row of a histogram file whose three cells can each be read: absent,
    empty or a numeral. *)
Definition readable (raw : pydict (option string) plot_bdev.rawcell) : bool :=
  match plot_bdev.hist_cell raw "start_us", plot_bdev.hist_cell raw "end_us",
        plot_bdev.hist_cell raw "count" with
  | Ok _, Ok _, Ok _ => true
  | _, _, _ => false
  end.

(** A key of a histogram: digits, or digits and a plus sign. *)
Definition hist_key (k : string) : Prop :=
  ∃ ds, ds ≠ "" ∧ str_forall is_digit ds = true ∧ (k = ds ∨ k = ds +:+ "+").

(** The text of one entry of a histogram: the key, a colon and the count in
    decimal. *)
Definition entry_text (e : string * N) : string := e.1 +:+ ":" +:+ pretty e.2.

(** The text of a histogram in the format the parser documents: the
    entries, separated by a comma and a space. *)
Fixpoint hist_text (es : list (string * N)) : string :=
  match es with
  | [] => ""
  | [e] => entry_text e
  | e :: rest => entry_text e +:+ ", " +:+ hist_text rest
  end.

(** The number a string of digits stands for, after the digits read so far. *)
Fixpoint digits_value (acc : Z) (s : string) : Z :=
  match s with
  | "" => acc
  | String c r => digits_value (10 * acc + digit_val c) r
  end.

(** The escaped line ends of a cell made real line ends. *)
Definition unescaped (s : string) : string :=
  replace2 "\" "n" (String "010" "") (replace2 "\" "r" (String "013" "") s).

(** The number a token stands for once trimmed, if it parses as a float. *)
Definition token_value (tok : string) : option pyfloat :=
  match py_float (strip tok) with
  | Ok x => Some x
  | Raise _ => None
  end.

(** The numeric tokens of one line: split at commas, trim, parse, drop what
    does not parse. *)
Definition line_tokens (line : string) : list pyfloat :=
  omap token_value (split "," line).

(** The numeric tokens of a list of lines, concatenated. *)
Abbreviation tokens_of := (fun lines : list string => mjoin (line_tokens <$> lines)).

(** The lines of a text, as [splitlines] cuts them. *)
Abbreviation lines_of := (lines_from is_linebreak).

(** The flat list of the numeric tokens of a cell. *)
Definition flat_values (s : string) : list pyfloat :=
  tokens_of (lines_of false (unescaped s)).

(** The lines of a text after a string [p] is put before it: [p] joins the
    first line, or is the only line when there is none. *)
Definition prepend (p : string) (lines : list string) : list string :=
  match lines with
  | h :: t => (p +:+ h) :: t
  | [] => [p]
  end.


(** The direct parse of a file: the tokens of each physical line, the first
    line being the header. *)
Definition direct_parse (content : string) : result (list string * list (list string)) :=
  match plot_multicore.file_lines content with
  | [] => Raise ValueError
  | first :: rest =>
      header ←r plot_multicore.csv.row first;
      rows ←r rmapM plot_multicore.csv.row rest;
      Ok (header, rows)
  end.

(** A line without a line feed or a carriage return. *)
Definition no_newline (line : string) : Prop :=
  str_forall (fun c => negb (is_newline c)) line = true.

(** A file whose data rows each occupy one physical line: every line after
    the header starts with digits and a comma and has as many tokens as the
    header. *)
Definition one_row_per_line (content : string) : bool :=
  match plot_multicore.file_lines content with
  | [] => true
  | first :: rest =>
      match plot_multicore.csv.row first with
      | Ok header =>
          forallb (fun line =>
                     plot_multicore.row_start line
                     && match plot_multicore.csv.row line with
                        | Ok tokens => bool_decide (length tokens = length header)
                        | Raise _ => false
                        end) rest
      | Raise _ => true
      end
  end.

(** The text of a row that spans several lines: its first line, then each
    further line that is not blank, after a backslash and the letter n. *)
Definition joined (block : string * list string) : string :=
  foldl (fun text line => text +:+ "\n" +:+ line) block.1
        (filter (fun line => line ≠ "") block.2).

(** The lines of a list of blocks, each a first line and its further lines. *)
Definition block_lines (blocks : list (string * list string)) : list string :=
  mjoin ((fun block => block.1 :: block.2) <$> blocks).

(** A line that ends with a line feed and holds no other line end. *)
Definition terminated (line : string) : Prop :=
  ∃ body, line = body +:+ String "010" "" ∧ no_newline body.

(** A line that is not empty and holds no line end. *)
Definition open_line (line : string) : Prop := line ≠ "" ∧ no_newline line.

(** The lines of a text: each ends with a line feed, except that the last
    one can be without a line end. *)
Fixpoint proper (lines : list string) : Prop :=
  match lines with
  | [] => True
  | line :: rest => (terminated line ∨ (open_line line ∧ rest = [])) ∧ proper rest
  end.





(** The distinct elements of a list, each at its first occurrence. *)
Fixpoint first_occurrences {A : Type} `{EqDecision A} (l : list A) : list A :=
  match l with
  | [] => []
  | x :: l' => x :: filter (fun y => y ≠ x) (first_occurrences l')
  end.

(** The records that have every grouping column and the value column, as
    pairs of key tuple and value. *)
Definition complete_records (rows : list plot_bdev.row) (keys : list string)
  (value_key : string) : list (list pyfloat * pyfloat) :=
  omap (fun r => plot_bdev.key_and_value r keys value_key) rows.

(** The values of the records that share a key tuple, in the order of the
    records. *)
Definition values_of (key : list pyfloat) (records : list (list pyfloat * pyfloat))
  : list pyfloat :=
  (filter (fun kv => kv.1 = key) records).*2.

(** The loop body of the aggregator on a complete record. *)
Definition pair_step (buckets : pydict (list pyfloat) (list pyfloat))
  (kv : list pyfloat * pyfloat) : pydict (list pyfloat) (list pyfloat) :=
  plot_bdev.setdefault_append kv.1 kv.2 buckets.


(** The entries of the grouped means, as the specification describes them:
    one for each distinct key tuple, holding the mean of the values of the
    records that share the tuple. *)
Definition grouped_means (rows : list plot_bdev.row) (keys : list string)
  (value_key : string) (order : list (list pyfloat)) : list plot_bdev.row :=
  let records := complete_records rows keys value_key in
  (fun key => plot_bdev.group_entry keys value_key key (np_mean (values_of key records)))
    <$> order.












(** A list of floats in strictly ascending order. *)
Definition increasing (l : list pyfloat) : Prop :=
  Sorted (fun a b => flt a b = true) l.


End Spec.

(** ** Sample inputs *)

Module Samples.


(** Two rows of a reader over the header QD, IOPS, Run_ID, Cycles,
    Completions_Per_Poll_Hist: one line too short, one too long. *)
Definition reader_rows : list (pydict (option string) plot_bdev.rawcell) :=
  [ [(Some "QD", plot_bdev.RStr "4"); (Some "IOPS", plot_bdev.RStr "abc");
     (Some "Run_ID", plot_bdev.RStr ""); (Some "Cycles", plot_bdev.RNone);
     (Some "Completions_Per_Poll_Hist", plot_bdev.RNone)];
    [(Some "QD", plot_bdev.RStr " 8 "); (Some "IOPS", plot_bdev.RStr "1.5e3");
     (Some "Run_ID", plot_bdev.RStr "2"); (Some "Cycles", plot_bdev.RStr "-0.25");
     (Some "Completions_Per_Poll_Hist", plot_bdev.RStr "0:1, 1:2");
     (None, plot_bdev.RList ["x"; "y"])] ].

(** A record with a queue depth and a value. *)
Definition record (qd val : Z) : plot_bdev.row :=
  <["val" := of_Z val]> (<["qd" := of_Z qd]> ∅).

(** A record with an IO size, a queue depth and a value. *)
Definition sized_record (size qd val : Z) : plot_bdev.row :=
  <["size" := of_Z size]> (record qd val).

(** A header of three columns and two data rows, one per line. *)
Definition wf_file : string :=
  "id,a,b" +:+ String "010" "1,x,y" +:+ String "010" "22,p,q" +:+ String "010" "".

(** A configuration file of three lines, the last without a line end, and
    no backup. *)
Definition cfg_files : apply_ssd_profile.files :=
  apply_ssd_profile.Files
    ("# cfg" +:+ String "010" "  Erase = 5" +:+ String "010" "LSBRead=3") None.

(** The same file after the erase time is set to 100. *)
Definition cfg_files_after : apply_ssd_profile.files :=
  apply_ssd_profile.Files
    ("# cfg" +:+ String "010" "Erase = 100" +:+ String "010" "LSBRead=3")
    (Some ("# cfg" +:+ String "010" "  Erase = 5" +:+ String "010" "LSBRead=3")).

(** Three rows of a histogram file: a full one, one with an empty count and no
    end, and one with a count that is not a number. *)
Definition hist_reader : list (pydict (option string) plot_bdev.rawcell) :=
  [ [(Some "start_us", plot_bdev.RStr "0"); (Some "end_us", plot_bdev.RStr "5");
     (Some "count", plot_bdev.RStr "12")];
    [(Some "start_us", plot_bdev.RStr "5"); (Some "count", plot_bdev.RStr "")];
    [(Some "start_us", plot_bdev.RStr "10"); (Some "end_us", plot_bdev.RStr "15");
     (Some "count", plot_bdev.RStr "many")] ].


End Samples.


(** * Properties *)

(** ** Arithmetic of floats *)

Section float_facts.

Lemma fadd_comm (x y : pyfloat) : fadd x y = fadd y x.
Proof. destruct x, y; simpl; try reflexivity. f_equal. apply Qcplus_comm. Qed.

Lemma fadd_assoc (x y z : pyfloat) : fadd x (fadd y z) = fadd (fadd x y) z.
Proof. destruct x, y, z; simpl; try reflexivity. f_equal. apply Qcplus_assoc. Qed.

Lemma fadd_zero_l (x : pyfloat) : fadd zero x = x.
Proof. destruct x; simpl; try reflexivity. f_equal. apply Qcplus_0_l. Qed.

Lemma fadd_zero_r (x : pyfloat) : fadd x zero = x.
Proof. rewrite fadd_comm. apply fadd_zero_l. Qed.

Lemma foldl_fadd (a : pyfloat) (l : list pyfloat) : foldl fadd a l = fadd a (fsum l).
Proof.
  unfold fsum. revert a. induction l as [|x l IH]; intros a; cbn [foldl].
  - symmetry. apply fadd_zero_r.
  - rewrite (IH (fadd a x)), (IH (fadd zero x)), fadd_zero_l. symmetry. apply fadd_assoc.
Qed.

Lemma fsum_cons (x : pyfloat) (l : list pyfloat) : fsum (x :: l) = fadd x (fsum l).
Proof. unfold fsum at 1. cbn [foldl]. rewrite foldl_fadd, fadd_zero_l. reflexivity. Qed.


Lemma fsum_snoc (l : list pyfloat) (x : pyfloat) : fsum (l ++ [x]) = fadd (fsum l) x.
Proof. unfold fsum. rewrite foldl_app. reflexivity. Qed.

Lemma truthy_of_nat (n : nat) : truthy (of_nat (S n)) = true.
Proof.
  unfold of_nat, of_Z, truthy. apply negb_true_iff, bool_decide_eq_false.
  intros H. apply (f_equal this) in H. simpl in H.
  replace (Qred 0) with (inject_Z 0) in H by (by vm_compute).
  inversion H.
Qed.

End float_facts.

(** ** Dictionaries *)

Section dict_facts.
Context {K V : Type} `{EqDecision K}.
Implicit Types (d : pydict K V) (k : K) (v : V).

Lemma dict_get_set_eq d k v : dict_get k (dict_set k v d) = Some v.
Proof.
  induction d as [|[k' v'] d IH]; simpl.
  - rewrite decide_True by done. done.
  - destruct (decide (k = k')) as [->|Hne]; simpl.
    + rewrite decide_True by done. done.
    + rewrite decide_False by done. done.
Qed.

Lemma dict_get_set_ne d k k' v : k' ≠ k → dict_get k' (dict_set k v d) = dict_get k' d.
Proof.
  intros Hne. induction d as [|[k0 v0] d IH]; simpl.
  - rewrite decide_False by done. done.
  - destruct (decide (k = k0)) as [->|Hne0]; simpl.
    + rewrite !decide_False by done. done.
    + destruct (decide (k' = k0)); done.
Qed.

Lemma dict_get_Some_elem d k v : dict_get k d = Some v → k ∈ dict_keys d.
Proof.
  induction d as [|[k' v'] d IH]; simpl; [done|].
  destruct (decide (k = k')) as [->|Hne]; intros Hg.
  - left.
  - right. by apply IH.
Qed.

Lemma dict_get_None_notin d k : dict_get k d = None ↔ k ∉ dict_keys d.
Proof.
  induction d as [|[k' v'] d IH]; simpl.
  - split; [intros _; apply not_elem_of_nil|done].
  - destruct (decide (k = k')) as [->|Hne].
    + split; [done|]. intros Hn. exfalso. apply Hn. left.
    + rewrite IH, not_elem_of_cons. tauto.
Qed.

Lemma dict_get_is_Some d k : is_Some (dict_get k d) ↔ k ∈ dict_keys d.
Proof.
  split.
  - intros [v Hv]. by eapply dict_get_Some_elem.
  - intros Hin. destruct (dict_get k d) eqn:E; [done|].
    apply dict_get_None_notin in E. done.
Qed.

Lemma dict_keys_set_present d k v :
  k ∈ dict_keys d → dict_keys (dict_set k v d) = dict_keys d.
Proof.
  induction d as [|[k' v'] d IH]; simpl.
  - intros Hin. by apply elem_of_nil in Hin.
  - destruct (decide (k = k')) as [->|Hne]; simpl; [done|].
    intros Hin. apply elem_of_cons in Hin as [?|Hin]; [done|].
    f_equal. by apply IH.
Qed.



End dict_facts.

Section dict_sums.
Context {K : Type} `{EqDecision K}.
Implicit Types (d : pydict K pyfloat) (k : K).




End dict_sums.


(** ** Strings *)

Section string_facts.

Lemma str_app_cons (a : ascii) (s t : string) : String a s +:+ t = String a (s +:+ t).
Proof. reflexivity. Qed.

Lemma str_app_nil_l (t : string) : "" +:+ t = t.
Proof. reflexivity. Qed.

Lemma str_app_nil_r (s : string) : s +:+ "" = s.
Proof. induction s as [|a s IH]; [done|]. by rewrite str_app_cons, IH. Qed.

Lemma str_app_assoc (s t u : string) : (s +:+ t) +:+ u = s +:+ (t +:+ u).
Proof. induction s as [|a s IH]; [done|]. by rewrite !str_app_cons, IH. Qed.

Lemma digit_not_num_space (c : ascii) : is_digit c = true → is_num_space c = false.
Proof. destruct c as [[] [] [] [] [] [] [] []]; done. Qed.

Lemma digit_not_sign (c : ascii) :
  is_digit c = true → c ≠ "+"%char ∧ c ≠ "-"%char ∧ c ≠ "_"%char.
Proof. destruct c as [[] [] [] [] [] [] [] []]; done. Qed.

Lemma str_forall_cons (p : ascii → bool) (a : ascii) (s : string) :
  str_forall p (String a s) = true ↔ p a = true ∧ str_forall p s = true.
Proof. simpl. apply andb_true_iff. Qed.


Lemma lstrip_by_head (sp : ascii → bool) (a : ascii) (s : string) :
  sp a = false → lstrip_by sp (String a s) = String a s.
Proof. intros Ha. simpl. by rewrite Ha. Qed.

Lemma rstrip_by_none (sp : ascii → bool) (s : string) :
  str_forall (fun c => negb (sp c)) s = true → rstrip_by sp s = s.
Proof.
  induction s as [|a s IH]; [done|].
  intros [Ha Hs]%str_forall_cons. simpl. rewrite IH by done.
  apply negb_true_iff in Ha. rewrite Ha. by destruct s.
Qed.

Lemma str_forall_impl (p q : ascii → bool) (s : string) :
  (∀ c, p c = true → q c = true) → str_forall p s = true → str_forall q s = true.
Proof.
  intros Hpq. induction s as [|a s IH]; [done|].
  rewrite !str_forall_cons. intros [Ha Hs]. auto.
Qed.

Lemma num_strip_digits (s : string) : str_forall is_digit s = true → num_strip s = s.
Proof.
  intros Hs. unfold num_strip. destruct s as [|a s]; [done|].
  pose proof Hs as [Ha _]%str_forall_cons.
  rewrite lstrip_by_head by by apply digit_not_num_space.
  apply rstrip_by_none. eapply str_forall_impl; [|done].
  intros c Hc. by rewrite digit_not_num_space.
Qed.



Lemma endswith_snoc (c : ascii) (s : string) : endswith c (s +:+ String c "") = true.
Proof.
  induction s as [|a s IH].
  - simpl. by apply bool_decide_eq_true.
  - rewrite str_app_cons. simpl. destruct (s +:+ String c "") eqn:E.
    + by destruct s.
    + exact IH.
Qed.

End string_facts.


(** ** The histogram parser and the bucketizer *)

Section histogram.
Import plot_phase1.


(** The branches of the loop body select the label of the mapping rule. *)
Lemma bucket_step_spec (buckets : pydict string pyfloat) (k : string) (v : pyfloat) :
  bucket_step buckets (k, v)
  = match Spec.bucket_of k with
    | Some label => bucket_add label v buckets
    | None => buckets
    end.
Proof.
  unfold bucket_step, Spec.bucket_of. destruct (endswith "+" k); [done|].
  destruct (py_int k) as [i|]; [|done].
  destruct (Z.eqb_spec i 0) as [->|H0]; [done|].
  rewrite (bool_decide_eq_false_2 (i = 0)%Z) by done.
  destruct (Z.eqb_spec i 1) as [->|H1]; [done|].
  rewrite (bool_decide_eq_false_2 (i = 1)%Z) by done.
  repeat case_bool_decide;
    repeat match goal with
           | |- context [(?a <=? ?b)%Z] => destruct (Z.leb_spec a b)
           end; simpl; try reflexivity; lia.
Qed.

Lemma bucket_add_keys (label : string) (v : pyfloat) (buckets : pydict string pyfloat) :
  dict_keys (bucket_add label v buckets) = dict_keys buckets.
Proof.
  unfold bucket_add. destruct (dict_get label buckets) as [old|] eqn:E; [|done].
  apply dict_keys_set_present. by eapply dict_get_Some_elem.
Qed.

Lemma bucket_step_keys (buckets : pydict string pyfloat) (kv : string * pyfloat) :
  dict_keys (bucket_step buckets kv) = dict_keys buckets.
Proof.
  destruct kv as [k v]. rewrite bucket_step_spec.
  destruct (Spec.bucket_of k); [apply bucket_add_keys|done].
Qed.

Lemma foldl_bucket_step_keys (hist : pydict string pyfloat) (buckets : pydict string pyfloat) :
  dict_keys (foldl bucket_step buckets hist) = dict_keys buckets.
Proof.
  revert buckets. induction hist as [|kv hist IH]; intros buckets; [done|].
  cbn [foldl]. by rewrite IH, bucket_step_keys.
Qed.

Lemma bucket_add_get (label l : string) (v : pyfloat) (buckets : pydict string pyfloat) (x : pyfloat) :
  dict_get l buckets = Some x →
  dict_get l (bucket_add label v buckets)
  = Some (if decide (label = l) then fadd x v else x).
Proof.
  intros Hl. unfold bucket_add. destruct (decide (label = l)) as [->|Hne].
  - rewrite Hl. apply dict_get_set_eq.
  - destruct (dict_get label buckets); [|done].
    by rewrite dict_get_set_ne.
Qed.

Lemma counts_for_cons (l k : string) (v : pyfloat) (hist : pydict string pyfloat) :
  Spec.counts_for l ((k, v) :: hist)
  = if decide (Spec.bucket_of k = Some l) then v :: Spec.counts_for l hist
    else Spec.counts_for l hist.
Proof.
  unfold Spec.counts_for. cbn [filter list_filter fst].
  by destruct (decide (Spec.bucket_of k = Some l)).
Qed.

(** A bucket holds the sum, from the left, of the counts sent to it. *)
Lemma foldl_bucket_step_get (hist buckets : pydict string pyfloat) (l : string) (x : pyfloat) :
  dict_get l buckets = Some x →
  dict_get l (foldl bucket_step buckets hist) = Some (foldl fadd x (Spec.counts_for l hist)).
Proof.
  revert buckets x. induction hist as [|[k v] hist IH]; intros buckets x Hl; [done|].
  cbn [foldl]. rewrite bucket_step_spec, counts_for_cons.
  destruct (Spec.bucket_of k) as [label|] eqn:Hb.
  - erewrite IH by (by apply bucket_add_get).
    destruct (decide (label = l)) as [->|Hne].
    + rewrite decide_True by done. done.
    + rewrite decide_False by congruence. done.
  - rewrite decide_False by done. by apply IH.
Qed.





End histogram.


(** C3: the bucketizer keeps the six labels, in their order, and puts under
    each label the sum of the counts of the keys the mapping rule sends to it
    (keys ending in the overflow marker to 17+, then 0, 1, 2 to 4, 5 to 8,
    9 to 16, any other integer to 17+, unparsable keys nowhere); an entry
    adds its count to the bucket of its key, or changes nothing when its key
    is skipped; the example string of the specification gives the stated
    buckets. *)
Theorem bucket_hist_simplified_mapping :
  (∀ hist : pydict string pyfloat,
     dict_keys (plot_phase1.bucket_hist_simplified hist)
     = ["Empty (0)"; "Single (1)"; "2-4"; "5-8"; "9-16"; "17+"]
     ∧ Forall (fun label =>
                 dict_get label (plot_phase1.bucket_hist_simplified hist)
                 = Some (fsum (Spec.counts_for label hist)))
              ["Empty (0)"; "Single (1)"; "2-4"; "5-8"; "9-16"; "17+"])
  ∧ (∀ (hist : pydict string pyfloat) (k : string) (v : pyfloat),
       plot_phase1.bucket_hist_simplified (hist ++ [(k, v)])
       = match Spec.bucket_of k with
         | Some label =>
             plot_phase1.bucket_add label v (plot_phase1.bucket_hist_simplified hist)
         | None => plot_phase1.bucket_hist_simplified hist
         end)
  ∧ plot_phase1.bucket_hist_simplified
      (plot_phase1.parse_hist (VStr "0:50, 1:20, 3:5, 9:3, 40+:2"))
    = [("Empty (0)", of_Z 50); ("Single (1)", of_Z 20); ("2-4", of_Z 5);
       ("5-8", of_Z 0); ("9-16", of_Z 3); ("17+", of_Z 2)].
Proof.
  split; [|split; [|compute_done]].
  - intros hist. unfold plot_phase1.bucket_hist_simplified.
    rewrite foldl_bucket_step_keys. split; [done|].
    repeat constructor; by apply foldl_bucket_step_get.
  - intros hist k v. unfold plot_phase1.bucket_hist_simplified.
    rewrite foldl_app. cbn [foldl]. apply bucket_step_spec.
Qed.


(** ** Numeric cells and scalar coercion *)

Section coercion.
Import plot_multicore plot_bdev.

Lemma fdiv_one (x : pyfloat) : fdiv x (of_nat 1) = x.
Proof.
  destruct x as [a| | |]; try reflexivity.
  unfold fdiv, of_nat, of_Z. rewrite bool_decide_eq_false_2 by done.
  f_equal. replace (Qc_of_Z (Z.of_nat 1)) with 1%Qc by compute_done.
  unfold Qcdiv. replace (/ 1)%Qc with 1%Qc by compute_done. apply Qcmult_1_r.
Qed.

Lemma np_mean_singleton (x : pyfloat) : np_mean [x] = x.
Proof. unfold np_mean. rewrite fsum_cons. cbn [length]. by rewrite fadd_zero_r, fdiv_one. Qed.

Lemma py_float_raises (s : string) (e : exn) : py_float s = Raise e → e = ValueError.
Proof.
  unfold py_float. destruct (sign_split (num_strip s)) as [neg body].
  destruct (_ || _); [done|]. case_bool_decide; [done|].
  destruct (floatnumber body); [done|]. by intros [= <-].
Qed.

Lemma py_float_empty : py_float "" = Raise ValueError.
Proof. reflexivity. Qed.

Lemma coerce_cell_str (s : string) :
  coerce_cell (RStr s) = Ok (match py_float s with Ok x => x | Raise _ => zero end).
Proof.
  unfold coerce_cell, is_missing, float_of_cell. case_bool_decide as Hs.
  - subst s. by rewrite py_float_empty.
  - destruct (py_float s) as [x|e] eqn:E; [done|].
    by rewrite (py_float_raises s e E).
Qed.

Lemma coerce_cell_total (v : rawcell) : ∃ x, coerce_cell v = Ok x.
Proof.
  destruct v as [|s|l]; [by eexists| |by eexists].
  rewrite coerce_cell_str. by eexists.
Qed.

Lemma convert_fold_total (raw : pydict (option string) rawcell)
    (out : pydict (option string) pyfloat) :
  ∃ out', rfoldM convert_step out raw = Ok out'
    ∧ ∀ k, (k ∈ dict_keys out ∨ ∃ k0, k = rename k0 ∧ k0 ∈ dict_keys raw
                                      ∧ k0 ≠ Some "Completions_Per_Poll_Hist")
           → k ∈ dict_keys out'.
Proof.
  revert out. induction raw as [|[k0 v] raw IH]; intros out.
  - exists out. split; [done|]. intros k [Hk|(k1 & _ & Hin & _)]; [done|].
    by apply elem_of_nil in Hin.
  - cbn [rfoldM]. unfold convert_step at 1. cbn [fst snd].
    case_bool_decide as Hhist.
    + cbn [rbind]. destruct (IH out) as (out' & Hrun & Hkeys). exists out'. split; [done|].
      intros k [Hk|(k1 & -> & Hin & Hne)]; [by apply Hkeys; left|].
      unfold dict_keys in Hin. rewrite fmap_cons in Hin. cbn [fst] in Hin.
      apply elem_of_cons in Hin as [->|Hin]; [done|]. apply Hkeys. right. eauto.
    + destruct (coerce_cell_total v) as [x ->]. cbn [rbind].
      destruct (IH (dict_set (rename k0) x out)) as (out' & Hrun & Hkeys).
      exists out'. split; [done|].
      assert (∀ k, k ∈ dict_keys out ∨ k = rename k0
                   → k ∈ dict_keys (dict_set (rename k0) x out)) as Hset.
      { intros k Hk. apply dict_get_is_Some.
        destruct (decide (k = rename k0)) as [->|Hne].
        - rewrite dict_get_set_eq. done.
        - rewrite dict_get_set_ne by done. apply dict_get_is_Some. by destruct Hk. }
      intros k [Hk|(k1 & -> & Hin & Hne)]; [apply Hkeys; left; apply Hset; by left|].
      unfold dict_keys in Hin. rewrite fmap_cons in Hin. cbn [fst] in Hin.
      apply elem_of_cons in Hin as [->|Hin].
      * apply Hkeys. left. apply Hset. by right.
      * apply Hkeys. right. eauto.
Qed.

Lemma rmapM_total {A B : Type} (f : A → result B) (l : list A) :
  (∀ a, a ∈ l → ∃ b, f a = Ok b) →
  ∃ bs, rmapM f l = Ok bs ∧ Forall2 (fun a b => f a = Ok b) l bs.
Proof.
  induction l as [|a l IH]; intros Hf.
  - exists []. split; [done|constructor].
  - destruct (Hf a) as [b Hb]; [left|].
    destruct IH as (bs & Hbs & Hall); [intros a' Ha'; apply Hf; by right|].
    exists (b :: bs). cbn [rmapM]. rewrite Hb, Hbs. split; [done|]. by constructor.
Qed.

End coercion.


(** C7: scalar coercion never raises: an absent or empty cell gives 0.0, text
    that does not parse as a float gives 0.0, numeric text gives its value;
    and no row of the reader stops the construction of the records, each of
    which has a value for every column it converts, as for the two sample
    rows. *)
Theorem scalar_coercion_total :
  plot_bdev.coerce_cell plot_bdev.RNone = Ok zero
  ∧ plot_bdev.coerce_cell (plot_bdev.RStr "") = Ok zero
  ∧ (∀ s : string,
       plot_bdev.coerce_cell (plot_bdev.RStr s)
       = Ok (match py_float s with Ok x => x | Raise _ => zero end))
  ∧ (∀ v : plot_bdev.rawcell, ∃ x, plot_bdev.coerce_cell v = Ok x)
  ∧ (∀ reader : list (pydict (option string) plot_bdev.rawcell),
       ∃ rows, plot_bdev.load_results reader = Ok rows
         ∧ Forall2 (fun raw out =>
                      plot_bdev.convert_row raw = Ok out
                      ∧ ∀ k, k ∈ dict_keys raw → k ≠ Some "Completions_Per_Poll_Hist"
                             → is_Some (dict_get (plot_bdev.rename k) out))
                   reader rows)
  ∧ plot_bdev.load_results Samples.reader_rows
    = Ok [ [(Some "Queue Depth", of_Z 4); (Some "IOPS", zero); (Some "Run_ID", zero);
            (Some "Cycles", zero)];
           [(Some "Queue Depth", of_Z 8); (Some "IOPS", of_Z 1500); (Some "Run_ID", of_Z 2);
            (Some "Cycles", Fin (Q2Qc (-1 # 4))); (None, zero)] ].
Proof.
  split; [done|]. split; [done|]. split; [apply coerce_cell_str|].
  split; [apply coerce_cell_total|]. split; [|compute_done].
  intros reader. unfold plot_bdev.load_results.
  destruct (rmapM_total plot_bdev.convert_row reader) as (rows & Hrows & Hall).
  { intros raw _. destruct (convert_fold_total raw []) as (out & Hout & _). by exists out. }
  exists rows. split; [done|].
  eapply Forall2_impl; [exact Hall|]. intros raw out Hout. split; [done|].
  intros k Hk Hne. apply dict_get_is_Some.
  destruct (convert_fold_total raw []) as (out' & Hout' & Hkeys).
  unfold plot_bdev.convert_row in Hout. rewrite Hout in Hout'. injection Hout' as <-.
  apply Hkeys. right. eauto.
Qed.


(** ** The row reconstructor *)

Section reconstructor.
Import plot_multicore.


Lemma str_forall_app (p : ascii → bool) (s t : string) :
  str_forall p (s +:+ t) = str_forall p s && str_forall p t.
Proof.
  induction s as [|a s IH]; [done|].
  rewrite str_app_cons. simpl. by rewrite IH, andb_assoc.
Qed.







Lemma row_start_nonempty (line : string) : row_start line = true → line ≠ "".
Proof. by destruct line. Qed.

(** When every line starts a row, the buffers are the lines. *)
Lemma reconstruct_all_starts (rest acc : list string) :
  Forall (fun line => row_start line = true) rest →
  foldl reconstruct_step acc rest = acc ++ rest.
Proof.
  intros Hrest. revert acc. induction Hrest as [|line rest Hline _ IH]; intros acc.
  - by rewrite app_nil_r.
  - cbn [foldl]. rewrite IH. unfold reconstruct_step.
    rewrite bool_decide_eq_false_2 by by apply row_start_nonempty.
    rewrite Hline. by rewrite <- app_assoc.
Qed.


Lemma pad_row_id (header_len : nat) (tokens : list string) :
  (header_len ≤ length tokens)%nat → pad_row header_len tokens = tokens.
Proof.
  intros Hle. unfold pad_row.
  destruct (Nat.ltb_spec (length tokens) header_len); [lia|done].
Qed.

Lemma rmapM_ext_Forall {A B : Type} (f g : A → result B) (l : list A) :
  Forall (fun a => f a = g a) l → rmapM f l = rmapM g l.
Proof.
  induction 1 as [|a l Ha _ IH]; [done|]. cbn [rmapM]. by rewrite Ha, IH.
Qed.

End reconstructor.

(** C5: on a file whose data rows each occupy one physical line, starting
    with digits and a comma and having as many tokens as the header, the
    reconstructor returns what the direct parse of the lines returns. *)
Theorem reconstruction_idempotent (content : string) :
  Spec.one_row_per_line content = true →
  plot_multicore.read_multicore_csv content = Spec.direct_parse content.
Proof.
  unfold Spec.one_row_per_line, plot_multicore.read_multicore_csv, Spec.direct_parse.
  destruct (plot_multicore.file_lines content) as [|first rest]; [done|].
  destruct (plot_multicore.csv.row first) as [header|e]; [|done].
  intros Hall. apply Is_true_true, forallb_True in Hall.
  rewrite Forall_forall in Hall. cbn [rbind].
  rewrite reconstruct_all_starts.
  2:{ apply Forall_forall. intros line Hin. specialize (Hall line Hin).
      apply andb_True in Hall as [Hs _]. by apply Is_true_true. }
  rewrite app_nil_l.
  erewrite (rmapM_ext_Forall _ plot_multicore.csv.row); [done|].
  apply Forall_forall. intros line Hin. specialize (Hall line Hin).
  apply andb_True in Hall as [_ Ht].
  destruct (plot_multicore.csv.row line) as [tokens|]; [|done].
  apply bool_decide_unpack in Ht. cbn [rbind].
  by rewrite pad_row_id by lia.
Qed.

Lemma reconstruction_idempotent_witness :
  plot_multicore.read_multicore_csv Samples.wf_file = Spec.direct_parse Samples.wf_file.
Proof. apply (reconstruction_idempotent Samples.wf_file). vm_compute. reflexivity. Defined.



(** ** The grouped aggregator *)

Section grouping.
Import plot_bdev.

Implicit Types (key : list pyfloat) (records : list (list pyfloat * pyfloat)).

Lemma foldl_group_step (rows : list row) (keys : list string) (value_key : string)
    (buckets : pydict (list pyfloat) (list pyfloat)) :
  foldl (group_step keys value_key) buckets rows
  = foldl Spec.pair_step buckets (Spec.complete_records rows keys value_key).
Proof.
  revert buckets. induction rows as [|r rows IH]; intros buckets; [done|].
  cbn [foldl]. rewrite IH. unfold Spec.complete_records, group_step. cbn [omap list_omap].
  by destruct (key_and_value r keys value_key) as [[key val]|].
Qed.

Lemma values_of_cons key k v records :
  Spec.values_of key ((k, v) :: records)
  = if decide (k = key) then v :: Spec.values_of key records
    else Spec.values_of key records.
Proof.
  unfold Spec.values_of. cbn [filter list_filter fst].
  by destruct (decide (k = key)).
Qed.

Lemma first_occurrences_filter {A : Type} `{EqDecision A} (P : A → Prop)
    `{∀ x, Decision (P x)} (l : list A) :
  Spec.first_occurrences (filter P l) = filter P (Spec.first_occurrences l).
Proof.
  induction l as [|x l IH]; [done|].
  cbn [Spec.first_occurrences]. rewrite !filter_cons.
  destruct (decide (P x)) as [HP|HP].
  - cbn [Spec.first_occurrences]. rewrite IH. f_equal.
    rewrite !list_filter_filter. apply list_filter_iff. tauto.
  - rewrite IH, list_filter_filter. apply list_filter_iff.
    intros y. split; [|tauto]. intros Hy. split; [done|]. by intros ->.
Qed.

(** The buckets after a run of the loop: the old groups, each extended by the
    values that share its key, then the new keys at their first occurrence. *)
Lemma foldl_pair_step records (buckets : pydict (list pyfloat) (list pyfloat)) :
  NoDup (dict_keys buckets) →
  foldl Spec.pair_step buckets records
  = ((fun kv => (kv.1, kv.2 ++ Spec.values_of kv.1 records)) <$> buckets)
    ++ ((fun key => (key, Spec.values_of key records))
          <$> Spec.first_occurrences (filter (fun key => key ∉ dict_keys buckets) records.*1)).
Proof.
  revert buckets. induction records as [|[k v] records IH]; intros buckets Hnd.
  - cbn [foldl fmap list_fmap filter list_filter Spec.first_occurrences].
    rewrite app_nil_r. symmetry. rewrite <- (list_fmap_id buckets) at 2.
    apply list_fmap_ext. intros i [k vs] _. cbn. by rewrite app_nil_r.
  - cbn [foldl]. unfold Spec.pair_step at 2, setdefault_append. cbn [fst snd].
    rewrite fmap_cons, filter_cons. cbn [fst].
    destruct (dict_get k buckets) as [vs|] eqn:Hget.
    + assert (k ∈ dict_keys buckets) as Hin by by eapply dict_get_Some_elem.
      rewrite decide_False by tauto.
      rewrite IH by by rewrite dict_keys_set_present.
      rewrite dict_keys_set_present by done. f_equal.
      * clear IH Hin. revert Hnd Hget. unfold dict_keys.
        induction buckets as [|[k' vs'] buckets IHb]; intros Hnd Hget; [done|].
        rewrite fmap_cons in Hnd. apply NoDup_cons in Hnd as [Hk' Hnd].
        cbn [dict_get dict_set] in *.
        destruct (decide (k = k')) as [->|Hne].
        -- injection Hget as ->. rewrite !fmap_cons. cbn [fst snd].
           rewrite values_of_cons, decide_True by done.
           rewrite <- app_assoc. f_equal.
           apply list_fmap_ext. intros i [k2 vs2] Hi. cbn [fst snd].
           rewrite values_of_cons, decide_False; [done|].
           intros ->. apply Hk'. apply list_elem_of_fmap. exists (k2, vs2).
           split; [done|]. by eapply list_elem_of_lookup_2.
        -- rewrite !fmap_cons. cbn [fst snd].
           rewrite (values_of_cons k'), decide_False by done. f_equal.
           by apply IHb.
      * apply list_fmap_ext. intros i key Hi. rewrite values_of_cons, decide_False; [done|].
        intros ->. apply list_elem_of_lookup_2 in Hi.
        rewrite first_occurrences_filter in Hi.
        apply list_elem_of_filter in Hi as [Hn _]. done.
    + assert (k ∉ dict_keys buckets) as Hnin by by apply dict_get_None_notin.
      rewrite decide_True by done. cbn [Spec.first_occurrences].
      assert (dict_set k [v] buckets = buckets ++ [(k, [v])]) as ->.
      { clear -Hget. induction buckets as [|[k' vs'] buckets IHb]; [done|].
        cbn [dict_get dict_set] in *. destruct (decide (k = k')); [done|].
        by rewrite IHb. }
      assert (dict_keys (buckets ++ [(k, [v])]) = dict_keys buckets ++ [k]) as Hkeys.
      { unfold dict_keys. by rewrite fmap_app. }
      rewrite IH.
      2:{ rewrite Hkeys. apply NoDup_app. split; [done|]. split; [|apply NoDup_singleton].
          intros x Hx Hx'. apply list_elem_of_singleton in Hx' as ->. done. }
      rewrite Hkeys, fmap_app, fmap_cons. cbn [fmap list_fmap fst snd].
      rewrite <- app_assoc. f_equal.
      * apply list_fmap_ext. intros i [k2 vs2] Hi. cbn [fst snd].
        rewrite values_of_cons, decide_False; [done|].
        intros ->. apply Hnin. apply list_elem_of_fmap. exists (k2, vs2).
        split; [done|]. by eapply list_elem_of_lookup_2.
      * cbn [app]. rewrite values_of_cons, decide_True by done. f_equal.
        rewrite !first_occurrences_filter, list_filter_filter.
        rewrite (list_filter_iff (fun key => key ∉ dict_keys buckets ++ [k])
                   (fun key => key ≠ k ∧ key ∉ dict_keys buckets)).
        2:{ intros x. rewrite not_elem_of_app, list_elem_of_singleton. tauto. }
        apply list_fmap_ext. intros i key Hi. f_equal.
        rewrite values_of_cons, decide_False; [done|].
        intros ->. apply list_elem_of_lookup_2, list_elem_of_filter in Hi as [[Hn _] _]. done.
Qed.

Lemma filter_all {A : Type} (P : A → Prop) `{∀ x, Decision (P x)} (l : list A) :
  (∀ x, P x) → filter P l = l.
Proof.
  intros HP. induction l as [|x l IH]; [done|].
  by rewrite filter_cons_True, IH.
Qed.

Lemma values_of_nonempty key records :
  key ∈ records.*1 → Spec.values_of key records ≠ [].
Proof.
  induction records as [|[k v] records IH]; intros Hin.
  - by apply elem_of_nil in Hin.
  - rewrite values_of_cons. destruct (decide (k = key)); [done|].
    apply IH. rewrite fmap_cons in Hin. apply elem_of_cons in Hin as [?|?]; [|done].
    cbn in *. congruence.
Qed.

Lemma first_occurrences_elem {A : Type} `{EqDecision A} (l : list A) (x : A) :
  x ∈ Spec.first_occurrences l ↔ x ∈ l.
Proof.
  induction l as [|y l IH]; [done|]. cbn [Spec.first_occurrences].
  rewrite !elem_of_cons, list_elem_of_filter, IH.
  destruct (decide (x = y)); tauto.
Qed.

Lemma first_occurrences_NoDup {A : Type} `{EqDecision A} (l : list A) :
  NoDup (Spec.first_occurrences l).
Proof.
  induction l as [|y l IH]; [constructor|]. cbn [Spec.first_occurrences].
  apply NoDup_cons. split.
  - rewrite list_elem_of_filter. tauto.
  - by apply NoDup_filter.
Qed.

Lemma mean_or_zero_nonempty (vals : list pyfloat) :
  vals ≠ [] → mean_or_zero vals = Ok (np_mean vals).
Proof.
  destruct vals as [|x vals]; [done|]. intros _.
  unfold mean_or_zero, truediv, np_mean. cbn [length]. by rewrite truthy_of_nat.
Qed.

(** The aggregator returns the grouped means of the specification, in the
    order in which the key tuples first occur. *)
Lemma group_mean_characterisation (rows : list row) (keys : list string) (value_key : string) :
  _group_mean rows keys value_key
  = Ok (Spec.grouped_means rows keys value_key
          (Spec.first_occurrences (Spec.complete_records rows keys value_key).*1)).
Proof.
  unfold _group_mean, Spec.grouped_means.
  rewrite foldl_group_step, foldl_pair_step by constructor.
  set (records := Spec.complete_records rows keys value_key).
  cbn [fmap list_fmap app dict_keys].
  rewrite filter_all by (intros x; apply not_elem_of_nil).
  assert (∀ order, Forall (fun key => key ∈ records.*1) order →
            rmapM (fun kv => mean ←r mean_or_zero kv.2;
                             Ok (group_entry keys value_key kv.1 mean))
                  ((fun key => (key, Spec.values_of key records)) <$> order)
            = Ok ((fun key => group_entry keys value_key key
                                (np_mean (Spec.values_of key records))) <$> order)) as Hmap.
  { induction 1 as [|key order Hin _ IH]; [done|].
    rewrite !fmap_cons. cbn [rmapM fst snd].
    rewrite mean_or_zero_nonempty by by apply values_of_nonempty.
    cbn [rbind]. by rewrite IH. }
  apply Hmap. apply Forall_forall. intros key. by rewrite first_occurrences_elem.
Qed.



End grouping.






(** ** The time-window merger *)

Section merger.
Import plot_bdev.

Implicit Types (r : hist_row) (rows : list hist_row) (oc : pydict pyfloat pyfloat).










End merger.



(** ** The per-core cell decoder *)

Section decoder.
Import plot_multicore.

Import Spec.

(** *** Replacement *)

Lemma replace2_cons2 (c1 c2 a b : ascii) (new s : string) :
  replace2 c1 c2 new (String a (String b s))
  = if bool_decide (a = c1) && bool_decide (b = c2)
    then new +:+ replace2 c1 c2 new s
    else String a (replace2 c1 c2 new (String b s)).
Proof. reflexivity. Qed.

Lemma replace2_absent (c1 c2 : ascii) (new s : string) :
  contains2 c1 c2 s = false → replace2 c1 c2 new s = s.
Proof.
  induction s as [|a s IH]; [done|]. destruct s as [|b s]; [done|].
  rewrite replace2_cons2. cbn [contains2]. intros [Hab Hs]%orb_false_iff.
  rewrite Hab. f_equal. by apply IH.
Qed.

Lemma unescape_spec (text : string) : unescape text = Spec.unescaped text.
Proof.
  unfold unescape, Spec.unescaped.
  destruct (contains2 "\" "n" text) eqn:Hn; [done|].
  destruct (contains2 "\" "r" text) eqn:Hr; [done|]. cbn [orb].
  by rewrite (replace2_absent _ _ _ _ Hr), (replace2_absent _ _ _ _ Hn).
Qed.

Lemma replace2_cons_ne (c1 c2 a : ascii) (new s : string) :
  a ≠ c1 → replace2 c1 c2 new (String a s) = String a (replace2 c1 c2 new s).
Proof.
  intros Hne. destruct s as [|b s].
  - done.
  - rewrite replace2_cons2. by rewrite (bool_decide_eq_false_2 (a = c1)) by done.
Qed.

Lemma replace2_without (c1 c2 : ascii) (new w : string) :
  str_forall (fun c => negb (bool_decide (c = c1))) w = true → replace2 c1 c2 new w = w.
Proof.
  induction w as [|a w IH]; [done|]. intros [Ha Hw]%str_forall_cons.
  apply negb_true_iff, bool_decide_eq_false in Ha.
  rewrite replace2_cons_ne by done. by rewrite IH.
Qed.

(** Replacement leaves alone a suffix in which neither character of the
    pattern occurs. *)
Lemma replace2_app (c1 c2 : ascii) (new w : string) :
  str_forall (fun c => negb (bool_decide (c = c1)) && negb (bool_decide (c = c2))) w = true →
  ∀ x, replace2 c1 c2 new (x +:+ w) = replace2 c1 c2 new x +:+ w.
Proof.
  intros Hw.
  assert (replace2 c1 c2 new w = w) as Hw1.
  { apply replace2_without. eapply str_forall_impl; [|exact Hw].
    intros c Hc. by apply andb_true_iff in Hc as [? _]. }
  assert (∀ a, replace2 c1 c2 new (String a w) = String a w) as Hw2.
  { intros a. destruct w as [|b w]; [done|]. rewrite replace2_cons2.
    apply str_forall_cons in Hw as [Hb _]. apply andb_true_iff in Hb as [_ Hb].
    apply negb_true_iff in Hb. rewrite Hb, andb_false_r. by rewrite Hw1. }
  assert (∀ x, (replace2 c1 c2 new (x +:+ w) = replace2 c1 c2 new x +:+ w)
               ∧ ∀ a, replace2 c1 c2 new (String a x +:+ w)
                      = replace2 c1 c2 new (String a x) +:+ w) as Hboth.
  { induction x as [|b x [IH1 IH2]].
    - split; [done|]. intros a. rewrite str_app_cons, str_app_nil_l. apply Hw2.
    - split; [apply IH2|]. intros a. rewrite !str_app_cons, !replace2_cons2.
      destruct (bool_decide (a = c1) && bool_decide (b = c2)).
      + by rewrite IH1, str_app_assoc.
      + rewrite str_app_cons. f_equal. rewrite <- str_app_cons. apply IH2. }
  intros x. apply Hboth.
Qed.

Lemma space_not_escape (c : ascii) :
  is_space c = true → c ≠ "\"%char ∧ c ≠ "n"%char ∧ c ≠ "r"%char ∧ c ≠ ","%char.
Proof. destruct c as [[] [] [] [] [] [] [] []]; done. Qed.

Lemma unescaped_cons_space (c : ascii) (s : string) :
  is_space c = true → Spec.unescaped (String c s) = String c (Spec.unescaped s).
Proof.
  intros (Hb & _)%space_not_escape. unfold Spec.unescaped.
  by rewrite !replace2_cons_ne by done.
Qed.

Lemma unescaped_app_space (x w : string) :
  str_forall is_space w = true → Spec.unescaped (x +:+ w) = Spec.unescaped x +:+ w.
Proof.
  intros Hw. unfold Spec.unescaped. rewrite !replace2_app; [done|..];
    (eapply str_forall_impl; [|exact Hw]); intros c (? & ? & ? & _)%space_not_escape;
    by rewrite !bool_decide_eq_false_2 by done.
Qed.

(** *** Stripping *)

Lemma rstrip_by_snoc (sp : ascii → bool) (c : ascii) (x : string) :
  sp c = true → rstrip_by sp (x +:+ String c "") = rstrip_by sp x.
Proof.
  intros Hc. induction x as [|a x IH].
  - simpl. by rewrite Hc.
  - rewrite str_app_cons. cbn [rstrip_by]. by rewrite IH.
Qed.

Lemma strip_cons_space (c : ascii) (tok : string) :
  is_space c = true → strip (String c tok) = strip tok.
Proof. intros Hc. unfold strip. cbn [lstrip_by]. by rewrite Hc. Qed.

Lemma strip_snoc_space (c : ascii) (tok : string) :
  is_space c = true → strip (tok +:+ String c "") = strip tok.
Proof.
  intros Hc. unfold strip. induction tok as [|a tok IH].
  - simpl. by rewrite Hc.
  - rewrite str_app_cons. cbn [lstrip_by]. destruct (is_space a); [done|].
    rewrite <- str_app_cons. by apply rstrip_by_snoc.
Qed.

Lemma rstrip_by_decomp (sp : ascii → bool) (t : string) :
  ∃ w, t = rstrip_by sp t +:+ w ∧ str_forall sp w = true.
Proof.
  induction t as [|a t (w & Ht & Hw)].
  - by exists "".
  - cbn [rstrip_by]. destruct (rstrip_by sp t) as [|b r] eqn:E.
    + destruct (sp a) eqn:Ha.
      * exists (String a w). split; [by rewrite Ht at 1|]. simpl. by rewrite Ha.
      * exists w. split; [by rewrite Ht at 1|done].
    + exists w. split; [by rewrite Ht at 1|done].
Qed.

(** *** Tokens of a line *)

Lemma split_nonempty (sep : ascii) (s : string) : ∃ h t, split sep s = h :: t.
Proof.
  induction s as [|a s (h & t & IH)]; [by eexists _, _|].
  cbn [split]. case_bool_decide; [by eexists _, _|]. rewrite IH. by eexists _, _.
Qed.

Lemma split_cons_ne (sep a : ascii) (s : string) :
  a ≠ sep → split sep (String a s) = Spec.prepend (String a "") (split sep s).
Proof.
  intros Hne. cbn [split]. rewrite bool_decide_eq_false_2 by done.
  by destruct (split sep s).
Qed.

Lemma prepend_prepend (p q : string) (lines : list string) :
  Spec.prepend p (Spec.prepend q lines) = Spec.prepend (p +:+ q) lines.
Proof. destruct lines as [|h t]; cbn [Spec.prepend]; by rewrite ?str_app_assoc. Qed.

Lemma line_tokens_cons_space (c : ascii) (line : string) :
  is_space c = true → Spec.line_tokens (String c line) = Spec.line_tokens line.
Proof.
  intros Hc. destruct (space_not_escape c Hc) as (_ & _ & _ & Hcomma).
  unfold Spec.line_tokens. rewrite split_cons_ne by done.
  destruct (split_nonempty "," line) as (h & t & ->).
  cbn [Spec.prepend omap list_omap]. rewrite str_app_cons, str_app_nil_l.
  unfold Spec.token_value at 1 3. by rewrite strip_cons_space.
Qed.

Lemma omap_prepend_snoc (c : ascii) (line : string) :
  is_space c = true →
  ∀ q, omap Spec.token_value (Spec.prepend q (split "," (line +:+ String c "")))
       = omap Spec.token_value (Spec.prepend q (split "," line)).
Proof.
  intros Hc. destruct (space_not_escape c Hc) as (_ & _ & _ & Hcomma).
  induction line as [|a line IH]; intros q.
  - rewrite str_app_nil_l, split_cons_ne by done. cbn [split Spec.prepend].
    rewrite !str_app_nil_r. cbn [omap list_omap]. unfold Spec.token_value.
    by rewrite strip_snoc_space.
  - rewrite str_app_cons. destruct (decide (a = ","%char)) as [->|Hne].
    + cbn [split]. rewrite !bool_decide_eq_true_2 by done.
      cbn [Spec.prepend omap list_omap].
      specialize (IH "").
      destruct (split_nonempty "," (line +:+ String c "")) as (h1 & t1 & E1).
      destruct (split_nonempty "," line) as (h2 & t2 & E2).
      rewrite E1, E2 in IH |- *.
      change (omap Spec.token_value (h1 :: t1) = omap Spec.token_value (h2 :: t2)) in IH.
      by rewrite IH.
    + rewrite !split_cons_ne by done. rewrite !prepend_prepend. apply IH.
Qed.

Lemma line_tokens_snoc_space (c : ascii) (line : string) :
  is_space c = true → Spec.line_tokens (line +:+ String c "") = Spec.line_tokens line.
Proof.
  intros Hc. pose proof (omap_prepend_snoc c line Hc "") as H.
  destruct (split_nonempty "," (line +:+ String c "")) as (h1 & t1 & E1).
  destruct (split_nonempty "," line) as (h2 & t2 & E2).
  unfold Spec.line_tokens. rewrite E1, E2 in H |- *. exact H.
Qed.

Lemma line_values_spec (line : string) : line_values line = Spec.line_tokens line.
Proof.
  unfold line_values, Spec.line_tokens. induction (split "," line) as [|p parts IH]; [done|].
  rewrite fmap_cons, filter_cons. cbn [omap list_omap]. rewrite <- IH.
  unfold Spec.token_value at 1.
  destruct (decide (strip p ≠ "")) as [Hne|He].
  - done.
  - apply dec_stable in He. rewrite He. done.
Qed.

(** *** Lines *)

Lemma tokens_of_cons (h : string) (t : list string) :
  tokens_of (h :: t) = Spec.line_tokens h ++ tokens_of t.
Proof. done. Qed.

Lemma tokens_of_prepend_nil (lines : list string) :
  tokens_of (Spec.prepend "" lines) = tokens_of lines.
Proof. by destruct lines. Qed.

Lemma lines_of_cons_plain (skip_lf : bool) (a : ascii) (s : string) :
  is_linebreak a = false →
  lines_of skip_lf (String a s) = Spec.prepend (String a "") (lines_of false s).
Proof.
  intros Ha. cbn [lines_from]. rewrite Ha.
  assert (bool_decide (a = "010"%char) = false) as ->.
  { apply bool_decide_eq_false. intros ->. done. }
  rewrite andb_false_r. by destruct (lines_of false s).
Qed.

(** A line feed skipped after a carriage return adds no token. *)
Lemma tokens_of_skip_lf (skip_lf : bool) (s : string) :
  tokens_of (lines_of skip_lf s) = tokens_of (lines_of false s).
Proof.
  destruct skip_lf; [|done]. destruct s as [|a s]; [done|].
  cbn [lines_from andb]. case_bool_decide as Ha; [|done]. subst a.
  cbn [is_linebreak]. by rewrite bool_decide_eq_false_2 by done.
Qed.

Lemma tokens_of_cons_space (skip_lf : bool) (c : ascii) (s : string) :
  is_space c = true → tokens_of (lines_of skip_lf (String c s)) = tokens_of (lines_of false s).
Proof.
  intros Hc. destruct (is_linebreak c) eqn:Hbrk.
  - cbn [lines_from]. rewrite Hbrk.
    destruct (skip_lf && bool_decide (c = "010"%char)); [done|].
    rewrite tokens_of_cons. cbn [app]. apply tokens_of_skip_lf.
  - rewrite lines_of_cons_plain by done.
    destruct (lines_of false s) as [|h t].
    + cbn [Spec.prepend]. rewrite tokens_of_cons.
      by rewrite line_tokens_cons_space by done.
    + cbn [Spec.prepend]. rewrite !tokens_of_cons, str_app_cons, str_app_nil_l.
      by rewrite line_tokens_cons_space by done.
Qed.

(** Leading white space of the cell adds no token. *)
Lemma tokens_of_lstrip (s : string) (skip_lf : bool) :
  tokens_of (lines_of skip_lf (Spec.unescaped s))
  = tokens_of (lines_of false (Spec.unescaped (lstrip_by is_space s))).
Proof.
  revert skip_lf. induction s as [|a s IH]; intros skip_lf; [by destruct skip_lf|].
  cbn [lstrip_by]. destruct (is_space a) eqn:Ha.
  - rewrite unescaped_cons_space by done.
    rewrite tokens_of_cons_space by done. apply IH.
  - apply tokens_of_skip_lf.
Qed.

(** White space after a text adds no token, whatever comes before the text
    on its first line. *)
Lemma tokens_of_space_only (w : string) :
  str_forall is_space w = true →
  ∀ p skip_lf, tokens_of (Spec.prepend p (lines_of skip_lf w)) = Spec.line_tokens p.
Proof.
  induction w as [|c w IH]; intros Hw p skip_lf.
  - cbn. by rewrite app_nil_r.
  - apply str_forall_cons in Hw as [Hc Hw]. destruct (is_linebreak c) eqn:Hbrk.
    + cbn [lines_from]. rewrite Hbrk.
      destruct (skip_lf && bool_decide (c = "010"%char)); [by apply IH|].
      cbn [Spec.prepend]. rewrite tokens_of_cons, str_app_nil_r.
      rewrite <- tokens_of_prepend_nil, IH by done. by rewrite app_nil_r.
    + rewrite lines_of_cons_plain, prepend_prepend, IH by done.
      by apply line_tokens_snoc_space.
Qed.

Lemma tokens_of_app_space (w : string) :
  str_forall is_space w = true →
  ∀ y p skip_lf,
    tokens_of (Spec.prepend p (lines_of skip_lf (y +:+ w)))
    = tokens_of (Spec.prepend p (lines_of skip_lf y)).
Proof.
  intros Hw. induction y as [|a y IH]; intros p skip_lf.
  - rewrite str_app_nil_l, tokens_of_space_only by done.
    cbn. by rewrite app_nil_r.
  - rewrite str_app_cons. destruct (is_linebreak a) eqn:Hbrk.
    + cbn [lines_from]. rewrite Hbrk.
      destruct (skip_lf && bool_decide (a = "010"%char)); [apply IH|].
      cbn [Spec.prepend]. rewrite !tokens_of_cons. f_equal.
      rewrite <- (tokens_of_prepend_nil (lines_of _ (y +:+ w))), IH.
      apply tokens_of_prepend_nil.
    + rewrite !lines_of_cons_plain, !prepend_prepend by done. apply IH.
Qed.

(** The decoder computes the flat list of the specification. *)
Lemma parse_per_core_values_spec (s : string) :
  parse_per_core_values (VStr s) = Spec.flat_values s.
Proof.
  unfold parse_per_core_values, Spec.flat_values, splitlines.
  rewrite unescape_spec.
  assert (tokens_of (lines_of false (Spec.unescaped (strip s)))
          = tokens_of (lines_of false (Spec.unescaped s))) as Hcore.
  { rewrite (tokens_of_lstrip s false). unfold strip.
    generalize (lstrip_by is_space s). intros t.
    destruct (rstrip_by_decomp is_space t) as (w & Ht & Hw).
    transitivity (tokens_of (lines_of false (Spec.unescaped (rstrip_by is_space t +:+ w))));
      [|by rewrite <- Ht].
    rewrite unescaped_app_space by done.
    rewrite <- (tokens_of_prepend_nil (lines_of false (_ +:+ w))).
    rewrite tokens_of_app_space by done. by rewrite tokens_of_prepend_nil. }
  rewrite <- Hcore.
  case_bool_decide as He; [by rewrite He|].
  f_equal. apply list_fmap_ext. intros i line _. apply line_values_spec.
Qed.

(** *** Means *)



End decoder.



(** ** More on the grouped aggregator *)

Section group_entries.
Import plot_bdev.




End group_entries.

(** X1: a key tuple that only one record has gets that record's value as its
    mean, unchanged. *)
Theorem group_mean_single_record (rows : list plot_bdev.row) (keys : list string)
    (value_key : string) (key : list pyfloat) (val : pyfloat) :
  Spec.values_of key (Spec.complete_records rows keys value_key) = [val] →
  ∃ out, plot_bdev._group_mean rows keys value_key = Ok out
    ∧ plot_bdev.group_entry keys value_key key val ∈ out
    ∧ plot_bdev.group_entry keys value_key key val !! value_key = Some val.
Proof.
  intros Hval. eexists. split; [apply group_mean_characterisation|].
  split; [|apply lookup_insert_eq].
  unfold Spec.grouped_means.
  replace val with (np_mean (Spec.values_of key (Spec.complete_records rows keys value_key)))
    at 1 by (by rewrite Hval, np_mean_singleton).
  apply (list_elem_of_fmap_2 (fun key => plot_bdev.group_entry keys value_key key
           (np_mean (Spec.values_of key (Spec.complete_records rows keys value_key))))).
  apply first_occurrences_elem.
  assert (val ∈ Spec.values_of key (Spec.complete_records rows keys value_key)) as Hin
    by (rewrite Hval; left).
  unfold Spec.values_of in Hin. apply list_elem_of_fmap in Hin as ([k v] & -> & Hin).
  apply list_elem_of_filter in Hin as [Hk Hin]. cbn in Hk. subst k.
  apply list_elem_of_fmap. by exists (key, v).
Qed.

Lemma group_mean_single_record_witness :
  ∃ out, plot_bdev._group_mean [Samples.record 1 10; Samples.record 2 5] ["qd"] "val" = Ok out
    ∧ plot_bdev.group_entry ["qd"] "val" [of_Z 2] (of_Z 5) ∈ out
    ∧ plot_bdev.group_entry ["qd"] "val" [of_Z 2] (of_Z 5) !! "val" = Some (of_Z 5).
Proof.
  apply (group_mean_single_record [Samples.record 1 10; Samples.record 2 5] ["qd"] "val"
           [of_Z 2] (of_Z 5)).
  vm_compute. reflexivity.
Defined.



(** ** Sums of percentages *)

Section percentages.








End percentages.

Section merger_totals.
Import plot_bdev.


End merger_totals.




(** ** Rows that span several lines *)

Section continuation.
Import plot_multicore.

Lemma append_to_last_snoc (acc : list string) (cur line : string) :
  append_to_last (acc ++ [cur]) line = acc ++ [cur +:+ "\n" +:+ line].
Proof.
  induction acc as [|x acc IH]; [done|].
  rewrite <- !app_comm_cons. cbn [append_to_last]. rewrite IH.
  by destruct acc.
Qed.


Lemma row_start_not_blank (line : string) : row_start line = true → line ≠ "".
Proof. by destruct line. Qed.

(** Lines before the first row start leave the buffer empty. *)
Lemma reconstruct_no_start (pre : list string) :
  Forall (fun line => row_start line = false) pre → foldl reconstruct_step [] pre = [].
Proof.
  induction 1 as [|line pre Hline _ IH]; [done|].
  cbn [foldl]. unfold reconstruct_step at 2. rewrite Hline.
  by case_bool_decide.
Qed.

(** Further lines go to the last buffer. *)
Lemma reconstruct_continuation (conts acc : list string) (cur : string) :
  Forall (fun line => row_start line = false) conts →
  foldl reconstruct_step (acc ++ [cur]) conts = acc ++ [Spec.joined (cur, conts)].
Proof.
  intros Hall. revert cur. induction Hall as [|line conts Hline _ IH]; intros cur; [done|].
  cbn [foldl]. unfold reconstruct_step at 2. unfold Spec.joined. cbn [fst snd].
  rewrite filter_cons. case_bool_decide as Hblank.
  - rewrite decide_False by (by intros ?). apply IH.
  - rewrite decide_True by done. rewrite Hline, append_to_last_snoc, IH. done.
Qed.

Lemma reconstruct_blocks (blocks : list (string * list string)) (acc : list string) :
  Forall (fun block => row_start block.1 = true
                       ∧ Forall (fun line => row_start line = false) block.2) blocks →
  foldl reconstruct_step acc (Spec.block_lines blocks) = acc ++ (Spec.joined <$> blocks).
Proof.
  intros Hall. revert acc.
  induction Hall as [|[start conts] blocks [Hstart Hconts] _ IH]; intros acc.
  - by rewrite app_nil_r.
  - unfold Spec.block_lines in *. rewrite fmap_cons. cbn [mjoin list_join fst snd] in *.
    rewrite <- app_comm_cons. cbn [foldl]. rewrite foldl_app.
    replace (reconstruct_step acc start) with (acc ++ [start]).
    2:{ unfold reconstruct_step.
        rewrite bool_decide_eq_false_2 by by apply row_start_not_blank.
        by rewrite Hstart. }
    rewrite reconstruct_continuation by done.
    rewrite IH, fmap_cons, <- app_assoc. done.
Qed.



End continuation.

(** X4: the row buffers built from the lines after the header.  Lines before
    the first line that starts with digits and a comma are dropped; each such
    line opens a row; every further line that is not blank is appended to the
    row, after a backslash and the letter n; blank lines are skipped. *)
Theorem continuation_lines_join (pre : list string) (blocks : list (string * list string)) :
  Forall (fun line => plot_multicore.row_start line = false) pre →
  Forall (fun block => plot_multicore.row_start block.1 = true
                       ∧ Forall (fun line => plot_multicore.row_start line = false) block.2)
         blocks →
  foldl plot_multicore.reconstruct_step [] (pre ++ Spec.block_lines blocks)
  = Spec.joined <$> blocks.
Proof.
  intros Hpre Hblocks.
  by rewrite foldl_app, reconstruct_no_start, reconstruct_blocks.
Qed.

Lemma continuation_lines_join_witness :
  foldl plot_multicore.reconstruct_step []
    (["# note"; ""] ++ Spec.block_lines [("1,a", ["x"; ""; "y"]); ("22,b", [])])
  = ["1,a\nx\ny"; "22,b"].
Proof.
  apply (continuation_lines_join ["# note"; ""] [("1,a", ["x"; ""; "y"]); ("22,b", [])]).
  - repeat constructor.
  - repeat constructor.
Defined.




(** ** Cells of several lines *)

Section several_lines.
Import plot_multicore.
Import Spec.

(** Replacement works on both sides of a character that cannot end an
    occurrence of the pattern. *)
Lemma replace2_split (c1 c2 c : ascii) (new y : string) :
  c ≠ c2 →
  ∀ x, replace2 c1 c2 new (x +:+ String c y)
       = replace2 c1 c2 new x +:+ replace2 c1 c2 new (String c y).
Proof.
  intros Hc.
  assert (∀ x, (replace2 c1 c2 new (x +:+ String c y)
                = replace2 c1 c2 new x +:+ replace2 c1 c2 new (String c y))
               ∧ ∀ a, replace2 c1 c2 new (String a x +:+ String c y)
                      = replace2 c1 c2 new (String a x) +:+ replace2 c1 c2 new (String c y))
    as Hboth.
  { induction x as [|b x [IH1 IH2]].
    - split; [done|]. intros a. rewrite str_app_cons, str_app_nil_l, replace2_cons2.
      rewrite (bool_decide_eq_false_2 (c = c2)) by done. by rewrite andb_false_r.
    - split; [apply IH2|]. intros a. rewrite !str_app_cons, !replace2_cons2.
      destruct (bool_decide (a = c1) && bool_decide (b = c2)).
      + by rewrite IH1, str_app_assoc.
      + rewrite str_app_cons. f_equal. rewrite <- str_app_cons. apply IH2. }
  intros x. apply Hboth.
Qed.

(** An escaped line feed between two texts becomes a line feed between
    their unescaped forms. *)
Lemma unescaped_marker (x y : string) :
  Spec.unescaped (x +:+ "\n" +:+ y)
  = Spec.unescaped x +:+ String "010" (Spec.unescaped y).
Proof.
  unfold Spec.unescaped.
  change ("\n" +:+ y) with (String "\" (String "n" y)).
  rewrite (replace2_split "\" "r" "\") by done.
  rewrite (replace2_cons2 "\" "r" "\" "n").
  rewrite (bool_decide_eq_false_2 ("n"%char = "r"%char)) by done. rewrite andb_false_r.
  rewrite (replace2_cons_ne "\" "r" "n") by done.
  rewrite (replace2_split "\" "n" "\") by done.
  by rewrite (replace2_cons2 "\" "n" "\" "n").
Qed.

(** A line feed between two texts stays where it is. *)
Lemma unescaped_line_feed (x y : string) :
  Spec.unescaped (x +:+ String "010" y)
  = Spec.unescaped x +:+ String "010" (Spec.unescaped y).
Proof.
  unfold Spec.unescaped.
  rewrite (replace2_split "\" "r" "010") by done.
  rewrite (replace2_cons_ne "\" "r" "010") by done.
  rewrite (replace2_split "\" "n" "010") by done.
  by rewrite (replace2_cons_ne "\" "n" "010") by done.
Qed.

(** The tokens of two texts with a line feed between them are the tokens
    of the first, then those of the second. *)
Lemma tokens_of_line_feed (y : string) :
  ∀ x p,
    tokens_of (Spec.prepend p (lines_of false (x +:+ String "010" y)))
    = tokens_of (Spec.prepend p (lines_of false x)) ++ tokens_of (lines_of false y).
Proof.
  induction x as [|a x IH]; intros p.
  - rewrite str_app_nil_l. cbn [lines_from andb is_linebreak Spec.prepend].
    rewrite bool_decide_eq_false_2 by done.
    rewrite !tokens_of_cons, str_app_nil_r. cbn [fmap list_fmap mjoin list_join].
    by rewrite app_nil_r.
  - rewrite str_app_cons. destruct (is_linebreak a) eqn:Hbrk.
    + cbn [lines_from andb]. rewrite Hbrk. cbn [Spec.prepend].
      rewrite !tokens_of_cons, <- app_assoc. f_equal.
      rewrite tokens_of_skip_lf, (tokens_of_skip_lf _ x).
      rewrite <- (tokens_of_prepend_nil (lines_of false (x +:+ _))), IH.
      by rewrite tokens_of_prepend_nil.
    + rewrite !lines_of_cons_plain, !prepend_prepend by done. apply IH.
Qed.

Lemma flat_values_line_feed (x y : string) :
  tokens_of (lines_of false (x +:+ String "010" y))
  = tokens_of (lines_of false x) ++ tokens_of (lines_of false y).
Proof.
  cbv beta. rewrite <- (tokens_of_prepend_nil (lines_of false (x +:+ String "010" y))).
  rewrite tokens_of_line_feed. by rewrite tokens_of_prepend_nil.
Qed.

End several_lines.

(** X6: two texts joined by an escaped line feed (a backslash and the letter
    n, as the row reconstructor writes it) or by a real line feed decode to
    the values of the first text followed by the values of the second. *)
Theorem per_core_values_of_joined_lines (a b : string) :
  plot_multicore.parse_per_core_values (VStr (a +:+ "\n" +:+ b))
  = plot_multicore.parse_per_core_values (VStr a)
    ++ plot_multicore.parse_per_core_values (VStr b)
  ∧ plot_multicore.parse_per_core_values (VStr (a +:+ String "010" b))
    = plot_multicore.parse_per_core_values (VStr a)
      ++ plot_multicore.parse_per_core_values (VStr b).
Proof.
  rewrite !parse_per_core_values_spec. unfold Spec.flat_values.
  rewrite unescaped_marker, unescaped_line_feed.
  split; apply flat_values_line_feed.
Qed.


(** ** The charts of the completion histogram *)

Section charts.
Import plot_phase1.












End charts.






(** ** Sorted values and the lines of a plot *)

Section float_order.

Lemma flt_asym (a b : pyfloat) : flt a b = true → flt b a = false.
Proof.
  destruct a as [p| | |], b as [q| | |]; try done. unfold flt.
  intros Hlt%bool_decide_eq_true. apply bool_decide_eq_false.
  apply Qcle_not_lt. by apply Qclt_le_weak.
Qed.

Lemma flt_trans (a b c : pyfloat) : flt a b = true → flt b c = true → flt a c = true.
Proof.
  destruct a as [p| | |], b as [q| | |], c as [r| | |]; try done. unfold flt.
  intros H1%bool_decide_eq_true H2%bool_decide_eq_true. apply bool_decide_eq_true.
  by eapply Qclt_trans.
Qed.

(** Of two different numbers, one is smaller. *)
Lemma flt_connected (a b : pyfloat) :
  a ≠ NaN → b ≠ NaN → a ≠ b → flt b a = false → flt a b = true.
Proof.
  destruct a as [p| | |], b as [q| | |]; try done. unfold flt.
  intros _ _ Hne Hnlt%bool_decide_eq_false. apply bool_decide_eq_true.
  apply Qcnot_lt_le in Hnlt. apply Qcle_lt_or_eq in Hnlt as [?|Heq]; [done|].
  by subst.
Qed.

Lemma not_after_total : Total plot_bdev.not_after.
Proof.
  intros a b. unfold plot_bdev.not_after.
  destruct (flt b a) eqn:E; [right; by apply flt_asym|by left].
Qed.

Lemma flt_transitive : Transitive (fun a b => flt a b = true).
Proof. intros a b c. apply flt_trans. Qed.

(** A list without NaN and without repetition that never steps down steps
    up everywhere. *)
Lemma Sorted_increasing (l : list pyfloat) :
  Sorted plot_bdev.not_after l → NoDup l → Forall (fun v => v ≠ NaN) l → Spec.increasing l.
Proof.
  unfold Spec.increasing.
  induction 1 as [|a l Hl IH Hhd]; intros Hnd Hnan; [constructor|].
  apply NoDup_cons in Hnd as [Ha Hnd]. apply Forall_cons in Hnan as [Hna Hnan].
  constructor; [by apply IH|].
  destruct Hhd as [|b l Hab]; constructor.
  apply Forall_cons in Hnan as [Hnb _].
  apply flt_connected; [done..| |done]. intros ->. apply Ha. left.
Qed.

(** Two strictly ascending lists with the same elements are the same list. *)
Lemma increasing_unique (l1 l2 : list pyfloat) :
  Spec.increasing l1 → Spec.increasing l2 → l1 ≡ₚ l2 → l1 = l2.
Proof.
  unfold Spec.increasing. intros H1 H2 Hp.
  apply (StronglySorted_unique_strong (fun a b => flt a b = true)); [|..|done].
  - intros a b _ _ Hab Hba. apply flt_asym in Hab. congruence.
  - by apply (@Sorted_StronglySorted _ _ flt_transitive).
  - by apply (@Sorted_StronglySorted _ _ flt_transitive).
Qed.

Lemma sorted_increasing (l : list pyfloat) :
  NoDup l → Forall (fun v => v ≠ NaN) l → Spec.increasing (plot_bdev.sorted l).
Proof.
  intros Hnd Hnan. unfold plot_bdev.sorted. apply Sorted_increasing.
  - apply (@Sorted_merge_sort _ _ _ not_after_total).
  - by rewrite merge_sort_Permutation.
  - by rewrite merge_sort_Permutation.
Qed.

End float_order.

(** X10: for rows without NaN in the column, the unique values come in
    strictly ascending order, they are exactly the values the column takes in
    the rows, and the order in which the set of values is iterated before
    sorting makes no difference. *)
Theorem unique_values_sorted (rows : list plot_bdev.row) (key : string) :
  Forall (fun r : plot_bdev.row => r !! key ≠ Some NaN) rows →
  Spec.increasing (plot_bdev._unique_values rows key)
  ∧ (∀ v, v ∈ plot_bdev._unique_values rows key ↔ ∃ r, r ∈ rows ∧ r !! key = Some v)
  ∧ (∀ elements,
       elements ≡ₚ remove_dups (omap (fun r : plot_bdev.row => r !! key) rows) →
       plot_bdev.sorted elements = plot_bdev._unique_values rows key).
Proof.
  intros Hnan. unfold plot_bdev._unique_values.
  set (col := omap (fun r : plot_bdev.row => r !! key) rows).
  assert (∀ v, v ∈ col ↔ ∃ r, r ∈ rows ∧ r !! key = Some v) as Hcol.
  { intros v. unfold col. by rewrite list_elem_of_omap. }
  assert (Forall (fun v => v ≠ NaN) (remove_dups col)) as Hfin.
  { apply Forall_forall. intros v [r [Hr Hv]]%elem_of_remove_dups%Hcol ->.
    rewrite Forall_forall in Hnan. by apply (Hnan r). }
  split; [|split].
  - apply sorted_increasing; [apply NoDup_remove_dups|done].
  - intros v. unfold plot_bdev.sorted.
    by rewrite merge_sort_Permutation, elem_of_remove_dups.
  - intros elements Hp. apply increasing_unique.
    + apply sorted_increasing; rewrite Hp; [apply NoDup_remove_dups|done].
    + apply sorted_increasing; [apply NoDup_remove_dups|done].
    + unfold plot_bdev.sorted. by rewrite !merge_sort_Permutation.
Qed.

Lemma unique_values_sorted_witness :
  Spec.increasing
    (plot_bdev._unique_values [Samples.record 2 5; Samples.record 1 10; Samples.record 2 7] "qd")
  ∧ (∀ v, v ∈ plot_bdev._unique_values
                [Samples.record 2 5; Samples.record 1 10; Samples.record 2 7] "qd"
          ↔ ∃ r, r ∈ [Samples.record 2 5; Samples.record 1 10; Samples.record 2 7]
                 ∧ r !! "qd" = Some v)
  ∧ (∀ elements,
       elements ≡ₚ remove_dups (omap (fun r : plot_bdev.row => r !! "qd")
                     [Samples.record 2 5; Samples.record 1 10; Samples.record 2 7]) →
       plot_bdev.sorted elements
       = plot_bdev._unique_values
           [Samples.record 2 5; Samples.record 1 10; Samples.record 2 7] "qd").
Proof.
  apply (unique_values_sorted
           [Samples.record 2 5; Samples.record 1 10; Samples.record 2 7] "qd").
  repeat constructor; by vm_compute.
Defined.


(** ** The series of a line *)

Section line_series.
Import plot_bdev.

Lemma insert_by_key_Permutation (p : pyfloat * row) (l : list (pyfloat * row)) :
  insert_by_key p l ≡ₚ p :: l.
Proof.
  induction l as [|q l IH]; [done|]. cbn [insert_by_key].
  destruct (flt q.1 p.1); [|done]. by rewrite IH, Permutation_swap.
Qed.

Lemma sort_by_key_Permutation (l : list (pyfloat * row)) :
  foldr insert_by_key [] l ≡ₚ l.
Proof.
  induction l as [|p l IH]; [done|]. cbn [foldr].
  by rewrite insert_by_key_Permutation, IH.
Qed.

Lemma insert_by_key_Sorted (p : pyfloat * row) (l : list (pyfloat * row)) :
  Sorted (fun a b => not_after a.1 b.1) l →
  Sorted (fun a b => not_after a.1 b.1) (insert_by_key p l).
Proof.
  induction 1 as [|q l Hl IH Hhd]; [by repeat constructor|].
  cbn [insert_by_key]. destruct (flt q.1 p.1) eqn:Hqp.
  - constructor; [done|]. destruct Hhd as [|q' l Hqq']; cbn [insert_by_key].
    + constructor. by apply flt_asym.
    + destruct (flt q'.1 p.1); constructor; [done|]. by apply flt_asym.
  - constructor; [by constructor|]. by constructor.
Qed.

Lemma sort_by_key_Sorted (l : list (pyfloat * row)) :
  Sorted (fun a b => not_after a.1 b.1) (foldr insert_by_key [] l).
Proof.
  induction l as [|p l IH]; [constructor|]. cbn [foldr]. by apply insert_by_key_Sorted.
Qed.

(** The two columns of the entry of a group with one grouping column. *)
Lemma item_entry_key (x y : string) (v m : pyfloat) :
  x ≠ y → item x (group_entry [x] y [v] m) = Ok v.
Proof.
  intros Hne. unfold item, group_entry. cbn [zip zip_with foldl fst snd].
  by rewrite lookup_insert_ne, lookup_insert_eq by done.
Qed.

Lemma item_entry_value (x y : string) (key : list pyfloat) (m : pyfloat) :
  item y (group_entry [x] y key m) = Ok m.
Proof. unfold item, group_entry. by rewrite lookup_insert_eq. Qed.

(** The key of a complete record for one grouping column is the value of
    that column. *)
Lemma one_column_key (r : row) (x y : string) (key : list pyfloat) (val : pyfloat) :
  key_and_value r [x] y = Some (key, val) ↔ ∃ v, key = [v] ∧ r !! x = Some v ∧ r !! y = Some val.
Proof.
  unfold key_and_value. cbn [mapM]. destruct (r !! x) as [v|]; cbn.
  - destruct (r !! y) as [w|]; cbn.
    + split.
      * intros [= <- <-]. by exists v.
      * intros (v' & -> & [= ->] & [= ->]). done.
    + split; [done|]. by intros (v' & _ & _ & ?).
  - split; [done|]. by intros (v' & _ & ? & _).
Qed.

Lemma one_column_keys (rows : list row) (x y : string) (key : list pyfloat) :
  key ∈ (Spec.complete_records rows [x] y).*1
  ↔ ∃ v r, key = [v] ∧ r ∈ rows ∧ r !! x = Some v ∧ is_Some (r !! y).
Proof.
  unfold Spec.complete_records. rewrite list_elem_of_fmap. split.
  - intros ([key' val] & -> & Hin). apply list_elem_of_omap in Hin as (r & Hr & Hkv).
    apply one_column_key in Hkv as (v & -> & Hx & Hy). exists v, r. by rewrite Hy.
  - intros (v & r & -> & Hr & Hx & [val Hy]). exists ([v], val). split; [done|].
    apply list_elem_of_omap. exists r. split; [done|]. apply one_column_key. by exists v.
Qed.

Lemma singletons (l : list (list pyfloat)) :
  Forall (fun key => ∃ v : pyfloat, key = [v]) l → ∃ vs, l = (fun v => [v]) <$> vs.
Proof.
  induction 1 as [|key l [v ->] _ [vs ->]]; [by exists []|]. by exists (v :: vs).
Qed.

Lemma rmapM_fmap_Ok {A B C : Type} (f : B → result C) (g : A → B) (h : A → C) (l : list A) :
  (∀ a, a ∈ l → f (g a) = Ok (h a)) → rmapM f (g <$> l) = Ok (h <$> l).
Proof.
  induction l as [|a l IH]; intros Hf; [done|].
  rewrite !fmap_cons. cbn [rmapM]. rewrite Hf by left. cbn [rbind].
  rewrite IH; [done|]. intros b Hb. apply Hf. by right.
Qed.

(** The series of the rows: the sorted keys of the groups, and the means of
    the groups in that order. *)
Lemma series_characterisation (rows : list row) (x y : string) :
  x ≠ y →
  ∃ xs,
    series rows x y
    = Ok (xs, (fun v => np_mean (Spec.values_of [v] (Spec.complete_records rows [x] y))) <$> xs)
    ∧ Sorted not_after xs
    ∧ NoDup xs
    ∧ ∀ v, v ∈ xs ↔ ∃ r, r ∈ rows ∧ r !! x = Some v ∧ is_Some (r !! y).
Proof.
  intros Hne. unfold series. rewrite group_mean_characterisation. cbn [rbind].
  set (records := Spec.complete_records rows [x] y).
  set (order := Spec.first_occurrences records.*1).
  destruct (singletons order) as [vs Hvs].
  { apply Forall_forall. intros key Hkey. unfold order in Hkey.
    apply (proj1 (first_occurrences_elem _ _)) in Hkey.
    apply one_column_keys in Hkey as (v & _ & -> & _). by exists v. }
  assert (NoDup vs) as Hnd.
  { apply (NoDup_fmap_1 (fun v : pyfloat => [v])). rewrite <- Hvs.
    apply first_occurrences_NoDup. }
  assert (∀ v, v ∈ vs ↔ ∃ r, r ∈ rows ∧ r !! x = Some v ∧ is_Some (r !! y)) as Hin.
  { intros v. transitivity ([v] ∈ order).
    - rewrite Hvs, list_elem_of_fmap. split; [by exists v|]. by intros (w & [= ->] & Hw).
    - unfold order, records. rewrite first_occurrences_elem, one_column_keys. split.
      + intros (w & r & [= <-] & Hr). by exists r.
      + intros (r & Hr). by exists v, r. }
  set (mean := fun v => np_mean (Spec.values_of [v] records)).
  set (entry := fun v => group_entry [x] y [v] (mean v)).
  unfold Spec.grouped_means. fold records order. rewrite Hvs, <- list_fmap_compose.
  unfold sorted_by.
  rewrite (rmapM_fmap_Ok _ _ (fun v => (v, entry v))).
  2:{ intros v _. cbn. by rewrite item_entry_key. }
  cbn [rbind].
  set (sorted_pairs := foldr insert_by_key [] ((fun v => (v, entry v)) <$> vs)).
  assert (sorted_pairs ≡ₚ (fun v => (v, entry v)) <$> vs) as Hperm
    by apply sort_by_key_Permutation.
  assert (sorted_pairs = (fun v => (v, entry v)) <$> sorted_pairs.*1) as Hpairs.
  { assert (Forall (fun p : pyfloat * row => p = (p.1, entry p.1)) sorted_pairs) as Hall.
    { rewrite Hperm. apply Forall_fmap, Forall_forall. by intros v _. }
    clear Hperm. induction Hall as [|p l Hp _ IH]; [done|].
    rewrite !fmap_cons. by rewrite <- IH, <- Hp. }
  exists sorted_pairs.*1.
  assert (sorted_pairs.*1 ≡ₚ vs) as Hkeys.
  { rewrite Hperm, <- list_fmap_compose. by rewrite list_fmap_id. }
  split; [|split; [|split]].
  - assert (sorted_pairs.*2 = entry <$> sorted_pairs.*1) as ->.
    { rewrite Hpairs at 1. by rewrite <- list_fmap_compose. }
    rewrite (rmapM_fmap_Ok _ _ (fun v => v)).
    2:{ intros v _. cbn. by apply item_entry_key. }
    cbn [rbind].
    rewrite (rmapM_fmap_Ok _ _ mean).
    2:{ intros v _. cbn. apply item_entry_value. }
    cbn [rbind]. by rewrite list_fmap_id.
  - apply (Sorted_fmap fst (fun a b : pyfloat * row => not_after a.1 b.1) not_after);
      [done|apply sort_by_key_Sorted].
  - by rewrite Hkeys.
  - intros v. by rewrite Hkeys.
Qed.

End line_series.

(** X11: the series of a line, for a value column other than the abscissa
    column and rows without NaN in the abscissa column.  The abscissas come in
    strictly ascending order and are exactly the values of the abscissa column
    in the rows that have both columns; each ordinate is the mean of the
    values of the rows with that abscissa. *)
Theorem series_ascending_means (rows : list plot_bdev.row) (x y : string) :
  x ≠ y →
  Forall (fun r : plot_bdev.row => r !! x ≠ Some NaN) rows →
  ∃ xs,
    plot_bdev.series rows x y
    = Ok (xs, (fun v => np_mean (Spec.values_of [v] (Spec.complete_records rows [x] y)))
                <$> xs)
    ∧ Spec.increasing xs
    ∧ ∀ v, v ∈ xs ↔ ∃ r, r ∈ rows ∧ r !! x = Some v ∧ is_Some (r !! y).
Proof.
  intros Hne Hnan.
  destruct (series_characterisation rows x y Hne) as (xs & Hs & Hsorted & Hnd & Hin).
  exists xs. split; [done|]. split; [|done].
  apply Sorted_increasing; [done..|].
  apply Forall_forall. intros v (r & Hr & Hx & _)%Hin ->.
  rewrite Forall_forall in Hnan. by apply (Hnan r).
Qed.

Lemma series_ascending_means_witness :
  ∃ xs,
    plot_bdev.series [Samples.record 2 5; Samples.record 1 10; Samples.record 2 7] "qd" "val"
    = Ok (xs, (fun v => np_mean (Spec.values_of [v]
                          (Spec.complete_records
                             [Samples.record 2 5; Samples.record 1 10; Samples.record 2 7]
                             ["qd"] "val"))) <$> xs)
    ∧ Spec.increasing xs
    ∧ ∀ v, v ∈ xs ↔ ∃ r, r ∈ [Samples.record 2 5; Samples.record 1 10; Samples.record 2 7]
                         ∧ r !! "qd" = Some v ∧ is_Some (r !! "val").
Proof.
  apply (series_ascending_means
           [Samples.record 2 5; Samples.record 1 10; Samples.record 2 7] "qd" "val").
  - done.
  - repeat constructor; by vm_compute.
Defined.


(** ** The lines of a plot with a hue *)

Section hue_lines.
Import plot_bdev.

Lemma hue_is_spec (hue : string) (hv : pyfloat) (r : row) :
  hv ≠ NaN → hue_is hue hv r = true ↔ r !! hue = Some hv.
Proof.
  intros Hnan. unfold hue_is, feq. destruct (r !! hue) as [v|]; [|done].
  rewrite andb_true_iff, negb_true_iff, bool_decide_eq_true. split.
  - by intros [_ ->].
  - intros [= ->]. split; [|done]. by destruct hv.
Qed.

Lemma Forall2_with_l {A B : Type} (P : A → B → Prop) (Q : A → Prop)
    (l : list A) (k : list B) :
  Forall2 P l k → Forall Q l → Forall2 (fun a b => Q a ∧ P a b) l k.
Proof.
  induction 1 as [|a b l k Hab _ IH]; [constructor|].
  intros [Ha Hl]%Forall_cons. constructor; [done|by apply IH].
Qed.

(** The line of one hue value. *)
Lemma hue_line (rows : list row) (x y hue : string) (hv : pyfloat) :
  x ≠ y → hv ≠ NaN →
  Forall (fun r : row => r !! x ≠ Some NaN) rows →
  ∃ xs ys,
    series (filter (fun r => hue_is hue hv r = true) rows) x y = Ok (xs, ys)
    ∧ Spec.increasing xs
    ∧ length ys = length xs
    ∧ ∀ v, v ∈ xs ↔ ∃ r, r ∈ rows ∧ r !! hue = Some hv ∧ r !! x = Some v ∧ is_Some (r !! y).
Proof.
  intros Hne Hhv Hnan.
  set (sub_rows := filter (fun r => hue_is hue hv r = true) rows).
  destruct (series_characterisation sub_rows x y Hne) as (xs & Hs & Hsorted & Hnd & Hin).
  eexists xs, _. split; [exact Hs|]. split; [|split].
  - apply Sorted_increasing; [done..|].
    apply Forall_forall. intros v (r & Hr & Hx & _)%Hin ->.
    apply list_elem_of_filter in Hr as [_ Hr].
    rewrite Forall_forall in Hnan. by apply (Hnan r).
  - by rewrite length_fmap.
  - intros v. rewrite Hin. unfold sub_rows. split.
    + intros (r & [Hh Hr]%list_elem_of_filter & Hx & Hy).
      exists r. by rewrite <- (hue_is_spec hue hv r) by done.
    + intros (r & Hr & Hh & Hx & Hy). exists r. split; [|done].
      apply list_elem_of_filter. split; [|done]. by apply hue_is_spec.
Qed.

End hue_lines.

(** X12: the lines of a plot with a hue, when the first row has the value
    column and the hue column, the value column is not the abscissa column,
    and no row holds NaN in the abscissa or the hue column.  One line is drawn
    for each value of the hue column, in strictly ascending order of these
    values; the abscissas of a line come in strictly ascending order and are
    exactly the abscissas of the rows with that hue value that have the value
    column; a line has as many ordinates as abscissas. *)
Theorem lineplot_lines (first : plot_bdev.row) (rest : list plot_bdev.row) (x y hue : string) :
  is_Some (first !! y) →
  is_Some (first !! hue) →
  x ≠ y →
  Forall (fun r : plot_bdev.row => r !! x ≠ Some NaN ∧ r !! hue ≠ Some NaN) (first :: rest) →
  ∃ lines,
    plot_bdev.lineplot (first :: rest) x y hue = Ok (Some lines)
    ∧ Spec.increasing (plot_bdev._unique_values (first :: rest) hue)
    ∧ Forall2 (fun hv line =>
                 line.1 = Some hv
                 ∧ Spec.increasing line.2.1
                 ∧ length line.2.2 = length line.2.1
                 ∧ ∀ v, v ∈ line.2.1
                        ↔ ∃ r, r ∈ first :: rest ∧ r !! hue = Some hv
                               ∧ r !! x = Some v ∧ is_Some (r !! y))
              (plot_bdev._unique_values (first :: rest) hue) lines.
Proof.
  intros Hy Hhue Hne Hnan. set (rows := first :: rest) in *.
  assert (Forall (fun r : plot_bdev.row => r !! x ≠ Some NaN) rows) as Hx.
  { eapply Forall_impl; [exact Hnan|]. by intros r [? _]. }
  assert (Forall (fun r : plot_bdev.row => r !! hue ≠ Some NaN) rows) as Hh.
  { eapply Forall_impl; [exact Hnan|]. by intros r [_ ?]. }
  assert (Spec.increasing (plot_bdev._unique_values rows hue)
          ∧ Forall (fun hv => hv ≠ NaN) (plot_bdev._unique_values rows hue)) as [Hinc Hvals].
  { unfold plot_bdev._unique_values, plot_bdev.sorted.
    assert (Forall (fun v => v ≠ NaN)
              (remove_dups (omap (fun r : plot_bdev.row => r !! hue) rows))) as Hfin.
    { apply Forall_forall. intros v Hv ->.
      apply (proj1 (elem_of_remove_dups _ _)) in Hv.
      apply list_elem_of_omap in Hv as (r & Hr & Hv).
      rewrite Forall_forall in Hh. by apply (Hh r). }
    split.
    - apply sorted_increasing; [apply NoDup_remove_dups|done].
    - by rewrite merge_sort_Permutation. }
  unfold plot_bdev.lineplot. cbn [rows].
  rewrite !bool_decide_eq_true_2 by done. fold rows.
  destruct (rmapM_total (fun hv =>
              let sub_rows := filter (fun r => plot_bdev.hue_is hue hv r = true) rows in
              s ←r plot_bdev.series sub_rows x y; Ok (Some hv, s))
              (plot_bdev._unique_values rows hue)) as (lines & Hlines & Hall).
  { intros hv Hin. rewrite Forall_forall in Hvals.
    destruct (hue_line rows x y hue hv Hne (Hvals _ Hin) Hx) as (xs & ys & Hs & _).
    cbv zeta. rewrite Hs. by eexists. }
  cbv zeta in Hlines. rewrite Hlines. cbn [rbind].
  exists lines. split; [done|]. split; [done|].
  eapply Forall2_impl; [exact (Forall2_with_l _ _ _ _ Hall Hvals)|].
  intros hv line [Hhv Hline]. cbv beta zeta in Hline.
  destruct (hue_line rows x y hue hv Hne Hhv Hx) as (xs & ys & Hs & Hxs & Hlen & Hmem).
  rewrite Hs in Hline. cbn [rbind] in Hline. injection Hline as <-. done.
Qed.

Lemma lineplot_lines_witness :
  ∃ lines,
    plot_bdev.lineplot
      (Samples.sized_record 4096 2 5
         :: [Samples.sized_record 512 1 10; Samples.sized_record 4096 1 7]) "qd" "val" "size"
    = Ok (Some lines)
    ∧ Spec.increasing
        (plot_bdev._unique_values
           (Samples.sized_record 4096 2 5
              :: [Samples.sized_record 512 1 10; Samples.sized_record 4096 1 7]) "size")
    ∧ Forall2 (fun hv line =>
                 line.1 = Some hv
                 ∧ Spec.increasing line.2.1
                 ∧ length line.2.2 = length line.2.1
                 ∧ ∀ v, v ∈ line.2.1
                        ↔ ∃ r, r ∈ Samples.sized_record 4096 2 5
                                   :: [Samples.sized_record 512 1 10;
                                       Samples.sized_record 4096 1 7]
                               ∧ r !! "size" = Some hv
                               ∧ r !! "qd" = Some v ∧ is_Some (r !! "val"))
              (plot_bdev._unique_values
                 (Samples.sized_record 4096 2 5
                    :: [Samples.sized_record 512 1 10; Samples.sized_record 4096 1 7]) "size")
              lines.
Proof.
  apply (lineplot_lines (Samples.sized_record 4096 2 5)
           [Samples.sized_record 512 1 10; Samples.sized_record 4096 1 7] "qd" "val" "size").
  - compute_done.
  - compute_done.
  - done.
  - repeat constructor; by vm_compute.
Defined.


(** ** Cells that hold one number *)

Section numerals.
Import plot_multicore.

Lemma numeral_char_plain (c : ascii) :
  Spec.numeral_char c = true →
  is_space c = false ∧ is_num_space c = false ∧ is_linebreak c = false
  ∧ c ≠ ","%char ∧ c ≠ "\"%char.
Proof. destruct c as [[] [] [] [] [] [] [] []]; done. Qed.

Lemma numeral_char_digit (c : ascii) : is_digit c = true → Spec.numeral_char c = true.
Proof. intros Hc. unfold Spec.numeral_char. by rewrite Hc. Qed.

Lemma starts_numeral_refl (s : string) : Spec.starts_numeral s s.
Proof. by exists "". Qed.

Lemma starts_numeral_cons (c : ascii) (s r : string) :
  Spec.numeral_char c = true → Spec.starts_numeral s r → Spec.starts_numeral (String c s) r.
Proof.
  intros Hc (pre & -> & Hpre). exists (String c pre). split; [done|].
  apply str_forall_cons. done.
Qed.

Lemma starts_numeral_trans (s r t : string) :
  Spec.starts_numeral s r → Spec.starts_numeral r t → Spec.starts_numeral s t.
Proof.
  intros (p1 & -> & H1) (p2 & -> & H2). exists (p1 +:+ p2).
  split; [by rewrite str_app_assoc|]. by rewrite str_forall_app, H1, H2.
Qed.

Lemma starts_numeral_all (s : string) :
  Spec.starts_numeral s "" → str_forall Spec.numeral_char s = true.
Proof. intros (pre & -> & Hpre). by rewrite str_app_nil_r. Qed.

Lemma digits_go_span (s : string) :
  ∀ acc n v m r, digits_go acc n s = (v, m, r) → Spec.starts_numeral s r.
Proof.
  assert ((∀ acc n v m r, digits_go acc n s = (v, m, r) → Spec.starts_numeral s r)
          ∧ ∀ c acc n v m r, digits_go acc n (String c s) = (v, m, r)
                             → Spec.starts_numeral (String c s) r) as [H _]; [|exact H].
  induction s as [|b s [IH1 IH2]].
  - split.
    + intros acc n v m r [= _ _ <-]. apply starts_numeral_refl.
    + intros c acc n v m r. cbn [digits_go]. destruct (is_digit c) eqn:Hc.
      * intros [= _ _ <-]. apply starts_numeral_cons; [by apply numeral_char_digit|].
        apply starts_numeral_refl.
      * case_bool_decide; intros [= _ _ <-]; apply starts_numeral_refl.
  - split; [apply IH2|].
    intros c acc n v m r. cbn [digits_go]. destruct (is_digit c) eqn:Hc.
    + intros Hgo. apply starts_numeral_cons; [by apply numeral_char_digit|].
      by eapply IH2.
    + case_bool_decide as Hu; [|intros [= _ _ <-]; apply starts_numeral_refl].
      subst c. destruct (is_digit b) eqn:Hb.
      * intros Hgo. apply starts_numeral_cons; [done|].
        apply starts_numeral_cons; [by apply numeral_char_digit|]. by eapply IH1.
      * intros [= _ _ <-]. apply starts_numeral_refl.
Qed.

Lemma digitpart_span (s : string) (v : Z) (m : nat) (r : string) :
  digitpart s = Some (v, m, r) → Spec.starts_numeral s r.
Proof.
  unfold digitpart. destruct s as [|c s]; [done|]. destruct (is_digit c) eqn:Hc; [|done].
  intros [= Hgo]. apply starts_numeral_cons; [by apply numeral_char_digit|].
  by eapply digits_go_span.
Qed.

Lemma opt_digitpart_span (s : string) (v : Z) (m : nat) (r : string) :
  opt_digitpart s = (v, m, r) → Spec.starts_numeral s r.
Proof.
  unfold opt_digitpart. destruct (digitpart s) as [[[v' m'] r']|] eqn:E.
  - intros [= -> -> ->]. by eapply digitpart_span.
  - intros [= _ _ <-]. apply starts_numeral_refl.
Qed.

Lemma sign_split_span (s : string) (neg : bool) (r : string) :
  sign_split s = (neg, r) → Spec.starts_numeral s r.
Proof.
  unfold sign_split, eat. destruct s as [|c s].
  - intros [= _ <-]. apply starts_numeral_refl.
  - case_bool_decide as Hp.
    + subst c. intros [= _ <-]. apply starts_numeral_cons; [done|apply starts_numeral_refl].
    + case_bool_decide as Hm.
      * subst c. intros [= _ <-]. apply starts_numeral_cons; [done|apply starts_numeral_refl].
      * intros [= _ <-]. apply starts_numeral_refl.
Qed.

Lemma exponent_span (s : string) (e : Z) : exponent s = Some e → Spec.starts_numeral s "".
Proof.
  unfold exponent. destruct s as [|c s]; [intros _; apply starts_numeral_refl|].
  case_bool_decide as Hc; [|done].
  destruct (sign_split s) as [neg r] eqn:Hsign.
  destruct (digitpart r) as [[[v m] t]|] eqn:Hd; [|done].
  destruct t; [|done]. intros _.
  apply starts_numeral_cons.
  { unfold Spec.numeral_char. rewrite Hc. by rewrite orb_true_r. }
  eapply starts_numeral_trans; [by eapply sign_split_span|by eapply digitpart_span].
Qed.

Lemma floatnumber_span (s : string) (q : Qc) :
  floatnumber s = Some q → Spec.starts_numeral s "".
Proof.
  unfold floatnumber. destruct (opt_digitpart s) as [[i ni] r1] eqn:H1.
  apply opt_digitpart_span in H1.
  destruct (eat "." r1) as [r|] eqn:Hdot.
  - destruct (opt_digitpart r) as [[f nf] r2] eqn:H2.
    apply opt_digitpart_span in H2.
    destruct (ni + nf =? 0)%nat; [done|].
    destruct (exponent r2) as [e|] eqn:He; [|done]. intros _.
    eapply starts_numeral_trans; [exact H1|].
    unfold eat in Hdot. destruct r1 as [|c r1]; [done|].
    case_bool_decide as Hc; [|done]. injection Hdot as ->. subst c.
    apply starts_numeral_cons; [done|].
    eapply starts_numeral_trans; [exact H2|]. by eapply exponent_span.
  - destruct (ni + 0 =? 0)%nat; [done|].
    destruct (exponent r1) as [e|] eqn:He; [|done]. intros _.
    eapply starts_numeral_trans; [exact H1|]. by eapply exponent_span.
Qed.

(** The names of the special values are made of characters of numerals. *)
Lemma special_span (body : string) :
  lower_str body = "inf" ∨ lower_str body = "infinity" ∨ lower_str body = "nan" →
  str_forall Spec.numeral_char body = true.
Proof.
  assert (∀ c l, lower c = l →
                 l ∈ ["i"; "n"; "f"; "t"; "y"; "a"]%char → Spec.numeral_char c = true) as Hl.
  { intros c l <- Hin. unfold Spec.numeral_char.
    repeat (apply elem_of_cons in Hin as [->|Hin]; [by rewrite orb_true_r|]).
    by apply elem_of_nil in Hin. }
  intros [H|[H|H]].
  - do 3 (destruct body as [|? body]; [discriminate H|]). destruct body; [|discriminate H].
    injection H as H1 H2 H3. cbn [str_forall].
    rewrite (Hl _ _ H1), (Hl _ _ H2), (Hl _ _ H3) by compute_done. done.
  - do 8 (destruct body as [|? body]; [discriminate H|]). destruct body; [|discriminate H].
    injection H as H1 H2 H3 H4 H5 H6 H7 H8. cbn [str_forall].
    rewrite (Hl _ _ H1), (Hl _ _ H2), (Hl _ _ H3), (Hl _ _ H4), (Hl _ _ H5),
      (Hl _ _ H6), (Hl _ _ H7), (Hl _ _ H8) by compute_done. done.
  - do 3 (destruct body as [|? body]; [discriminate H|]). destruct body; [|discriminate H].
    injection H as H1 H2 H3. cbn [str_forall].
    rewrite (Hl _ _ H1), (Hl _ _ H2), (Hl _ _ H3) by compute_done. done.
Qed.

(** What [float] accepts is, once the white space around it is removed, a
    non-empty string of characters of numerals. *)
Lemma py_float_numeral (s : string) (x : pyfloat) :
  py_float s = Ok x →
  str_forall Spec.numeral_char (num_strip s) = true ∧ num_strip s ≠ "".
Proof.
  intros Hf. split.
  - revert Hf. unfold py_float.
    destruct (sign_split (num_strip s)) as [neg body] eqn:Hsign.
    apply sign_split_span in Hsign. intros Hf.
    apply starts_numeral_all. eapply starts_numeral_trans; [exact Hsign|].
    assert (str_forall Spec.numeral_char body = true) as Hbody.
    { destruct (bool_decide (lower_str body = "inf")) eqn:E1.
      { apply special_span. left. by apply bool_decide_eq_true in E1. }
      destruct (bool_decide (lower_str body = "infinity")) eqn:E2.
      { apply special_span. right. left. by apply bool_decide_eq_true in E2. }
      cbn [orb] in Hf.
      destruct (bool_decide (lower_str body = "nan")) eqn:E3.
      { apply special_span. right. right. by apply bool_decide_eq_true in E3. }
      destruct (floatnumber body) as [q|] eqn:Hq; [|done].
      by apply starts_numeral_all, (floatnumber_span body q). }
    exists body. by rewrite str_app_nil_r.
  - intros He. unfold py_float in Hf. rewrite He in Hf. done.
Qed.

(** *** White space around a numeral *)

Lemma lstrip_by_decomp (sp : ascii → bool) (s : string) :
  ∃ w, s = w +:+ lstrip_by sp s ∧ str_forall sp w = true.
Proof.
  induction s as [|a s (w & Hs & Hw)]; [by exists ""|].
  cbn [lstrip_by]. destruct (sp a) eqn:Ha.
  - exists (String a w). split; [by rewrite str_app_cons, <- Hs|].
    apply str_forall_cons. done.
  - by exists "".
Qed.

Lemma lstrip_by_app_skip (sp : ascii → bool) (w t : string) :
  str_forall sp w = true → lstrip_by sp (w +:+ t) = lstrip_by sp t.
Proof.
  induction w as [|a w IH]; [done|]. intros [Ha Hw]%str_forall_cons.
  rewrite str_app_cons. cbn [lstrip_by]. rewrite Ha. by apply IH.
Qed.

Lemma rstrip_by_app_skip (sp : ascii → bool) (w : string) :
  str_forall sp w = true → ∀ x, rstrip_by sp (x +:+ w) = rstrip_by sp x.
Proof.
  induction w as [|a w IH]; intros Hw x; [by rewrite str_app_nil_r|].
  apply str_forall_cons in Hw as [Ha Hw].
  replace (x +:+ String a w) with ((x +:+ String a "") +:+ w)
    by (by rewrite str_app_assoc).
  rewrite IH by done. by apply rstrip_by_snoc.
Qed.

(** Around a text without white space, stripping by a class of white space
    leaves the text. *)
Lemma strip_around (sp : ascii → bool) (w1 core w2 : string) :
  str_forall sp w1 = true → str_forall sp w2 = true →
  str_forall (fun c => negb (sp c)) core = true → core ≠ "" →
  rstrip_by sp (lstrip_by sp (w1 +:+ core +:+ w2)) = core.
Proof.
  intros H1 H2 Hcore Hne. rewrite lstrip_by_app_skip by done.
  destruct core as [|a core]; [done|].
  pose proof Hcore as [Ha _]%str_forall_cons. apply negb_true_iff in Ha.
  rewrite str_app_cons, lstrip_by_head by done. rewrite <- str_app_cons.
  rewrite rstrip_by_app_skip by done. by apply rstrip_by_none.
Qed.

Lemma num_strip_decomp (s : string) :
  ∃ w1 w2, s = w1 +:+ num_strip s +:+ w2
           ∧ str_forall is_num_space w1 = true ∧ str_forall is_num_space w2 = true.
Proof.
  destruct (lstrip_by_decomp is_num_space s) as (w1 & Hs & Hw1).
  destruct (rstrip_by_decomp is_num_space (lstrip_by is_num_space s)) as (w2 & Ht & Hw2).
  exists w1, w2. split; [|done]. unfold num_strip. by rewrite <- Ht.
Qed.

Lemma num_space_space (c : ascii) : is_num_space c = true → is_space c = true.
Proof. destruct c as [[] [] [] [] [] [] [] []]; done. Qed.

(** *** Texts of one line and one part *)

Lemma lines_from_plain (brk : ascii → bool) (s : string) :
  str_forall (fun c => negb (brk c)) s = true → s ≠ "" → lines_from brk false s = [s].
Proof.
  induction s as [|a s IH]; [done|]. intros [Ha Hs]%str_forall_cons _.
  apply negb_true_iff in Ha. cbn [lines_from andb]. rewrite Ha.
  destruct s as [|b s]; [done|]. by rewrite IH.
Qed.

Lemma split_plain (sep : ascii) (s : string) :
  str_forall (fun c => negb (bool_decide (c = sep))) s = true → split sep s = [s].
Proof.
  induction s as [|a s IH]; [done|]. intros [Ha Hs]%str_forall_cons.
  apply negb_true_iff in Ha. cbn [split]. rewrite Ha. by rewrite IH.
Qed.

(** A cell that [float] accepts decodes to the one value [float] gives. *)
Lemma single_value (s : string) (x : pyfloat) :
  py_float s = Ok x → parse_per_core_values (VStr s) = [x].
Proof.
  intros Hf. destruct (py_float_numeral s x Hf) as [Hnum Hne].
  set (core := num_strip s) in *.
  destruct (num_strip_decomp s) as (w1 & w2 & Hs & Hw1 & Hw2). fold core in Hs.
  assert (∀ P : ascii → bool,
            (∀ c, Spec.numeral_char c = true → P c = true) → str_forall P core = true) as Hall.
  { intros P HP. by eapply str_forall_impl. }
  assert (num_strip core = core) as Hidem.
  { unfold num_strip. destruct core as [|a core'] eqn:E; [done|]. rewrite <- E in *.
    rewrite E at 1. rewrite lstrip_by_head.
    - rewrite <- E. apply rstrip_by_none, Hall.
      intros c Hc. apply numeral_char_plain in Hc as (_ & -> & _). done.
    - rewrite E in Hnum. apply str_forall_cons in Hnum as [Ha _].
      by apply numeral_char_plain in Ha as (_ & -> & _). }
  assert (py_float core = Ok x) as Hcore.
  { revert Hf. unfold py_float. by rewrite Hidem. }
  assert (strip s = core) as Hstrip.
  { unfold strip. rewrite Hs. apply strip_around; [| |apply Hall|done].
    - eapply str_forall_impl; [apply num_space_space|done].
    - eapply str_forall_impl; [apply num_space_space|done].
    - intros c Hc. by apply numeral_char_plain in Hc as (-> & _). }
  assert (strip core = core) as Hstrip'.
  { unfold strip. replace core with ("" +:+ core +:+ "") at 1 by apply str_app_nil_r.
    apply strip_around; [done|done|apply Hall|done].
    intros c Hc. by apply numeral_char_plain in Hc as (-> & _). }
  unfold parse_per_core_values. rewrite Hstrip, unescape_spec.
  assert (str_forall (fun c => negb (bool_decide (c = "\"%char))) core = true) as Hback.
  { apply Hall. intros c Hc. apply numeral_char_plain in Hc as (_ & _ & _ & _ & Hb).
    by rewrite bool_decide_eq_false_2. }
  unfold Spec.unescaped.
  rewrite (replace2_without "\" "r") by done. rewrite (replace2_without "\" "n") by done.
  rewrite bool_decide_eq_false_2 by done.
  unfold splitlines. rewrite lines_from_plain; [|apply Hall|done].
  2:{ intros c Hc. by apply numeral_char_plain in Hc as (_ & _ & -> & _). }
  cbn [fmap list_fmap mjoin list_join]. rewrite app_nil_r.
  unfold line_values. rewrite split_plain.
  2:{ apply Hall. intros c Hc. apply numeral_char_plain in Hc as (_ & _ & _ & Hc & _).
      by rewrite bool_decide_eq_false_2. }
  cbn [fmap list_fmap]. rewrite Hstrip'.
  rewrite filter_cons, decide_True by done. rewrite filter_nil.
  cbn [omap list_omap]. by rewrite Hcore.
Qed.

End numerals.

(** X13: a cell whose text [float] accepts (a numeral or the name of a
    special value, white space around it allowed) decodes to that one value,
    and its mean is that value. *)
Theorem single_value_cell (s : string) (x : pyfloat) :
  py_float s = Ok x →
  plot_multicore.parse_per_core_values (VStr s) = [x]
  ∧ plot_multicore.per_core_mean (VStr s) = x.
Proof.
  intros Hf. pose proof (single_value s x Hf) as Hv. split; [done|].
  unfold plot_multicore.per_core_mean. rewrite Hv. apply np_mean_singleton.
Qed.

Lemma single_value_cell_witness :
  plot_multicore.parse_per_core_values (VStr " 1.5e3 ") = [of_Z 1500]
  ∧ plot_multicore.per_core_mean (VStr " 1.5e3 ") = of_Z 1500.
Proof. apply (single_value_cell " 1.5e3 " (of_Z 1500)). compute_done. Defined.


(** ** The distributions per IO size and queue depth *)

Section by_size.
Import plot_bdev.

Implicit Types (r : hist_row) (rows samples : list hist_row)
  (agg : pydict (pyfloat * pyfloat * pyfloat) pyfloat) (k : pyfloat * pyfloat * pyfloat).















End by_size.




(** ** The configuration file rewriter *)

Section rewriter.
Import apply_ssd_profile.

(** *** Decimal numerals *)

Lemma pretty_N_char_digit (d : N) : is_digit (pretty_N_char d) = true.
Proof. unfold pretty_N_char. by repeat case_match. Qed.

Lemma pretty_N_go_digits (x : N) :
  ∀ s, str_forall is_digit s = true → str_forall is_digit (pretty_N_go x s) = true.
Proof.
  induction (N.lt_wf_0 x) as [x _ IH]; intros s Hs.
  assert (x = 0 ∨ 0 < x)%N as [->|Hx] by lia; [by rewrite pretty_N_go_0|].
  rewrite pretty_N_go_step by done. apply IH; [by apply N.div_lt|].
  apply str_forall_cons. split; [apply pretty_N_char_digit|done].
Qed.

Lemma pretty_N_go_nonempty (x : N) : ∀ s, s ≠ "" → pretty_N_go x s ≠ "".
Proof.
  induction (N.lt_wf_0 x) as [x _ IH]; intros s Hs.
  assert (x = 0 ∨ 0 < x)%N as [->|Hx] by lia; [by rewrite pretty_N_go_0|].
  rewrite pretty_N_go_step by done. apply IH; [by apply N.div_lt|done].
Qed.

Lemma pretty_N_digits (x : N) : str_forall is_digit (pretty x) = true ∧ pretty x ≠ "".
Proof.
  unfold pretty, pretty_N. case_decide as Hx; [done|]. split.
  - by apply pretty_N_go_digits.
  - rewrite pretty_N_go_step by lia. by apply pretty_N_go_nonempty.
Qed.

(** The characters of a decimal numeral: digits and the minus sign. *)
Lemma pretty_Z_chars (z : Z) :
  str_forall (fun c => is_digit c || bool_decide (c = "-"%char)) (pretty z) = true
  ∧ pretty z ≠ "".
Proof.
  assert (∀ s, str_forall is_digit s = true →
               str_forall (fun c => is_digit c || bool_decide (c = "-"%char)) s = true) as Hd.
  { intros s. apply str_forall_impl. by intros c ->. }
  destruct z as [|p|p]; [done|..]; unfold pretty, pretty_Z.
  - destruct (pretty_N_digits (N.pos p)) as [H1 H2]. split; [by apply Hd|done].
  - destruct (pretty_N_digits (N.pos p)) as [H1 H2]. split; [|done].
    rewrite str_app_cons, str_app_nil_l. apply str_forall_cons. split; [done|by apply Hd].
Qed.

Lemma numeral_plain (c : ascii) :
  is_digit c || bool_decide (c = "-"%char) = true →
  is_space c = false ∧ is_newline c = false ∧ c ≠ "="%char.
Proof. destruct c as [[] [] [] [] [] [] [] []]; done. Qed.

(** *** Prefixes and last characters *)

Lemma startswith_spec (p s : string) : startswith p s = true ↔ ∃ r, s = p +:+ r.
Proof.
  revert s. induction p as [|a p IH]; intros s; cbn [startswith].
  - split; [by exists s|done].
  - destruct s as [|b s].
    + split; [done|]. by intros [r ?].
    + rewrite andb_true_iff, bool_decide_eq_true, IH. split.
      * intros [-> [r ->]]. by exists r.
      * intros [r [= -> ->]]. split; [done|]. by exists r.
Qed.

(** Two prefixes of a string: one is a prefix of the other. *)
Lemma prefix_total (p1 p2 r1 r2 : string) :
  p1 +:+ r1 = p2 +:+ r2 →
  (∃ q, p1 = p2 +:+ q ∧ r2 = q +:+ r1) ∨ (∃ q, p2 = p1 +:+ q ∧ r1 = q +:+ r2).
Proof.
  revert p2. induction p1 as [|a p1 IH]; intros p2 Heq.
  - right. exists p2. by rewrite str_app_nil_l in *.
  - destruct p2 as [|b p2].
    + left. exists (String a p1). by rewrite str_app_nil_l in *.
    + rewrite !str_app_cons in Heq. injection Heq as -> Heq.
      destruct (IH p2 Heq) as [(q & -> & ->)|(q & -> & ->)].
      * left. by exists q.
      * right. by exists q.
Qed.

Lemma endswith_app (c : ascii) (x y : string) :
  y ≠ "" → endswith c (x +:+ y) = endswith c y.
Proof.
  intros Hy. induction x as [|a x IH]; [done|].
  rewrite str_app_cons. cbn [endswith]. destruct (x +:+ y) eqn:E; [|done].
  by destruct x, y.
Qed.

Lemma endswith_absent (c : ascii) (y : string) :
  str_forall (fun a => negb (bool_decide (a = c))) y = true → endswith c y = false.
Proof.
  induction y as [|a y IH]; [done|]. intros [Ha Hy]%str_forall_cons.
  apply negb_true_iff in Ha. cbn [endswith]. destruct y; [done|by apply IH].
Qed.

(** *** Stripping *)

Lemma lstrip_by_sub (P sp : ascii → bool) (s : string) :
  str_forall P s = true → str_forall P (lstrip_by sp s) = true.
Proof.
  induction s as [|a s IH]; [done|]. intros Hs. cbn [lstrip_by].
  destruct (sp a); [|done]. apply str_forall_cons in Hs as [_ Hs]. by apply IH.
Qed.

Lemma rstrip_by_sub (P sp : ascii → bool) (s : string) :
  str_forall P s = true → str_forall P (rstrip_by sp s) = true.
Proof.
  induction s as [|a s IH]; [done|]. intros [Ha Hs]%str_forall_cons. cbn [rstrip_by].
  specialize (IH Hs). destruct (rstrip_by sp s) as [|b r].
  - destruct (sp a); [done|]. apply str_forall_cons. done.
  - apply str_forall_cons. done.
Qed.

Lemma strip_sub (P : ascii → bool) (s : string) :
  str_forall P s = true → str_forall P (strip s) = true.
Proof. intros Hs. unfold strip. by apply rstrip_by_sub, lstrip_by_sub. Qed.

(** A stripped string does not start with white space. *)
Lemma strip_head (s : string) (a : ascii) (t : string) :
  strip s = String a t → is_space a = false.
Proof.
  unfold strip.
  assert (∀ u, lstrip_by is_space s = u → u = "" ∨ ∃ b u', u = String b u' ∧ is_space b = false)
    as Hl.
  { induction s as [|b s IH]; intros u; cbn [lstrip_by]; [by left|].
    destruct (is_space b) eqn:Hb; [apply IH|]. intros <-. right. by eexists _, _. }
  destruct (Hl _ eq_refl) as [->|(b & u' & -> & Hb)]; [done|].
  cbn [rstrip_by]. destruct (rstrip_by is_space u').
  - rewrite Hb. by intros [= <- _].
  - by intros [= <- _].
Qed.

Lemma rstrip_by_app_keep (sp : ascii → bool) (x y : string) :
  rstrip_by sp y ≠ "" → rstrip_by sp (x +:+ y) = x +:+ rstrip_by sp y.
Proof.
  intros Hy. induction x as [|a x IH]; [done|].
  rewrite !str_app_cons. cbn [rstrip_by]. rewrite IH.
  destruct (x +:+ rstrip_by sp y) eqn:E; [|done].
  destruct x; [|done]. by rewrite str_app_nil_l in E.
Qed.

(** The text of a proper line, stripped, holds no line end. *)
Lemma strip_proper_line (line : string) :
  Spec.terminated line ∨ Spec.open_line line → Spec.no_newline (strip line).
Proof.
  intros [(body & -> & Hbody)|[_ Hline]].
  - rewrite strip_snoc_space by done. by apply strip_sub.
  - by apply strip_sub.
Qed.

(** *** Reading and writing lines *)

Lemma readlines_from_proper (s : string) : ∀ skip_lf, Spec.proper (readlines_from skip_lf s).
Proof.
  induction s as [|a s IH]; intros skip_lf; cbn [readlines_from]; [done|].
  destruct (skip_lf && bool_decide (a = "010"%char)); [apply IH|].
  destruct (is_newline a) eqn:Ha.
  - split; [|apply IH]. left. by exists "".
  - specialize (IH false). destruct (readlines_from false s) as [|h t].
    + split; [|done]. right. split; [|done]. split; [done|].
      unfold Spec.no_newline. cbn. by rewrite Ha.
    + destruct IH as [Hh Ht]. split; [|done].
      destruct Hh as [(body & -> & Hbody)|[[Hne Hh] ->]].
      * left. exists (String a body). split; [done|].
        unfold Spec.no_newline in *. cbn. by rewrite Ha.
      * right. split; [|done]. split; [done|].
        unfold Spec.no_newline in *. cbn. by rewrite Ha.
Qed.

Lemma readlines_terminated (body rest : string) :
  Spec.no_newline body →
  readlines_from false (body +:+ String "010" rest)
  = (body +:+ String "010" "") :: readlines_from false rest.
Proof.
  unfold Spec.no_newline. induction body as [|a body IH]; [done|].
  intros [Ha Hbody]%str_forall_cons. apply negb_true_iff in Ha.
  rewrite !str_app_cons. cbn [readlines_from andb]. rewrite Ha. by rewrite IH.
Qed.

Lemma readlines_open (line : string) :
  Spec.open_line line → readlines_from false line = [line].
Proof.
  intros [Hne Hline]. unfold Spec.no_newline in Hline.
  induction line as [|a line IH]; [done|].
  apply str_forall_cons in Hline as [Ha Hline]. apply negb_true_iff in Ha.
  cbn [readlines_from andb]. rewrite Ha.
  destruct line as [|b line]; [done|]. by rewrite IH.
Qed.

(** Proper lines written to a file are read back as they were. *)
Lemma readlines_writelines (lines : list string) :
  Spec.proper lines → readlines (writelines lines) = lines.
Proof.
  unfold readlines. induction lines as [|line rest IH]; [done|].
  intros [Hline Hrest]. cbn [writelines foldr]. fold (writelines rest).
  destruct Hline as [(body & -> & Hbody)|[Hopen ->]].
  - rewrite str_app_assoc, str_app_cons, str_app_nil_l.
    rewrite readlines_terminated by done. by rewrite IH.
  - cbn [writelines foldr]. rewrite str_app_nil_r. by apply readlines_open.
Qed.

(** A text without carriage returns is the text of its lines. *)
Lemma writelines_readlines (s : string) :
  str_forall (fun c => negb (bool_decide (c = "013"%char))) s = true →
  writelines (readlines s) = s.
Proof.
  unfold readlines. induction s as [|a s IH]; [done|].
  intros [Ha Hs]%str_forall_cons. apply negb_true_iff, bool_decide_eq_false in Ha.
  cbn [readlines_from andb]. destruct (is_newline a) eqn:Hnl.
  - assert (a = "010"%char) as ->.
    { destruct a as [[] [] [] [] [] [] [] []]; done. }
    rewrite bool_decide_eq_false_2 by done. cbn [writelines foldr].
    fold (writelines (readlines_from false s)). by rewrite IH.
  - specialize (IH Hs). destruct (readlines_from false s) as [|h t].
    + cbn in IH. by subst s.
    + cbn [writelines foldr] in *. by rewrite str_app_cons, IH.
Qed.

(** *** One line *)

Lemma replacement_Some (stripped : string) (updates : pydict string Z) (new : string) :
  replacement stripped updates = Some new →
  ∃ key value, startswith (key +:+ " =") stripped = true ∧ new = setting key value.
Proof.
  induction updates as [|[k v] updates IH]; [done|]. cbn [replacement].
  destruct (startswith (k +:+ " =") stripped) eqn:Hk; [|done].
  intros [= <-]. by exists k, v.
Qed.

(** A key whose marker starts a stripped line. *)
Lemma marker_key (key stripped : string) :
  Spec.no_newline stripped →
  (∀ a t, stripped = String a t → is_space a = false) →
  startswith (key +:+ " =") stripped = true →
  Spec.no_newline key ∧ ∃ a key', key = String a key' ∧ is_space a = false.
Proof.
  intros Hnl Hhead [r ->]%startswith_spec. split.
  - unfold Spec.no_newline in *. rewrite !str_forall_app in Hnl.
    by apply andb_true_iff in Hnl as [[? _]%andb_true_iff _].
  - destruct key as [|a key'].
    + by specialize (Hhead " "%char ("=" +:+ r) eq_refl).
    + exists a, key'. split; [done|]. by eapply Hhead.
Qed.

Lemma strip_setting (a : ascii) (key' : string) (value : Z) :
  is_space a = false →
  strip (setting (String a key') value) = String a key' +:+ " = " +:+ pretty value.
Proof.
  intros Ha. unfold strip, setting. rewrite str_app_cons, lstrip_by_head by done.
  rewrite <- str_app_cons.
  destruct (pretty_Z_chars value) as [Hchars Hne].
  assert (rstrip_by is_space (pretty value) = pretty value) as Hkeep.
  { apply rstrip_by_none. eapply str_forall_impl; [|exact Hchars].
    intros c Hc. by apply numeral_plain in Hc as (-> & _). }
  replace (String a key' +:+ " = " +:+ pretty value +:+ String "010" "")
    with ((String a key' +:+ " = " +:+ pretty value) +:+ String "010" "")
    by (by rewrite !str_app_assoc).
  rewrite rstrip_by_snoc by done.
  replace (String a key' +:+ " = " +:+ pretty value)
    with ((String a key' +:+ " = ") +:+ pretty value) by (by rewrite !str_app_assoc).
  rewrite rstrip_by_app_keep; rewrite Hkeep; [done|done].
Qed.

(** A marker that does not start a line does not start the setting of a
    key whose marker starts the line. *)
Lemma other_marker (key other stripped : string) (value : Z) :
  startswith (key +:+ " =") stripped = true →
  startswith (other +:+ " =") stripped = false →
  startswith (other +:+ " =") (key +:+ " = " +:+ pretty value) = false.
Proof.
  intros [rS ->]%startswith_spec Hother.
  destruct (startswith (other +:+ " =") (key +:+ " = " +:+ pretty value)) eqn:E; [|done].
  exfalso. apply startswith_spec in E as [r1 E].
  replace (key +:+ " = " +:+ pretty value)
    with ((key +:+ " =") +:+ (" " +:+ pretty value)) in E by (by rewrite !str_app_assoc).
  symmetry in E. apply prefix_total in E as [(q & Hq & Hr)|(q & Hq & Hr)].
  - (* the marker of the other key extends the marker of the key *)
    destruct q as [|c q].
    + rewrite str_app_nil_r in Hq. rewrite Hq in Hother.
      assert (startswith (key +:+ " =") ((key +:+ " =") +:+ rS) = true) as Hs
        by (apply startswith_spec; by exists rS).
      congruence.
    + rewrite !str_app_cons, str_app_nil_l in Hr. injection Hr as <- Hpv.
      assert (endswith "=" (other +:+ " =") = true) as Hend.
      { replace (other +:+ " =") with ((other +:+ " ") +:+ "=")
          by (by rewrite str_app_assoc).
        apply endswith_snoc. }
      rewrite Hq in Hend. rewrite endswith_app in Hend by done.
      destruct q as [|d q]; [done|].
      change (String " " (String d q)) with (" " +:+ String d q) in Hend.
      rewrite endswith_app in Hend by done.
      rewrite endswith_absent in Hend; [done|].
      destruct (pretty_Z_chars value) as [Hchars _]. rewrite Hpv in Hchars.
      rewrite str_forall_app in Hchars. apply andb_true_iff in Hchars as [Hchars _].
      eapply str_forall_impl; [|exact Hchars].
      intros c Hc. apply numeral_plain in Hc as (_ & _ & Hc).
      by rewrite bool_decide_eq_false_2.
  - (* the marker of the other key is a prefix of the marker of the key *)
    assert (startswith (other +:+ " =") ((key +:+ " =") +:+ rS) = true) as Hs.
    { apply startswith_spec. exists (q +:+ rS). by rewrite Hq, str_app_assoc. }
    congruence.
Qed.

(** The setting written for a line is kept by a second pass. *)
Lemma replacement_fix (updates : pydict string Z) (stripped new : string) :
  Spec.no_newline stripped →
  (∀ a t, stripped = String a t → is_space a = false) →
  replacement stripped updates = Some new →
  replacement (strip new) updates = Some new.
Proof.
  intros Hnl Hhead. induction updates as [|[k v] updates IH]; [done|].
  cbn [replacement]. destruct (startswith (k +:+ " =") stripped) eqn:Hk.
  - intros [= <-].
    destruct (marker_key k stripped Hnl Hhead Hk) as (_ & a & k' & -> & Ha).
    rewrite strip_setting by done.
    assert (startswith (String a k' +:+ " =") (String a k' +:+ " = " +:+ pretty v) = true)
      as ->; [|done].
    apply startswith_spec. exists (" " +:+ pretty v). by rewrite !str_app_assoc.
  - intros Hnew. pose proof (replacement_Some _ _ _ Hnew) as (key & value & Hkey & ->).
    destruct (marker_key key stripped Hnl Hhead Hkey) as (_ & a & key' & -> & Ha).
    rewrite strip_setting by done.
    rewrite (other_marker _ _ stripped) by done.
    rewrite <- (strip_setting a key' value Ha). by apply IH.
Qed.

Lemma setting_terminated (key : string) (value : Z) :
  Spec.no_newline key → Spec.terminated (setting key value).
Proof.
  intros Hkey. exists (key +:+ " = " +:+ pretty value). split.
  - unfold setting. by rewrite !str_app_assoc.
  - unfold Spec.no_newline in *. rewrite !str_forall_app, Hkey.
    destruct (pretty_Z_chars value) as [Hchars _].
    assert (str_forall (fun c => negb (is_newline c)) (pretty value) = true) as ->; [|done].
    eapply str_forall_impl; [|exact Hchars].
    intros c Hc. by apply numeral_plain in Hc as (_ & -> & _).
Qed.

(** What is written for a proper line: a setting, which ends with a line
    feed, or the line itself; and a second pass writes the same again. *)
Lemma out_line_proper (updates : pydict string Z) (line : string) :
  Spec.terminated line ∨ Spec.open_line line →
  (Spec.terminated (out_line updates line) ∨ out_line updates line = line)
  ∧ out_line updates (out_line updates line) = out_line updates line.
Proof.
  intros Hline. pose proof (strip_proper_line line Hline) as Hnl.
  destruct (replacement (strip line) updates) as [new|] eqn:Hnew.
  - assert (out_line updates line = new) as -> by (unfold out_line; by rewrite Hnew).
    split.
    + left. apply replacement_Some in Hnew as (key & value & Hkey & ->).
      apply setting_terminated. by eapply marker_key; [|apply strip_head|].
    + unfold out_line.
      by rewrite (replacement_fix updates (strip line) new Hnl (strip_head line) Hnew).
  - assert (out_line updates line = line) as -> by (unfold out_line; by rewrite Hnew).
    split; [by right|]. unfold out_line. by rewrite Hnew.
Qed.

Lemma out_lines_proper (updates : pydict string Z) (lines : list string) :
  Spec.proper lines →
  Spec.proper (out_line updates <$> lines)
  ∧ out_line updates <$> (out_line updates <$> lines) = out_line updates <$> lines.
Proof.
  induction lines as [|line rest IH]; [done|]. intros [Hline Hrest].
  destruct (IH Hrest) as [IH1 IH2]. rewrite !fmap_cons.
  destruct (out_line_proper updates line) as [Hout Hfix].
  { destruct Hline as [?|[? _]]; [by left|by right]. }
  split; [|by rewrite Hfix, IH2]. split; [|done].
  destruct Hout as [? | ->]; [by left|].
  destruct Hline as [?|[? ->]]; [by left|by right].
Qed.

Lemma replacement_entry (stripped : string) (updates : pydict string Z) (new : string) :
  replacement stripped updates = Some new →
  ∃ key value, (key, value) ∈ updates
               ∧ startswith (key +:+ " =") stripped = true ∧ new = setting key value.
Proof.
  induction updates as [|[k v] updates IH]; [done|]. cbn [replacement].
  destruct (startswith (k +:+ " =") stripped) eqn:Hk.
  - intros [= <-]. exists k, v. split; [left|done].
  - intros (key & value & Hin & Hrest)%IH. exists key, value. split; [by right|done].
Qed.

Lemma apply_config_backup (fs : files) (updates : pydict string Z) :
  backup (apply_config fs updates)
  = Some (default (writelines (readlines (config fs))) (backup fs)).
Proof. unfold apply_config. cbn [backup]. by destruct (backup fs). Qed.

End rewriter.

(** X15: applying the same updates a second time changes nothing: neither
    the configuration file nor the backup. *)
Theorem apply_config_idempotent (fs : apply_ssd_profile.files) (updates : pydict string Z) :
  apply_ssd_profile.apply_config (apply_ssd_profile.apply_config fs updates) updates
  = apply_ssd_profile.apply_config fs updates.
Proof.
  unfold apply_ssd_profile.apply_config at 1.
  rewrite apply_config_backup. f_equal.
  unfold apply_ssd_profile.apply_config. cbn [apply_ssd_profile.config].
  destruct (out_lines_proper updates (apply_ssd_profile.readlines (apply_ssd_profile.config fs)))
    as [Hproper Hfix]; [apply readlines_from_proper|].
  rewrite readlines_writelines by done. rewrite Hfix. by destruct (apply_ssd_profile.backup fs).
Qed.

(** X16: the configuration file after the updates, read again, has as many
    lines as before; each line is the line it was, or, when the line
    stripped of white space starts with a key of the updates, a space and an
    equals sign, the setting of such a key with its value.  In a file of three
    lines, an indented line that sets the erase time is replaced and a line
    without the space before the equals sign is kept. *)
Theorem apply_config_lines :
  (∀ (fs : apply_ssd_profile.files) (updates : pydict string Z),
     let old := apply_ssd_profile.readlines (apply_ssd_profile.config fs) in
     let new := apply_ssd_profile.readlines
                  (apply_ssd_profile.config (apply_ssd_profile.apply_config fs updates)) in
     new = apply_ssd_profile.out_line updates <$> old
     ∧ length new = length old
     ∧ Forall2 (fun o n =>
                  (apply_ssd_profile.replacement (strip o) updates = None ∧ n = o)
                  ∨ ∃ key value,
                      (key, value) ∈ updates
                      ∧ apply_ssd_profile.startswith (key +:+ " =") (strip o) = true
                      ∧ n = apply_ssd_profile.setting key value)
               old new)
  ∧ apply_ssd_profile.apply_config Samples.cfg_files [("Erase", 100%Z); ("LSBRead", 7%Z)]
    = Samples.cfg_files_after.
Proof.
  split; [|by vm_compute].
  intros fs updates old new.
  assert (new = apply_ssd_profile.out_line updates <$> old) as Hnew.
  { unfold new, apply_ssd_profile.apply_config. cbn [apply_ssd_profile.config].
    apply readlines_writelines, out_lines_proper, readlines_from_proper. }
  split; [done|]. rewrite Hnew. split; [by rewrite length_fmap|].
  apply Forall2_fmap_r, Forall_Forall2_diag, Forall_forall. intros o _.
  unfold apply_ssd_profile.out_line.
  destruct (apply_ssd_profile.replacement (strip o) updates) as [s|] eqn:Hs.
  - right. rewrite Hs. exact (replacement_entry _ _ _ Hs).
  - left. rewrite Hs. by split.
Qed.

(** X17: the backup is written once.  After one or more runs it holds what
    it held before the first run, or, if there was no backup, the lines of
    the configuration file as they were before the first run; for a file
    without carriage returns these lines are the text of the file. *)
Theorem backup_written_once :
  (∀ (fs : apply_ssd_profile.files) (updates : pydict string Z)
     (more : list (pydict string Z)),
     apply_ssd_profile.backup
       (foldl apply_ssd_profile.apply_config fs (updates :: more))
     = Some (default
               (apply_ssd_profile.writelines
                  (apply_ssd_profile.readlines (apply_ssd_profile.config fs)))
               (apply_ssd_profile.backup fs)))
  ∧ (∀ content : string,
       str_forall (fun c => negb (bool_decide (c = "013"%char))) content = true →
       apply_ssd_profile.writelines (apply_ssd_profile.readlines content) = content).
Proof.
  split; [|apply writelines_readlines].
  intros fs updates more. cbn [foldl].
  assert (∀ fs' b, apply_ssd_profile.backup fs' = Some b →
            apply_ssd_profile.backup (foldl apply_ssd_profile.apply_config fs' more) = Some b)
    as Hkeep.
  { induction more as [|u more IH]; intros fs' b Hb; [done|].
    cbn [foldl]. apply IH. by rewrite apply_config_backup, Hb. }
  apply Hkeep, apply_config_backup.
Qed.


(** ** Histograms in the documented format *)

Section documented_format.
Import plot_phase1.

(** *** Decimal numerals read back *)

Lemma digit_val_pretty (d : N) : (d < 10)%N → digit_val (pretty_N_char d) = Z.of_N d.
Proof.
  intros Hd.
  assert (d = 0 ∨ d = 1 ∨ d = 2 ∨ d = 3 ∨ d = 4 ∨ d = 5 ∨ d = 6 ∨ d = 7 ∨ d = 8 ∨ d = 9)%N
    as Hcases by lia.
  repeat (destruct Hcases as [->|Hcases]; [done|]). by subst d.
Qed.

Lemma digits_value_pretty (x : N) :
  ∀ s, ∃ k : Z, (0 ≤ k)%Z
    ∧ ∀ acc, Spec.digits_value acc (pretty_N_go x s)
             = Spec.digits_value (acc * 10 ^ k + Z.of_N x) s.
Proof.
  induction (N.lt_wf_0 x) as [x _ IH]; intros s.
  assert (x = 0 ∨ 0 < x)%N as [->|Hx] by lia.
  - exists 0%Z. split; [done|]. intros acc. rewrite pretty_N_go_0. f_equal. lia.
  - rewrite pretty_N_go_step by done.
    destruct (IH (x `div` 10)%N (N.div_lt x 10 Hx eq_refl)
                (String (pretty_N_char (x `mod` 10)) s)) as (k & Hk & Hval).
    exists (k + 1)%Z. split; [lia|]. intros acc. rewrite Hval. cbn [Spec.digits_value].
    f_equal. rewrite digit_val_pretty by (by apply N.mod_lt).
    rewrite Z.pow_add_r, Z.pow_1_r by lia.
    pose proof (N.div_mod x 10 ltac:(done)) as Hdm.
    apply (f_equal Z.of_N) in Hdm. rewrite N2Z.inj_add, N2Z.inj_mul in Hdm.
    change (Z.of_N 10) with 10%Z in Hdm. lia.
Qed.

Lemma digits_go_value (s : string) :
  str_forall is_digit s = true →
  ∀ acc n, ∃ m, (n ≤ m)%nat ∧ digits_go acc n s = (Spec.digits_value acc s, m, "").
Proof.
  induction s as [|c s IH]; intros Hs acc n; [by exists n|].
  apply str_forall_cons in Hs as [Hc Hs]. cbn [digits_go Spec.digits_value].
  rewrite Hc. destruct (IH Hs (10 * acc + digit_val c)%Z (S n)) as (m & Hm & ->).
  exists m. split; [lia|done].
Qed.

Lemma lower_digit (c : ascii) : is_digit c = true → lower c = c.
Proof. destruct c as [[] [] [] [] [] [] [] []]; done. Qed.

(** [float] reads a non-empty string of digits as the number it stands for. *)
Lemma py_float_digits (s : string) :
  str_forall is_digit s = true → s ≠ "" → py_float s = Ok (of_Z (Spec.digits_value 0 s)).
Proof.
  intros Hs Hne. unfold py_float. rewrite num_strip_digits by done.
  destruct s as [|a s]; [done|].
  pose proof Hs as [Ha Hs']%str_forall_cons.
  destruct (digit_not_sign a Ha) as (Hp & Hm & _).
  unfold sign_split, eat. rewrite !bool_decide_eq_false_2 by done.
  cbn [lower_str]. rewrite (lower_digit a Ha).
  rewrite !bool_decide_eq_false_2.
  2,3,4: intros [= -> _]; done.
  cbn [orb].
  unfold floatnumber, opt_digitpart, digitpart. rewrite Ha.
  destruct (digits_go_value s Hs' (digit_val a) 1) as (m & Hcount & ->).
  cbn [eat]. destruct (Nat.eqb_spec (m + 0) 0) as [Hm0|_]; [lia|].
  cbn [exponent]. f_equal. unfold of_Z. f_equal.
  cbn [Spec.digits_value]. apply Qc_is_canon. cbn [Q2Qc this].
  rewrite !Qred_correct. rewrite Z.sub_0_r. cbn [Z.of_nat Qpower].
  rewrite Z.pow_0_r, Z.mul_1_r, Z.add_0_r, Qmult_1_r. by rewrite Z.mul_0_r, Z.add_0_l.
Qed.

(** [float] reads the decimal numeral of a number as that number. *)
Lemma py_float_pretty (n : N) : py_float (pretty n) = Ok (of_Z (Z.of_N n)).
Proof.
  destruct (pretty_N_digits n) as [Hd Hne]. rewrite py_float_digits by done.
  do 2 f_equal. unfold pretty, pretty_N. case_decide as Hn; [by subst n|].
  destruct (digits_value_pretty n "") as (k & _ & ->). cbn [Spec.digits_value]. lia.
Qed.

(** *** One entry *)

Lemma span_by_app (P : ascii → bool) (x r : string) :
  str_forall P x = true →
  (∀ a t, r = String a t → P a = false) →
  span_by P (x +:+ r) = (x, r).
Proof.
  intros Hx Hr. induction x as [|a x IH].
  - rewrite str_app_nil_l. destruct r as [|a t]; [done|].
    cbn [span_by]. by rewrite (Hr a t).
  - apply str_forall_cons in Hx as [Ha Hx]. rewrite str_app_cons. cbn [span_by].
    by rewrite Ha, IH.
Qed.

Lemma digit_value_char (c : ascii) : is_digit c = true → is_value_char c = true.
Proof. intros Hc. unfold is_value_char. by rewrite Hc. Qed.

Lemma digit_not_space (c : ascii) : is_digit c = true → is_space c = false.
Proof. destruct c as [[] [] [] [] [] [] [] []]; done. Qed.

Lemma digit_not_comma (c : ascii) : is_digit c = true → c ≠ ","%char.
Proof. destruct c as [[] [] [] [] [] [] [] []]; done. Qed.

Lemma eat_same (c : ascii) (s : string) : eat c (String c s) = Some s.
Proof. unfold eat. by rewrite bool_decide_eq_true_2. Qed.

Lemma eat_other (c a : ascii) (s : string) : a ≠ c → eat c (String a s) = None.
Proof. intros Hne. unfold eat. by rewrite bool_decide_eq_false_2. Qed.

Lemma value_token (key val : string) :
  val ≠ "" → lstrip_by is_space val = val → span_by is_value_char val = (val, "") →
  match eat ":" (String ":" val) with
  | Some r3 =>
      let '(v, r4) := span_by is_value_char (lstrip_by is_space r3) in
      if bool_decide (v = "") then None
      else if bool_decide (r4 = "") || bool_decide (r4 = String "010" "")
           then Some (key, v)
           else None
  | None => None
  end = Some (key, val).
Proof.
  intros Hne Hl Hv. rewrite eat_same, Hl, Hv.
  rewrite bool_decide_eq_false_2 by done. by rewrite bool_decide_eq_true_2.
Qed.

(** The token of an entry: its key and the numeral of its count. *)
Lemma hist_token_entry (key : string) (n : N) :
  Spec.hist_key key → hist_token (Spec.entry_text (key, n)) = Some (key, pretty n).
Proof.
  intros (ds & Hne & Hds & Hkey). unfold Spec.entry_text. cbn [fst snd].
  destruct (pretty_N_digits n) as [Hd Hpne].
  assert (lstrip_by is_space (pretty n) = pretty n) as Hl.
  { destruct (pretty n) as [|a t]; [done|]. apply lstrip_by_head.
    apply str_forall_cons in Hd as [Ha _]. by apply digit_not_space. }
  assert (span_by is_value_char (pretty n) = (pretty n, "")) as Hv.
  { rewrite <- (str_app_nil_r (pretty n)) at 1. apply span_by_app; [|done].
    eapply str_forall_impl; [apply digit_value_char|done]. }
  unfold hist_token. destruct Hkey as [->| ->].
  - rewrite (span_by_app is_digit ds (":" +:+ pretty n)) by (done || by intros a t [= <- _]).
    cbv beta iota. rewrite (bool_decide_eq_false_2 (ds = "")) by done.
    rewrite str_app_cons, str_app_nil_l. rewrite eat_other by done.
    by apply value_token.
  - rewrite str_app_assoc.
    rewrite (span_by_app is_digit ds ("+" +:+ ":" +:+ pretty n))
      by (done || by intros a t [= <- _]).
    cbv beta iota. rewrite (bool_decide_eq_false_2 (ds = "")) by done.
    rewrite !str_app_cons, !str_app_nil_l. rewrite eat_same.
    by apply value_token.
Qed.

Lemma parse_hist_step_entry (out : pydict string pyfloat) (key : string) (n : N) :
  Spec.hist_key key →
  parse_hist_step out (Spec.entry_text (key, n)) = dict_set key (of_Z (Z.of_N n)) out.
Proof.
  intros Hkey. unfold parse_hist_step. rewrite hist_token_entry by done.
  by rewrite py_float_pretty.
Qed.

(** The characters of the text of an entry. *)
Lemma entry_text_chars (key : string) (n : N) :
  Spec.hist_key key →
  str_forall (fun c => negb (is_space c) && negb (bool_decide (c = ","%char)))
    (Spec.entry_text (key, n)) = true
  ∧ Spec.entry_text (key, n) ≠ "".
Proof.
  intros (ds & Hne & Hds & Hkey). unfold Spec.entry_text. cbn [fst snd].
  destruct (pretty_N_digits n) as [Hd _].
  assert (∀ s, str_forall is_digit s = true →
               str_forall (fun c => negb (is_space c) && negb (bool_decide (c = ","%char))) s
               = true) as Hplain.
  { intros s. apply str_forall_impl. intros c Hc.
    rewrite (digit_not_space c Hc). by rewrite bool_decide_eq_false_2 by by apply digit_not_comma. }
  split.
  - destruct Hkey as [->| ->]; rewrite !str_forall_app, (Hplain ds), (Hplain (pretty n)) by done; by vm_compute.
  - destruct Hkey as [->| ->]; by destruct ds.
Qed.

Lemma strip_plain (s : string) :
  str_forall (fun c => negb (is_space c)) s = true → strip s = s.
Proof.
  intros Hs. destruct s as [|a s]; [done|]. unfold strip.
  pose proof Hs as [Ha _]%str_forall_cons. apply negb_true_iff in Ha.
  rewrite lstrip_by_head by done. by apply rstrip_by_none.
Qed.

(** *** The text of a histogram *)

Lemma split_app_sep (sep : ascii) (x y : string) :
  str_forall (fun c => negb (bool_decide (c = sep))) x = true →
  split sep (x +:+ String sep y) = x :: split sep y.
Proof.
  induction x as [|a x IH]; intros Hx.
  - rewrite str_app_nil_l. cbn [split]. by rewrite bool_decide_eq_true_2.
  - apply str_forall_cons in Hx as [Ha Hx]. apply negb_true_iff in Ha.
    rewrite str_app_cons. cbn [split]. rewrite Ha. by rewrite IH.
Qed.

(** The parts of the text of a histogram, stripped: the texts of its entries. *)
Lemma hist_text_parts (es : list (string * N)) (lead : string) :
  Forall (fun e => Spec.hist_key e.1) es → es ≠ [] →
  str_forall is_space lead = true →
  filter (fun p => p ≠ "") (strip <$> split "," (lead +:+ Spec.hist_text es))
  = Spec.entry_text <$> es.
Proof.
  intros Hes. revert lead. induction Hes as [|[key n] es Hkey Hes IH]; intros lead Hsome Hlead; [done|]. clear Hsome.
  destruct (entry_text_chars key n Hkey) as [Hchars Hne].
  assert (strip (lead +:+ Spec.entry_text (key, n)) = Spec.entry_text (key, n)) as Hstrip.
  { unfold strip. rewrite lstrip_by_app_skip by done. apply strip_plain.
    eapply str_forall_impl; [|exact Hchars]. by intros c [? _]%andb_true_iff. }
  assert (str_forall (fun c => negb (bool_decide (c = ","%char)))
            (lead +:+ Spec.entry_text (key, n)) = true) as Hnocomma.
  { rewrite str_forall_app. apply andb_true_iff. split.
    - eapply str_forall_impl; [|exact Hlead].
      intros c (_ & _ & _ & Hc)%space_not_escape. by rewrite bool_decide_eq_false_2.
    - eapply str_forall_impl; [|exact Hchars]. by intros c [_ ?]%andb_true_iff. }
  destruct es as [|e es].
  - cbn [Spec.hist_text]. rewrite split_plain by done.
    cbn [fmap list_fmap]. rewrite Hstrip, filter_cons, decide_True by done. done.
  - change (Spec.hist_text ((key, n) :: e :: es))
      with (Spec.entry_text (key, n) +:+ ", " +:+ Spec.hist_text (e :: es)).
    replace (lead +:+ Spec.entry_text (key, n) +:+ ", " +:+ Spec.hist_text (e :: es))
      with ((lead +:+ Spec.entry_text (key, n))
            +:+ String "," (" " +:+ Spec.hist_text (e :: es)))
      by (by rewrite !str_app_assoc).
    rewrite split_app_sep by done. rewrite fmap_cons, Hstrip.
    rewrite filter_cons, decide_True by done. rewrite (fmap_cons _ (key, n)). f_equal.
    by apply IH.
Qed.

(** Entries with new keys are put at the end. *)
Lemma dict_set_fresh {V : Type} (d : pydict string V) (k : string) (v : V) :
  k ∉ dict_keys d → dict_set k v d = d ++ [(k, v)].
Proof.
  unfold dict_keys. induction d as [|[k' v'] d IH]; [done|].
  rewrite fmap_cons. intros [Hne Hk]%not_elem_of_cons. cbn [dict_set fst].
  rewrite decide_False by done. by rewrite IH.
Qed.

Lemma parse_entries (es : list (string * N)) (out : pydict string pyfloat) :
  Forall (fun e => Spec.hist_key e.1) es →
  NoDup (dict_keys out ++ es.*1) →
  foldl parse_hist_step out (Spec.entry_text <$> es)
  = out ++ ((fun e => (e.1, of_Z (Z.of_N e.2))) <$> es).
Proof.
  intros Hes. revert out. induction Hes as [|[key n] es Hkey Hes IH]; intros out Hnd.
  - by rewrite app_nil_r.
  - rewrite !fmap_cons. cbn [foldl fst snd]. rewrite parse_hist_step_entry by done.
    rewrite fmap_cons in Hnd. cbn [fst] in Hnd.
    assert (key ∉ dict_keys out) as Hfresh.
    { apply NoDup_app in Hnd as (_ & Hdisj & _). intros Hin. apply (Hdisj key Hin). left. }
    rewrite dict_set_fresh by done. rewrite IH.
    + by rewrite <- app_assoc.
    + unfold dict_keys in *. rewrite fmap_app. cbn [fmap list_fmap fst].
      by rewrite <- app_assoc.
Qed.

End documented_format.

(** X18: a histogram written in the documented format (entries of a key, a
    colon and a count in decimal, separated by a comma and a space; keys made
    of digits, with or without a plus sign at the end, no key twice) is parsed
    into exactly its entries, in their order, with their counts. *)
Theorem parse_hist_documented_format (es : list (string * N)) :
  Forall (fun e => Spec.hist_key e.1) es →
  NoDup es.*1 →
  plot_phase1.parse_hist (VStr (Spec.hist_text es))
  = (fun e => (e.1, of_Z (Z.of_N e.2))) <$> es.
Proof.
  intros Hes Hnd. destruct es as [|e es]; [done|].
  unfold plot_phase1.parse_hist.
  assert (∀ p, (filter (fun p => p ≠ "") (strip <$> split "," p)) ≠ [] → strip p ≠ "") as Hnonblank.
  { intros p Hparts Hblank. apply Hparts. clear Hparts.
    destruct (rstrip_by_decomp is_space (lstrip_by is_space p)) as (w2 & Hp2 & Hw2).
    destruct (lstrip_by_decomp is_space p) as (w1 & Hp1 & Hw1).
    unfold strip in Hblank. rewrite Hblank, str_app_nil_l in Hp2. rewrite Hp2 in Hp1.
    rewrite Hp1. rewrite split_plain.
    - cbn [fmap list_fmap]. rewrite filter_cons.
      assert (strip (w1 +:+ w2) = "") as ->; [|by rewrite decide_False by (by intros ?)].
      unfold strip. rewrite lstrip_by_app_skip by done.
      destruct (rstrip_by_decomp is_space (lstrip_by is_space w2)) as (w3 & H3 & _).
      destruct (lstrip_by is_space w2) eqn:E; [done|].
      exfalso. destruct (lstrip_by_decomp is_space w2) as (w4 & H4 & H5).
      rewrite E in H4. assert (str_forall is_space (lstrip_by is_space w2) = true) as Hall
        by by apply lstrip_by_sub.
      rewrite E in Hall. apply str_forall_cons in Hall as [Ha _].
      clear -E Ha. revert E. induction w2 as [|b w2 IH]; [done|]. cbn [lstrip_by].
      destruct (is_space b) eqn:Hb; [done|]. intros [= -> _]. congruence.
    - rewrite str_forall_app. apply andb_true_iff. split;
        (eapply str_forall_impl; [|done]);
        intros c (_ & _ & _ & Hc)%space_not_escape; by rewrite bool_decide_eq_false_2. }
  pose proof (hist_text_parts (e :: es) "" Hes ltac:(done) eq_refl) as Hparts.
  rewrite str_app_nil_l in Hparts.
  rewrite bool_decide_eq_false_2.
  2:{ apply Hnonblank. by rewrite Hparts. }
  rewrite Hparts, parse_entries; [done|done|done].
Qed.

Lemma parse_hist_documented_format_witness :
  plot_phase1.parse_hist (VStr (Spec.hist_text [("0", 123%N); ("1", 456%N); ("32+", 789%N)]))
  = (fun e => (e.1, of_Z (Z.of_N e.2))) <$> [("0", 123%N); ("1", 456%N); ("32+", 789%N)].
Proof.
  apply (parse_hist_documented_format [("0", 123%N); ("1", 456%N); ("32+", 789%N)]).
  - repeat apply Forall_cons_2; [| | |apply Forall_nil_2].
    + exists "0". split; [done|]. split; [done|by left].
    + exists "1". split; [done|]. split; [done|by left].
    + exists "32". split; [done|]. split; [done|by right].
  - compute_done.
Defined.


(** ** Histogram files *)

Section histogram_files.
Import plot_bdev.

(** [int] reads the decimal numeral of a number as that number. *)
Lemma py_int_pretty (n : N) : py_int (pretty n) = Ok (Z.of_N n).
Proof.
  destruct (pretty_N_digits n) as [Hd Hne]. unfold py_int.
  rewrite num_strip_digits by done.
  destruct (pretty n) as [|a s] eqn:Hp; [done|].
  pose proof Hd as [Ha Hs]%str_forall_cons.
  destruct (digit_not_sign a Ha) as (Hplus & Hminus & _).
  unfold sign_split, eat. rewrite !bool_decide_eq_false_2 by done.
  unfold digitpart. rewrite Ha.
  destruct (digits_go_value s Hs (digit_val a) 1) as (m & _ & ->).
  f_equal.
  assert (Spec.digits_value (digit_val a) s = Spec.digits_value 0 (String a s)) as -> by done.
  rewrite <- Hp. unfold pretty, pretty_N. case_decide as Hn; [by subst n|].
  destruct (digits_value_pretty n "") as (k & _ & ->). cbn [Spec.digits_value]. lia.
Qed.

Lemma after_prefix_app (p s : string) : after_prefix p (p +:+ s) = Some s.
Proof.
  induction p as [|a p IH]; [by destruct s|].
  rewrite str_app_cons. cbn [after_prefix]. by rewrite bool_decide_eq_true_2.
Qed.

Lemma span_digits (n : N) (r : string) :
  (∀ a t, r = String a t → is_digit a = false) →
  plot_phase1.span_by is_digit (pretty n +:+ r) = (pretty n, r).
Proof. intros Hr. apply span_by_app; [apply pretty_N_digits|done]. Qed.

Lemma tags_here_name (size qd rn : N) :
  tags_here (Spec.hist_name size qd rn) = Some (pretty size, pretty qd, pretty rn).
Proof.
  unfold tags_here, Spec.hist_name.
  rewrite after_prefix_app. cbn [mbind option_bind].
  rewrite span_digits by (by intros a t [= <- _]).
  rewrite bool_decide_eq_false_2 by apply pretty_N_digits.
  rewrite after_prefix_app. cbn [mbind option_bind].
  rewrite span_digits by (by intros a t [= <- _]).
  rewrite bool_decide_eq_false_2 by apply pretty_N_digits.
  rewrite after_prefix_app. cbn [mbind option_bind].
  rewrite span_digits by (by intros a t [= <- _]).
  rewrite bool_decide_eq_false_2 by apply pretty_N_digits.
  by rewrite (after_prefix_app ".csv" "" : after_prefix ".csv" ".csv" = Some "").
Qed.

Lemma search_tags_here (name : string) (groups : string * string * string) :
  tags_here name = Some groups → search_tags name = Some groups.
Proof. intros H. destruct name; cbn [search_tags]; by rewrite H. Qed.

(** The rows of a reader, converted with the tags of the file. *)
Lemma rows_of_reader (size qd rn : Z) (reader : list (pydict (option string) rawcell)) :
  ∃ rows,
    rmapM (hist_row_of size qd rn) reader = Ok rows
    ∧ Forall (fun r => io_size r = of_Z size ∧ queue_depth r = of_Z qd ∧ run r = of_Z rn)
             (omap id rows)
    ∧ Forall2 (fun raw r =>
                 hist_cell raw "start_us" = Ok (start_us r)
                 ∧ hist_cell raw "end_us" = Ok (end_us r)
                 ∧ hist_cell raw "count" = Ok (count r))
              (filter (fun raw => Spec.readable raw = true) reader) (omap id rows).
Proof.
  assert (∀ (raw : pydict (option string) rawcell) k e,
            hist_cell raw k = Raise e → e = ValueError ∨ e = TypeError) as Hexn.
  { intros raw k e. unfold hist_cell.
    destruct (dict_get (Some k) raw) as [[|s|[|? ?]]|]; try done.
    - case_bool_decide; [done|]. intros ->%py_float_raises. by left.
    - intros [= <-]. by right. }
  induction reader as [|raw reader (rows & Hrows & Htags & Hcells)].
  - exists []. split; [done|]. split; constructor.
  - cbn [rmapM]. rewrite Hrows. rewrite filter_cons.
    unfold hist_row_of, Spec.readable.
    destruct (hist_cell raw "start_us") as [s|e1] eqn:E1; cbn [rbind].
    2:{ destruct (Hexn _ _ _ E1) as [-> | ->]; cbn [rbind];
          (eexists; split; [done|]); rewrite decide_False by done; done. }
    destruct (hist_cell raw "end_us") as [e|e2] eqn:E2; cbn [rbind].
    2:{ destruct (Hexn _ _ _ E2) as [-> | ->]; cbn [rbind];
          (eexists; split; [done|]); rewrite decide_False by done; done. }
    destruct (hist_cell raw "count") as [c|e3] eqn:E3; cbn [rbind].
    2:{ destruct (Hexn _ _ _ E3) as [-> | ->]; cbn [rbind];
          (eexists; split; [done|]); rewrite decide_False by done; done. }
    eexists. split; [done|]. rewrite decide_True by done.
    cbn [omap list_omap id]. split; constructor; done.
Qed.

End histogram_files.

(** X19: the rows loaded from a histogram file named after an IO size, a
    queue depth and a run (decimal numerals).  Loading does not fail; every
    row loaded carries these three numbers as its tags; and the rows loaded are,
    in order, the rows of the file whose three cells (start, end, count) are
    each absent, empty or a numeral, with the values of these cells: a row with
    a cell that is not a number is left out as a whole.  Of three rows, one
    full, one with an empty count and no end, one with a count that is not a
    number, the first two are loaded, the second with zeros. *)
Theorem load_histograms_tagged :
  (∀ (size qd rn : N) (reader : list (pydict (option string) plot_bdev.rawcell)),
     ∃ out,
       plot_bdev.load_histograms [(Spec.hist_name size qd rn, reader)] = Ok out
       ∧ Forall (fun r => plot_bdev.io_size r = of_Z (Z.of_N size)
                          ∧ plot_bdev.queue_depth r = of_Z (Z.of_N qd)
                          ∧ plot_bdev.run r = of_Z (Z.of_N rn)) out
       ∧ Forall2 (fun raw r =>
                    plot_bdev.hist_cell raw "start_us" = Ok (plot_bdev.start_us r)
                    ∧ plot_bdev.hist_cell raw "end_us" = Ok (plot_bdev.end_us r)
                    ∧ plot_bdev.hist_cell raw "count" = Ok (plot_bdev.count r))
                 (filter (fun raw => Spec.readable raw = true) reader) out)
  ∧ plot_bdev.load_histograms [("hist_s4096_q8_r1.csv", Samples.hist_reader)]
    = Ok [plot_bdev.HistRow (of_Z 4096) (of_Z 8) (of_Z 1) (of_Z 0) (of_Z 5) (of_Z 12);
          plot_bdev.HistRow (of_Z 4096) (of_Z 8) (of_Z 1) (of_Z 5) (of_Z 0) (of_Z 0)].
Proof.
  split; [|compute_done].
  intros size qd rn reader.
  unfold plot_bdev.load_histograms. cbn [rmapM fst snd].
  unfold plot_bdev.load_histogram_file.
  rewrite (search_tags_here _ _ (tags_here_name size qd rn)).
  rewrite !py_int_pretty. cbn [rbind].
  destruct (rows_of_reader (Z.of_N size) (Z.of_N qd) (Z.of_N rn) reader)
    as (rows & -> & Htags & Hcells).
  cbn [rbind mjoin list_join]. rewrite app_nil_r. by exists (omap id rows).
Qed.


(** ** A quoted cell over several lines, from the file to its values *)

Section multiline_cells.
Import plot_multicore.

(** *** The reader on a row of an identifier and a quoted cell *)





(** *** The lines of the row and the text of the cell *)

Lemma foldl_join (start : string) (lines : list string) (tail : string) :
  foldl (fun text line => text +:+ "\n" +:+ line) start lines +:+ tail
  = start +:+ foldr (fun line text => "\n" +:+ line +:+ text) tail lines.
Proof.
  revert start. induction lines as [|l lines IH]; intros start; [done|].
  cbn [foldl foldr]. rewrite IH. by rewrite !str_app_assoc.
Qed.




(** *** The values of the cell *)




End multiline_cells.


